(** * Mesh agents: Solana wallet agent and Bitquery Solana token-info agent

    A shallow embedding of [mesh/sol_wallet_agent.py] and
    [mesh/bitquery_solana_token_info_agent.py], and the properties of the
    dispatch-and-aggregation core stated over it.

    Conventions of the embedding.
    - A Python function that may raise returns [result]; a [try/except
      Exception] is a [match] on that result.
    - JSON objects read by the code are records whose fields are [option]s:
      [None] is an absent key, and [d.get(k, default)] is [get_or].
    - Python numbers (JSON ints and floats) are an abstract type [num] with the
      operations the code uses (class [PyNumber]); nothing is assumed of them
      unless a statement asks for [PyNumberOrder], the laws of a total
      preorder that Python's sort needs to deliver a sorted list, or for
      [ordered_on], the same laws on the numbers of one list.  Binary floats,
      with their NaN, are one of the instances.
    - External collaborators (HTTP transport, the LLM calls, the cache and
      retry decorators) are inputs of the model: upstream responses and LLM
      replies are data, decorators are transparent. *)

From Stdlib Require Import List String Ascii ZArith QArith Lia Bool Arith.
From Stdlib Require Import Permutation Sorted DecimalString.
From Stdlib Require Floats.PrimFloat Numbers.Cyclic.Int63.Uint63.
Import ListNotations.

Open Scope string_scope.
Open Scope list_scope.
Open Scope nat_scope.

(* ------------------------------------------------------------------------ *)
(** ** Exceptions and fallible computations *)

Inductive exn_kind :=
| KeyError
| TypeError
| AttributeError
| ValueError
| ZeroDivisionError
| ClientError
| TimeoutError
| JSONDecodeError
| PlainException.

(** An exception object: its class and [str(e)]. *)
Record exn := Exn { exn_class : exn_kind; exn_str : string }.

Inductive result (A : Type) :=
| Ok (a : A)
| Raise (e : exn).

Arguments Ok {A} a.
Arguments Raise {A} e.

Definition bind {A B} (c : result A) (k : A -> result B) : result B :=
  match c with
  | Ok a => k a
  | Raise e => Raise e
  end.

Notation "x <- c ;; k" := (bind c (fun x => k))
  (at level 61, c at next level, right associativity).

(** [d[k]] on a dict whose key [k] may be absent. *)
Definition getitem {A} (k : string) (field : option A) : result A :=
  match field with
  | Some v => Ok v
  | None => Raise (Exn KeyError ("'" ++ k ++ "'"))
  end.

(** [d.get(k, default)]. *)
Definition get_or {A} (field : option A) (default : A) : A :=
  match field with
  | Some v => v
  | None => default
  end.

Fixpoint mapM {A B} (f : A -> result B) (l : list A) : result (list B) :=
  match l with
  | [] => Ok []
  | x :: l' => y <- f x ;; ys <- mapM f l' ;; Ok (y :: ys)
  end.

Definition is_ok {A} (c : result A) : bool :=
  match c with Ok _ => true | Raise _ => false end.

(* ------------------------------------------------------------------------ *)
(** ** Python numbers *)

Class PyNumber (num : Type) := {
  nconst : Z -> num;              (* an integer literal: 0, 100 *)
  nadd : num -> num -> num;       (* x + y *)
  nsub : num -> num -> num;       (* x - y *)
  nmul : num -> num -> num;       (* x * y *)
  ntruediv : num -> num -> num;   (* x / y, for y != 0 *)
  nfloat : num -> num;            (* float(x) *)
  nltb : num -> num -> bool;      (* x < y *)
  neqb : num -> num -> bool       (* x == y *)
}.

(** What a comparison sort needs of [<] to return a sorted list:
    [x <= y] read as [not (y < x)] is total and transitive. *)
Class PyNumberOrder (num : Type) {N : PyNumber num} : Prop := {
  nltb_asym : forall x y, nltb x y = true -> nltb y x = false;
  nltb_negtrans : forall x y z,
      nltb y x = false -> nltb z y = false -> nltb z x = false
}.

(** The same laws, asked only of the numbers of one list: what a sort of
    that list needs.  Floats have them on every list without a NaN. *)
Definition ordered_on {num} `{PyNumber num} (l : list num) : Prop :=
  (forall x y, In x l -> In y l -> nltb x y = true -> nltb y x = false)
  /\ (forall x y z, In x l -> In y l -> In z l ->
                    nltb y x = false -> nltb z y = false -> nltb z x = false).

(** [x / y]: raises [ZeroDivisionError] on a zero divisor. *)
Definition py_truediv {num} `{PyNumber num} (x y : num) : result num :=
  if neqb y (nconst 0) then Raise (Exn ZeroDivisionError "division by zero")
  else Ok (ntruediv x y).

(** Adding up from the left, starting from [0]. *)
Definition sum_left {num} `{PyNumber num} (l : list num) : num :=
  fold_left nadd l (nconst 0).

(** Python ints: exact. [/] is not used on this instance's clients. *)
#[export] Instance Z_PyNumber : PyNumber Z := {
  nconst z := z;
  nadd := Z.add;
  nsub := Z.sub;
  nmul := Z.mul;
  ntruediv := Z.div;
  nfloat z := z;
  nltb := Z.ltb;
  neqb := Z.eqb
}.

#[export] Instance Z_PyNumberOrder : PyNumberOrder Z.
Proof.
  split; simpl; intros.
  - apply Z.ltb_ge. apply Z.ltb_lt in H. lia.
  - apply Z.ltb_ge. apply Z.ltb_ge in H, H0. lia.
Qed.

(** Exact rationals: floats without rounding. *)
#[export] Instance Q_PyNumber : PyNumber Q := {
  nconst z := inject_Z z;
  nadd := Qplus;
  nsub := Qminus;
  nmul := Qmult;
  ntruediv := Qdiv;
  nfloat q := q;
  nltb x y := negb (Qle_bool y x);
  neqb := Qeq_bool
}.

#[export] Instance Q_PyNumberOrder : PyNumberOrder Q.
Proof.
  split; simpl; intros x y.
  - intros H. apply negb_true_iff in H. apply negb_false_iff.
    apply Qle_bool_iff.
    destruct (Qlt_le_dec y x) as [Hlt | Hle]; [ | exact Hle ].
    apply Qlt_le_weak in Hlt. apply Qle_bool_iff in Hlt. congruence.
  - intros z H H0. apply negb_false_iff in H, H0. apply negb_false_iff.
    apply Qle_bool_iff in H, H0. apply Qle_bool_iff.
    eapply Qle_trans; eassumption.
Qed.

(** Binary64 floats, as Python's [float]: every comparison with NaN is false,
    and a sum with a NaN is NaN.  They have no [PyNumberOrder]. *)
Definition float_of_Z (z : Z) : PrimFloat.float :=
  if Z.ltb z 0 then PrimFloat.opp (PrimFloat.of_uint63 (Uint63.of_Z (- z)))
  else PrimFloat.of_uint63 (Uint63.of_Z z).

#[export] Instance Float_PyNumber : PyNumber PrimFloat.float := {
  nconst := float_of_Z;
  nadd := PrimFloat.add;
  nsub := PrimFloat.sub;
  nmul := PrimFloat.mul;
  ntruediv := PrimFloat.div;
  nfloat x := x;
  nltb := PrimFloat.ltb;
  neqb := PrimFloat.eqb
}.

(* ------------------------------------------------------------------------ *)
(** ** Python's stable sort

    [sorted] and [list.sort] are stable comparison sorts that only ask
    [key a < key b].  On keys where [<] never raises they are modelled by
    stable insertion sort; [precedes y x] says that [y] has to come strictly
    before [x]:
    - [sorted(l, key=k)]:                [precedes y x := k y < k x]
    - [sorted(l, key=k, reverse=True)]:  [precedes y x := k x < k y]
    and elements between which [precedes] does not decide keep their order.
    Where [<] is a total preorder on the keys this is the one list a stable
    sort can return.  Where it is not (a NaN among float keys) the result
    depends on the comparisons the algorithm happens to make; the instance
    with a NaN below is one on which CPython's sort makes no exchange either:
    reversed, the list [300, nan, 200] is a single run. *)

Section StableSort.
Context {A : Type} (precedes : A -> A -> bool).

Fixpoint insert_stable (x : A) (l : list A) : list A :=
  match l with
  | [] => [x]
  | y :: l' => if precedes y x then y :: insert_stable x l' else x :: y :: l'
  end.

Definition sort_stable (l : list A) : list A :=
  fold_right insert_stable [] l.

End StableSort.

Definition sorted_asc {A K} (ltb : K -> K -> bool) (key : A -> K) : list A -> list A :=
  sort_stable (fun y x => ltb (key y) (key x)).

Definition sorted_desc {A K} (ltb : K -> K -> bool) (key : A -> K) : list A -> list A :=
  sort_stable (fun y x => ltb (key x) (key y)).

(* ------------------------------------------------------------------------ *)
(** ** Computations that call collaborators

    A computation that may raise and that records, in order, the calls it
    makes to the outside (the LLM, an operation). *)

Definition traced (event A : Type) : Type := list event * result A.

Definition tret {event A} (a : A) : traced event A := ([], Ok a).

Definition tbind {event A B} (c : traced event A) (k : A -> traced event B)
  : traced event B :=
  match c with
  | (t, Ok a) => let (t', r) := k a in (t ++ t', r)
  | (t, Raise e) => (t, Raise e)
  end.

Definition emit {event} (e : event) : traced event unit := ([e], Ok tt).

Definition lift {event A} (r : result A) : traced event A := ([], r).

Notation "x <~ c ;; k" := (tbind c (fun x => k))
  (at level 61, c at next level, right associativity).

(** Truthiness of an optional string: absent, [None] and [""] are falsy. *)
Definition truthy_str (s : option string) : bool :=
  match s with
  | Some s => negb (String.eqb s "")
  | None => false
  end.

Definition present {A} (f : option A) : bool :=
  match f with Some _ => true | None => false end.

(** ** A sort whose comparisons may raise

    The same insertion sort, for keys on which [<] is partial (a [None]
    among strings): the first comparison that raises ends the sort.  A
    comparison sort of two or more elements compares every element with
    another one, so on keys where [<] is defined exactly inside one class of
    values the sort raises for the same inputs whatever its strategy. *)

Section CheckedSort.
Context {A K : Type} (lt : K -> K -> result bool) (key : A -> K).

Fixpoint insert_checked (x : A) (l : list A) : result (list A) :=
  match l with
  | [] => Ok [x]
  | y :: l' =>
      b <- lt (key y) (key x) ;;
      if b then (r <- insert_checked x l' ;; Ok (y :: r)) else Ok (x :: y :: l')
  end.

Fixpoint sort_checked (l : list A) : result (list A) :=
  match l with
  | [] => Ok []
  | x :: l' => s <- sort_checked l' ;; insert_checked x s
  end.

End CheckedSort.

(* ------------------------------------------------------------------------ *)
(** ** asyncio.gather

    [await asyncio.gather] over the list [tasks] starts every task, lets them finish in
    whatever order the event loop and the network decide, and returns the
    results in the order of [tasks].  Task [i] finishes after [latency i];
    each finished task writes its own result slot. *)

Definition completion_order (latency : nat -> nat) (n : nat) : list nat :=
  sorted_asc Nat.ltb latency (seq 0 n).

Fixpoint set_slot {B} (i : nat) (v : B) (slots : list (option B)) : list (option B) :=
  match slots, i with
  | [], _ => []
  | _ :: rest, O => Some v :: rest
  | s :: rest, S i' => s :: set_slot i' v rest
  end.

Definition complete_task {A B} (run : A -> B) (tasks : list A)
  (slots : list (option B)) (i : nat) : list (option B) :=
  match nth_error tasks i with
  | Some t => set_slot i (run t) slots
  | None => slots
  end.

Definition collect_slots {B} (slots : list (option B)) : list B :=
  flat_map (fun s => match s with Some v => [v] | None => [] end) slots.

Definition gather {A B} (latency : nat -> nat) (run : A -> B) (tasks : list A) : list B :=
  collect_slots
    (fold_left (complete_task run tasks)
       (completion_order latency (List.length tasks))
       (repeat None (List.length tasks))).

(* ------------------------------------------------------------------------ *)
(** ** Insertion-ordered dict with string keys ([token_map]) *)

Definition dict (V : Type) := list (string * V).

Definition dict_mem {V} (k : string) (d : dict V) : bool :=
  existsb (fun kv => String.eqb (fst kv) k) d.

Fixpoint dict_get {V} (k : string) (d : dict V) : option V :=
  match d with
  | [] => None
  | (k', v) :: d' => if String.eqb k' k then Some v else dict_get k d'
  end.

(** [d[k] = v] for a key that is not in [d] yet: appended last. *)
Definition dict_add {V} (k : string) (v : V) (d : dict V) : dict V :=
  d ++ [(k, v)].

(** In-place mutation of the value stored under [k]. *)
Fixpoint dict_modify {V} (k : string) (f : V -> V) (d : dict V) : dict V :=
  match d with
  | [] => []
  | (k', v) :: d' =>
      if String.eqb k' k then (k', f v) :: d' else (k', v) :: dict_modify k f d'
  end.

Definition dict_values {V} (d : dict V) : list V := map snd d.

(* ------------------------------------------------------------------------ *)
(** * [mesh/sol_wallet_agent.py] *)

Module SolWalletAgent.

Section Agent.
Context {num : Type} {N : PyNumber num}.

(** *** The Helius [searchAssets] response, as the code reads it

    The records are the replies in which a key is absent ([None]) or holds a
    value of the type the code goes on to use.  A reply outside them, with a
    JSON [null] where the body calls [.get] on the value or compares it with
    [100] (["token_info"], ["content"], ["total_price"]), makes the body of
    [get_wallet_assets] raise, and its [except] returns the empty list: for
    the caller it is one more failed fetch. *)

Record price_info := {
  pi_price_per_token : option num;
  pi_total_price : option num;
  pi_currency : option string
}.

Record token_info := {
  ti_symbol : option string;
  ti_price_info : option price_info
}.

Record file := { cdn_uri : option string }.

Record content := { files : option (list file) }.

Record item := {
  id : option string;
  it_token_info : option token_info;
  mutable : option bool;
  it_content : option content
}.

Record native_balance := {
  lamports : option num;
  price_per_sol : option num;
  nb_total_price : option num
}.

Record search_result := {
  sr_total : option num;
  items : option (list item);
  nativeBalance : option native_balance
}.

(** The JSON-RPC reply object; only its ["result"] key is read. *)
Record rpc_reply := { rpc_result : option search_result }.

(** Truthiness of a dict: it has at least one key. *)
Definition price_info_truthy (p : price_info) : bool :=
  present (pi_price_per_token p) || present (pi_total_price p) || present (pi_currency p).

Definition native_balance_truthy (b : native_balance) : bool :=
  present (lamports b) || present (price_per_sol b) || present (nb_total_price b).

Definition search_result_truthy (r : search_result) : bool :=
  present (sr_total r) || present (items r) || present (nativeBalance r).

(** What the HTTP session does for one request: a status with the decoded
    body ([None] is JSON [null]), or a transport exception. *)
Inductive http_outcome :=
| HttpResponse (status : Z) (body : option rpc_reply)
| HttpFailure (e : exn).

(** [_request] / [_post]: 200 gives the body, 429 raises, any other status
    logs and gives [{}]; [aiohttp.ClientError]s are re-raised. *)
Definition _post (o : http_outcome) : result (option rpc_reply) :=
  match o with
  | HttpResponse status body =>
      if Z.eqb status 200 then Ok body
      else if Z.eqb status 429 then
        Raise (Exn ClientError "Request failed: Rate limit exceeded")
      else Ok (Some {| rpc_result := None |})
  | HttpFailure e =>
      match exn_class e with
      | ClientError => Raise (Exn ClientError ("Request failed: " ++ exn_str e))
      | _ => Raise e
      end
  end.

(** *** Wallet assets *)

Record holding := {
  token_address : string;
  token_img : string;
  symbol : string;
  price_per_token : num;
  total_price : num
}.

Definition sol_address : string := "So11111111111111111111111111111111111111112".

Definition empty_token_info : token_info :=
  {| ti_symbol := None; ti_price_info := None |}.

Definition empty_price_info : price_info :=
  {| pi_price_per_token := None; pi_total_price := None; pi_currency := None |}.

Definition empty_content : content := {| files := None |}.

Definition empty_file : file := {| cdn_uri := None |}.

(** [item.get("token_info", {}).get("price_info")
     and item["token_info"]["price_info"].get("total_price", 0) > 100] *)
Definition has_price_above_100 (it : item) : bool :=
  match ti_price_info (get_or (it_token_info it) empty_token_info) with
  | Some p =>
      price_info_truthy p && nltb (nconst 100) (get_or (pi_total_price p) (nconst 0))
  | None => false
  end.

(** [not asset.get("mutable", False)] *)
Definition not_mutable (asset : item) : bool :=
  negb (get_or (mutable asset) false).

(** The native SOL entry: [if native_balance := result.get("nativeBalance")]. *)
Definition native_holding (r : search_result) : list holding :=
  match nativeBalance r with
  | Some nb =>
      if native_balance_truthy nb then
        [ {| token_address := sol_address;
             token_img := "";
             symbol := "SOL";
             price_per_token := get_or (price_per_sol nb) (nconst 0);
             total_price := get_or (nb_total_price nb) (nconst 0) |} ]
      else []
  | None => []
  end.

(** [(files[0] if files else {}).get("cdn_uri", "")] *)
Definition asset_img (asset : item) : string :=
  let fs := files (get_or (it_content asset) empty_content) in
  let first :=
    match fs with
    | Some (f :: _) => f
    | _ => empty_file
    end in
  get_or (cdn_uri first) "".

Definition asset_holding (asset : item) : result holding :=
  a_id <- getitem "id" (id asset) ;;
  let ti := get_or (it_token_info asset) empty_token_info in
  let p := get_or (ti_price_info ti) empty_price_info in
  Ok {| token_address := a_id;
        token_img := asset_img asset;
        symbol := get_or (ti_symbol ti) "";
        price_per_token := get_or (pi_price_per_token p) (nconst 0);
        total_price := get_or (pi_total_price p) (nconst 0) |}.

(** The body of [get_wallet_assets] inside its [try]. *)
Definition get_wallet_assets_try (o : http_outcome) : result (list holding) :=
  data <- _post o ;;
  match data with
  | None => Ok []
  | Some d =>
      match rpc_result d with
      | None => Ok []
      | Some r =>
          if negb (search_result_truthy r) then Ok []
          else
            its <- getitem "items" (items r) ;;
            let filtered_assets := filter has_price_above_100 its in
            let non_mutable_assets := filter not_mutable filtered_assets in
            let hold_tokens := native_holding r in
            others <- mapM asset_holding non_mutable_assets ;;
            Ok (hold_tokens ++ others)
      end
  end.

(** [get_wallet_assets]: [except Exception: return []]. *)
Definition get_wallet_assets (o : http_outcome) : list holding :=
  match get_wallet_assets_try o with
  | Ok hold_tokens => hold_tokens
  | Raise _ => []
  end.

(** *** Holder analysis *)

Record holder := {
  address : string;
  amount : num;
  percentage : string
}.

Record contribution := {
  c_address : string;
  c_total_price : num;
  c_percentage : string;
  gmgn_link_owner_address : string
}.

Record token_aggregate := {
  a_token_address : string;
  a_token_img : string;
  a_symbol : string;
  a_price_per_token : num;
  total_holding_value : num;
  holders : list contribution;
  gmgn_referral_link : option string
}.

(** Everything outside the aggregator that one call of [analyze_holders]
    depends on: what [_get_holders] returns (it turns its own failures into
    []), what the indexer answers for each wallet, and how long each of the
    concurrent wallet fetches takes. *)
Record world := {
  _get_holders : string -> Z -> list holder;
  assets_reply : string -> http_outcome;
  latency : nat -> nat
}.

Definition raydium_address : string := "5Q544fKrFoe6tsEbD7S8EmxGTJYAKtTVhAW5Q5pge4j1".

Definition new_aggregate (token : holding) : token_aggregate :=
  {| a_token_address := token_address token;
     a_token_img := token_img token;
     a_symbol := symbol token;
     a_price_per_token := price_per_token token;
     total_holding_value := nconst 0;
     holders := [];
     gmgn_referral_link := None |}.

Definition contribution_of (h : holder) (token : holding) : contribution :=
  {| c_address := address h;
     c_total_price := total_price token;
     c_percentage := percentage h;
     gmgn_link_owner_address := "https://gmgn.ai/sol/address/" ++ address h |}.

(** [token_map[k]["total_holding_value"] += p; token_map[k]["holders"].append(c)] *)
Definition accumulate (h : holder) (token : holding) (a : token_aggregate) : token_aggregate :=
  {| a_token_address := a_token_address a;
     a_token_img := a_token_img a;
     a_symbol := a_symbol a;
     a_price_per_token := a_price_per_token a;
     total_holding_value := nadd (total_holding_value a) (total_price token);
     holders := holders a ++ [contribution_of h token];
     gmgn_referral_link := gmgn_referral_link a |}.

(** One iteration of [for token in assets]. *)
Definition merge_token (h : holder) (token_map : dict token_aggregate) (token : holding)
  : dict token_aggregate :=
  let k := token_address token in
  let token_map :=
    if negb (dict_mem k token_map) then dict_add k (new_aggregate token) token_map
    else token_map in
  dict_modify k (accumulate h token) token_map.

(** One iteration of [for holder, assets in zip(top_holders, assets_results)]. *)
Definition merge_holder (token_map : dict token_aggregate) (ha : holder * list holding)
  : dict token_aggregate :=
  fold_left (merge_token (fst ha)) (snd ha) token_map.

Definition merge_all (top_holders : list holder) (assets_results : list (list holding))
  : dict token_aggregate :=
  fold_left merge_holder (combine top_holders assets_results) [].

(** The second loop: holders re-sorted and cut to 5, referral link added. *)
Definition finish_token (token : token_aggregate) : token_aggregate :=
  {| a_token_address := a_token_address token;
     a_token_img := a_token_img token;
     a_symbol := a_symbol token;
     a_price_per_token := a_price_per_token token;
     total_holding_value := total_holding_value token;
     holders := firstn 5 (sorted_desc nltb c_total_price (holders token));
     gmgn_referral_link := Some "https://gmgn.ai/?ref=WtaAO4Jn&chain=sol" |}.

Definition top_holders_of (hs : list holder) : list holder :=
  filter (fun h => negb (String.eqb (address h) raydium_address)) hs.

Definition rank (token_map : dict token_aggregate) : list token_aggregate :=
  let sorted_tokens :=
    firstn 5 (sorted_desc nltb total_holding_value (dict_values token_map)) in
  map finish_token sorted_tokens.

(** [analyze_holders].  Every record it touches is built by this module with
    all its keys, so nothing inside its [try] raises. *)
Definition analyze_holders (w : world) (token_address : string) (top_n : Z)
  : list token_aggregate :=
  match _get_holders w token_address top_n with
  | [] => []
  | hs =>
      let top_holders := top_holders_of hs in
      let tasks := map address top_holders in
      let assets_results :=
        gather (latency w) (fun a => get_wallet_assets (assets_reply w a)) tasks in
      rank (merge_all top_holders assets_results)
  end.

(** *** What an aggregate is made of *)

(** The wallet fetch of one holder. *)
Definition fetch (w : world) (h : holder) : list holding :=
  get_wallet_assets (assets_reply w (address h)).


(** Every (holder, token) pair the merge loops visit, in their order. *)
Definition visited (w : world) (top_holders : list holder) : list (holder * holding) :=
  flat_map (fun h => map (pair h) (fetch w h)) top_holders.

Definition holds (k : string) (ht : holder * holding) : bool :=
  String.eqb (token_address (snd ht)) k.

(** The holder records of token [k]: one for each holding of [k] in the
    wallet of a top holder, in the order of the holders. *)
Definition contributions_to (w : world) (top_holders : list holder) (k : string)
  : list contribution :=
  flat_map
    (fun h => map (contribution_of h)
                (filter (fun token => String.eqb (token_address token) k) (fetch w h)))
    top_holders.

(** No element is smaller than a later one. *)
Definition descending_by {A} (key : A -> num) (l : list A) : Prop :=
  StronglySorted (fun a b => nltb (key a) (key b) = false) l.

(** *** Dispatch *)

(** Swap history is not looked into here: [get_tx_history] catches every
    exception itself and always returns a list. *)
Context {tx_record : Type}.

(** The arguments of a tool call, by the tool schemas: every key optional. *)
Record tool_args := {
  owner_address : option string;
  arg_token_address : option string;
  top_n : option Z
}.

Definition no_args : tool_args :=
  {| owner_address := None; arg_token_address := None; top_n := None |}.

(** What a tool call hands back as [data]. *)
Inductive tool_data :=
| DataError (msg : string)                     (* {"error": msg} *)
| DataEmpty                                    (* {} *)
| DataAssets (l : list holding)
| DataAggregates (l : list token_aggregate)
| DataTransactions (l : list tx_record).

(** ["error" in data] *)
Definition has_error_key (d : tool_data) : bool :=
  match d with DataError _ => true | _ => false end.

Record tool_call := {
  tc_id : string;
  function_name : string;
  function_arguments : string
}.

(** [response["tool_calls"]]: the agent expects one tool-call object; a
    client may also hand over a list of them. *)
Inductive tool_calls_value :=
| OneToolCall (tc : tool_call)
| ToolCallList (l : list tool_call).

Record llm_response := {
  llm_content : option string;
  llm_tool_calls : option tool_calls_value
}.

Definition tool_calls_truthy (v : option tool_calls_value) : bool :=
  match v with
  | None => false
  | Some (OneToolCall _) => true
  | Some (ToolCallList l) => negb (Nat.eqb (List.length l) 0)
  end.

Definition llm_response_truthy (r : option llm_response) : bool :=
  match r with
  | None => false
  | Some r => present (llm_content r) || present (llm_tool_calls r)
  end.

(** The collaborators of one [handle_message] call. *)
Record services := {
  chain : world;
  tx_history : string -> list tx_record;
  call_llm_with_tools_async : string -> result (option llm_response);
  call_llm_async : string -> string -> tool_data -> result string;
  json_loads : string -> result tool_args
}.

Inductive event :=
| LLMToolSelection (query : string)
| Operation (tool_name : string)
| LLMNarration (query : string) (data : tool_data).

(** The response dict of [handle_message]. *)
Inductive reply_value :=
| RString (s : string)
| RData (d : tool_data).

Definition reply := dict reply_value.

Definition envelope (response : string) (data : tool_data) : reply :=
  [("response", RString response); ("data", RData data)].

Definition error_reply (msg : string) : reply := [("error", RString msg)].

(** A [ResponseEnvelope]: a string under ["response"], the data under ["data"]. *)
Definition is_response_envelope (r : reply) : Prop :=
  (exists s, dict_get "response" r = Some (RString s))
  /\ (exists d, dict_get "data" r = Some (RData d)).

(** [_handle_error], on the result of an operation.  Operations of this agent
    return lists, and ["error" in l] asks whether the string is an element of
    the list of records: it is not. *)
Definition _handle_error (r : tool_data) : tool_data :=
  match r with
  | DataError msg => DataError msg
  | _ => DataEmpty
  end.

Definition data_truthy (d : tool_data) : bool :=
  match d with
  | DataError _ => true
  | DataEmpty => false
  | DataAssets l => negb (Nat.eqb (List.length l) 0)
  | DataAggregates l => negb (Nat.eqb (List.length l) 0)
  | DataTransactions l => negb (Nat.eqb (List.length l) 0)
  end.

Definition _handle_tool_logic (s : services) (tool_name : string) (function_args : tool_args)
  : traced event tool_data :=
  result <~
    (if String.eqb tool_name "get_sol_wallet_assets" then
       a <~ lift (getitem "owner_address" (owner_address function_args)) ;;
       _ <~ emit (Operation tool_name) ;;
       tret (Some (DataAssets (get_wallet_assets (assets_reply (chain s) a))))
     else if String.eqb tool_name "analyze_sol_token_holders" then
       t <~ lift (getitem "token_address" (arg_token_address function_args)) ;;
       _ <~ emit (Operation tool_name) ;;
       tret (Some (DataAggregates
                     (analyze_holders (chain s) t (get_or (top_n function_args) 20%Z))))
     else if String.eqb tool_name "get_sol_tx_history" then
       a <~ lift (getitem "owner_address" (owner_address function_args)) ;;
       _ <~ emit (Operation tool_name) ;;
       tret (Some (DataTransactions (tx_history s a)))
     else tret None) ;;
  match result with
  | None => tret (DataError ("Unsupported tool: " ++ tool_name))
  | Some result =>
      let error := _handle_error result in
      if data_truthy error then tret error else tret result
  end.

(** The request.  [tool_arguments] is [None] when the key is absent and the
    arguments object otherwise; a request whose ["tool_arguments"] is [null]
    or not an object is not a [params], and on it the subscript in
    [_handle_tool_logic] raises [TypeError]. *)
Record params := {
  query : option string;
  tool : option string;
  tool_arguments : option tool_args;
  raw_data_only : option bool
}.

(** The body of [handle_message] inside its [try]. *)
Definition handle_message_try (s : services) (p : params) : traced event reply :=
  let tool_args := get_or (tool_arguments p) no_args in
  let raw := get_or (raw_data_only p) false in
  if truthy_str (tool p) then
    data <~ _handle_tool_logic s (get_or (tool p) "") tool_args ;;
    tret (envelope "" data)
  else if truthy_str (query p) then
    let q := get_or (query p) "" in
    _ <~ emit (LLMToolSelection q) ;;
    response <~ lift (call_llm_with_tools_async s q) ;;
    if negb (llm_response_truthy response) then
      tret (error_reply "Failed to process query")
    else
      let response := get_or response {| llm_content := None; llm_tool_calls := None |} in
      if negb (tool_calls_truthy (llm_tool_calls response)) then
        content <~ lift (getitem "content" (llm_content response)) ;;
        tret (envelope content DataEmpty)
      else
        tool_call <~
          lift (match llm_tool_calls response with
                | Some (OneToolCall tc) => Ok tc
                | _ => Raise (Exn AttributeError "'list' object has no attribute 'function'")
                end) ;;
        tool_call_args <~ lift (json_loads s (function_arguments tool_call)) ;;
        data <~ _handle_tool_logic s (function_name tool_call) tool_call_args ;;
        if raw then tret (envelope "" data)
        else
          _ <~ emit (LLMNarration q data) ;;
          explanation <~ lift (call_llm_async s q (tc_id tool_call) data) ;;
          tret (envelope explanation data)
  else
    tret (error_reply "Either 'query' or 'tool' must be provided in the parameters.").

(** [handle_message]: [except Exception as e] turns whatever was raised into
    an error dict.  The calls made so far stay made. *)
Definition handle_message (s : services) (p : params) : list event * reply :=
  match handle_message_try s p with
  | (t, Ok r) => (t, r)
  | (t, Raise e) => (t, error_reply ("Error handling message: " ++ exn_str e))
  end.

End Agent.

End SolWalletAgent.

(* ------------------------------------------------------------------------ *)
(** * [mesh/bitquery_solana_token_info_agent.py] *)

Module BitquerySolanaTokenInfoAgent.

Section Agent.
Context {num : Type} {N : PyNumber num}.

(** [float(s)] on a string: the number, or [None] for [ValueError]. *)
Context (parse_float : string -> option num).

(** The records of [top_ten_trending_tokens] are only passed along. *)
Context {trending_token : Type}.

(** *** The Bitquery [DEXTradeByTokens] rows, as the code reads them *)

Record block := { Time : option string }.

(** The ["volume"] of a row: a numeric string, a number, or [null]. *)
Inductive raw_volume :=
| VolumeString (s : string)
| VolumeNumber (n : num)
| VolumeNull.

Record raw_bucket := {
  Block : option block;
  raw_open : option num;
  raw_max : option num;
  raw_min : option num;
  raw_close : option num;
  raw_volume_field : option raw_volume
}.

(** [requests.post]: a response with its status, its text and its decoded
    body, or a transport exception.  Of the body the code reads
    [response.json()["data"]["Solana"]["DEXTradeByTokens"]]: [json] is what
    that path holds, [Ok None] when the path is not there, or the exception
    [response.json()] raises on a body that is not JSON. *)
Record http_response := {
  status_code : Z;
  text : string;
  json : result (option (list raw_bucket))
}.

Inductive post_outcome :=
| Responded (r : http_response)
| PostFailed (e : exn).

(** *** Trade buckets *)

(** [volume]: the float, or the original value when the conversion fails. *)
Inductive volume_value :=
| VNumber (n : num)
| VText (s : string).

Record trade_bucket := {
  time : option string;
  open : option num;
  high : option num;
  low : option num;
  close : option num;
  volume : volume_value
}.

Definition type_error (what : string) : exn := Exn TypeError what.

(** [a < b] on bucket times: strings compare, [None] does not. *)
Definition py_lt_time (a b : option string) : result bool :=
  match a, b with
  | Some x, Some y => Ok (String.ltb x y)
  | _, _ => Raise (type_error "'<' not supported between instances of 'NoneType' and 'str'")
  end.

Definition organize_bucket (bucket : raw_bucket) : result trade_bucket :=
  let time_bucket := Time (get_or (Block bucket) {| Time := None |}) in
  let volume_str := get_or (raw_volume_field bucket) (VolumeString "0") in
  v <- match volume_str with
       | VolumeString s =>
           match parse_float s with
           | Some f => Ok (VNumber f)
           | None => Ok (VText s)             (* except ValueError *)
           end
       | VolumeNumber n => Ok (VNumber (nfloat n))
       | VolumeNull => Raise (type_error "float() argument must be a string or a real number")
       end ;;
  Ok {| time := time_bucket;
        open := raw_open bucket;
        high := raw_max bucket;
        low := raw_min bucket;
        close := raw_close bucket;
        volume := v |}.

Definition show_Z (z : Z) : string := DecimalString.NilZero.string_of_int (Z.to_int z).

Definition fetch_and_organize_dex_trade_data (o : post_outcome) : result (list trade_bucket) :=
  match o with
  | PostFailed e => Raise e
  | Responded response =>
      if negb (Z.eqb (status_code response) 200) then
        Raise (Exn PlainException
                 ("Query failed with status code " ++ show_Z (status_code response)
                  ++ ": " ++ text response))
      else
        raw_data <- json response ;;
        match raw_data with
        | None => Raise (Exn PlainException "Unexpected data format received from the API.")
        | Some buckets =>
            organized_data <- mapM organize_bucket buckets ;;
            sort_checked py_lt_time time organized_data
        end
  end.

(** *** Trading summary *)

Record summary := {
  current_price : option num;
  price_change_1h : num;
  price_change_percentage_1h : num;
  highest_price_1h : option num;
  lowest_price_1h : option num;
  total_volume_1h : num;
  last_updated : string
}.

(** What an operation of this agent returns, and what a tool call hands back
    as [data]. *)
Inductive tool_data :=
| DataError (msg : string)                         (* {"error": msg} *)
| DataEmpty                                        (* {} *)
| TradingInfo (s : summary) (detailed_data : list trade_bucket)
| TrendingTokens (l : list trending_token).

(** [a - b] *)
Definition py_sub (a b : option num) : result num :=
  match a, b with
  | Some x, Some y => Ok (nsub x y)
  | _, _ => Raise (type_error "unsupported operand type(s) for -")
  end.

(** [v != 0] *)
Definition py_ne_zero (v : option num) : bool :=
  match v with
  | Some x => negb (neqb x (nconst 0))
  | None => true
  end.

(** [a / b] *)
Definition py_div (a : num) (b : option num) : result num :=
  match b with
  | Some y => py_truediv a y
  | None => Raise (type_error "unsupported operand type(s) for /")
  end.

(** [sum(...)]: starts from [0] and adds from the left. *)
Fixpoint py_sum_from (acc : num) (l : list volume_value) : result num :=
  match l with
  | [] => Ok acc
  | VNumber v :: l' => py_sum_from (nadd acc v) l'
  | VText _ :: _ => Raise (type_error "unsupported operand type(s) for +: 'int' and 'str'")
  end.

Definition py_sum (l : list volume_value) : result num := py_sum_from (nconst 0) l.

(** [item > best] / [item < best] inside [max] and [min]. *)
Definition py_gt (item best : option num) : result bool :=
  match item, best with
  | Some x, Some y => Ok (nltb y x)
  | _, _ => Raise (type_error "'>' not supported between instances")
  end.

Definition py_lt (item best : option num) : result bool :=
  match item, best with
  | Some x, Some y => Ok (nltb x y)
  | _, _ => Raise (type_error "'<' not supported between instances")
  end.

(** [max]/[min] keep the first item and replace it by a later one that
    compares strictly better. *)
Fixpoint py_best_from (better : option num -> option num -> result bool)
  (best : option num) (l : list (option num)) : result (option num) :=
  match l with
  | [] => Ok best
  | item :: l' =>
      b <- better item best ;;
      py_best_from better (if b then item else best) l'
  end.

Definition py_max (l : list (option num)) : result (option num) :=
  match l with
  | [] => Raise (Exn ValueError "max() arg is an empty sequence")
  | x :: l' => py_best_from py_gt x l'
  end.

Definition py_min (l : list (option num)) : result (option num) :=
  match l with
  | [] => Raise (Exn ValueError "min() arg is an empty sequence")
  | x :: l' => py_best_from py_lt x l'
  end.

(** The [if trading_data:] branch. *)
Definition summarize (now : string) (trading_data : list trade_bucket)
  (first_data : trade_bucket) : result summary :=
  let latest_data := last trading_data first_data in
  price_change <- py_sub (close latest_data) (open first_data) ;;
  price_change_percent <-
    (if py_ne_zero (open first_data) then
       q <- py_div price_change (open first_data) ;; Ok (nmul q (nconst 100))
     else Ok (nconst 0)) ;;
  total_volume <- py_sum (map volume trading_data) ;;
  highest <- py_max (map high trading_data) ;;
  lowest <- py_min (map low trading_data) ;;
  Ok {| current_price := close latest_data;
        price_change_1h := price_change;
        price_change_percentage_1h := price_change_percent;
        highest_price_1h := highest;
        lowest_price_1h := lowest;
        total_volume_1h := total_volume;
        last_updated := now |}.

(** The body of [get_token_trading_info] inside its [try]. *)
Definition get_token_trading_info_try (now : string) (o : post_outcome) : result tool_data :=
  trading_data <- fetch_and_organize_dex_trade_data o ;;
  match trading_data with
  | first_data :: _ =>
      s <- summarize now trading_data first_data ;;
      Ok (TradingInfo s trading_data)
  | [] => Ok (DataError "No trading data available")
  end.

Definition get_token_trading_info (now : string) (o : post_outcome) : tool_data :=
  match get_token_trading_info_try now o with
  | Ok r => r
  | Raise e => DataError ("Failed to fetch token trading info: " ++ exn_str e)
  end.

(** [get_top_trending_tokens], from what [top_ten_trending_tokens] returns or
    raises. *)
Definition get_top_trending_tokens (o : result (list trending_token)) : tool_data :=
  match o with
  | Ok trending_tokens => TrendingTokens trending_tokens
  | Raise e => DataError ("Failed to fetch top trending tokens: " ++ exn_str e)
  end.

(** *** What the summary is compared with *)

(** [a <= b] on bucket times. *)
Definition time_le (a b : option string) : Prop :=
  exists x y, a = Some x /\ b = Some y /\ String.leb x y = true.

(** No bucket is later than a bucket after it. *)
Definition sorted_by_time (l : list trade_bucket) : Prop :=
  StronglySorted (fun a b => time_le (time a) (time b)) l.


(** [a < b] where both are numbers. *)
Definition below (a b : option num) : bool :=
  match a, b with
  | Some x, Some y => nltb x y
  | _, _ => false
  end.



(** *** Dispatch *)

Record tool_args := { token_address : option string }.

Definition no_args : tool_args := {| token_address := None |}.

Definition has_error_key (d : tool_data) : bool :=
  match d with DataError _ => true | _ => false end.

Record tool_call := {
  tc_id : string;
  function_name : string;
  function_arguments : string
}.

Inductive tool_calls_value :=
| OneToolCall (tc : tool_call)
| ToolCallList (l : list tool_call).

Record llm_response := {
  llm_content : option string;
  llm_tool_calls : option tool_calls_value
}.

Definition tool_calls_truthy (v : option tool_calls_value) : bool :=
  match v with
  | None => false
  | Some (OneToolCall _) => true
  | Some (ToolCallList l) => negb (Nat.eqb (List.length l) 0)
  end.

Definition llm_response_truthy (r : option llm_response) : bool :=
  match r with
  | None => false
  | Some r => present (llm_content r) || present (llm_tool_calls r)
  end.

(** The collaborators of one [handle_message] call. *)
Record services := {
  utcnow : string;
  trades_reply : string -> post_outcome;
  top_ten_trending_tokens : result (list trending_token);
  call_llm_with_tools_async : string -> result (option llm_response);
  call_llm_async : string -> string -> tool_data -> result string;
  json_loads : string -> result tool_args
}.

Inductive event :=
| LLMToolSelection (query : string)
| Operation (tool_name : string)
| LLMNarration (query : string) (data : tool_data).

Inductive reply_value :=
| RString (s : string)
| RData (d : tool_data).

Definition reply := dict reply_value.

Definition envelope (response : string) (data : tool_data) : reply :=
  [("response", RString response); ("data", RData data)].

Definition error_reply (msg : string) : reply := [("error", RString msg)].

(** A [ResponseEnvelope]: a string under ["response"], the data under ["data"]. *)
Definition is_response_envelope (r : reply) : Prop :=
  (exists s, dict_get "response" r = Some (RString s))
  /\ (exists d, dict_get "data" r = Some (RData d)).

(** [_handle_error] *)
Definition _handle_error (maybe_error : tool_data) : tool_data :=
  match maybe_error with
  | DataError msg => DataError msg
  | _ => DataEmpty
  end.

Definition data_truthy (d : tool_data) : bool :=
  match d with
  | DataEmpty => false
  | _ => true
  end.

Definition _handle_tool_logic (s : services) (tool_name : string) (function_args : tool_args)
  : traced event tool_data :=
  result <~
    (if String.eqb tool_name "get_token_trading_info" then
       a <~ lift (getitem "token_address" (token_address function_args)) ;;
       _ <~ emit (Operation tool_name) ;;
       tret (Some (get_token_trading_info (utcnow s) (trades_reply s a)))
     else if String.eqb tool_name "get_top_trending_tokens" then
       _ <~ emit (Operation tool_name) ;;
       tret (Some (get_top_trending_tokens (top_ten_trending_tokens s)))
     else tret None) ;;
  match result with
  | None => tret (DataError ("Unsupported tool: " ++ tool_name))
  | Some result =>
      let errors := _handle_error result in
      if data_truthy errors then tret errors else tret result
  end.

(** The request.  [tool_arguments] is [None] when the key is absent and the
    arguments object otherwise; a request whose ["tool_arguments"] is [null]
    or not an object is not a [params], and on it the subscript in
    [_handle_tool_logic] raises [TypeError]. *)
Record params := {
  query : option string;
  tool : option string;
  tool_arguments : option tool_args;
  raw_data_only : option bool
}.

(** [handle_message].  It has no [try]: what is raised below it leaves it. *)
Definition handle_message (s : services) (p : params) : traced event reply :=
  let tool_args := get_or (tool_arguments p) no_args in
  let raw := get_or (raw_data_only p) false in
  if truthy_str (tool p) then
    data <~ _handle_tool_logic s (get_or (tool p) "") tool_args ;;
    tret (envelope "" data)
  else if truthy_str (query p) then
    let q := get_or (query p) "" in
    _ <~ emit (LLMToolSelection q) ;;
    response <~ lift (call_llm_with_tools_async s q) ;;
    if negb (llm_response_truthy response) then
      tret (error_reply "Failed to process query")
    else
      let response := get_or response {| llm_content := None; llm_tool_calls := None |} in
      let tool_calls := llm_tool_calls response in
      if negb (tool_calls_truthy tool_calls) then
        tret (envelope (get_or (llm_content response) "No response content") DataEmpty)
      else
        tool_call <~
          lift (match tool_calls with
                | Some (ToolCallList (tc :: _)) => Ok tc
                | Some (OneToolCall tc) => Ok tc
                | _ => Raise (Exn AttributeError "object has no attribute 'function'")
                end) ;;
        tool_call_args <~ lift (json_loads s (function_arguments tool_call)) ;;
        data <~ _handle_tool_logic s (function_name tool_call) tool_call_args ;;
        if raw then tret (envelope "" data)
        else
          _ <~ emit (LLMNarration q data) ;;
          explanation <~ lift (call_llm_async s q (tc_id tool_call) data) ;;
          tret (envelope explanation data)
  else
    tret (error_reply "Either 'query' or 'tool' must be provided in the parameters.").

End Agent.

End BitquerySolanaTokenInfoAgent.

(* ======================================================================== *)
(** * Properties *)

(** ** Stable sort *)

Section StableSortFacts.
Context {A : Type} (precedes : A -> A -> bool).

Lemma insert_stable_perm (x : A) (l : list A) :
  Permutation (insert_stable precedes x l) (x :: l).
Proof.
  induction l as [ | y l IH]; simpl.
  - apply Permutation_refl.
  - destruct (precedes y x).
    + eapply perm_trans; [ apply perm_skip, IH | apply perm_swap ].
    + apply Permutation_refl.
Qed.

Lemma sort_stable_perm (l : list A) : Permutation (sort_stable precedes l) l.
Proof.
  induction l as [ | x l IH]; simpl.
  - apply perm_nil.
  - eapply perm_trans; [ apply insert_stable_perm | apply perm_skip, IH ].
Qed.

Lemma sort_stable_length (l : list A) :
  List.length (sort_stable precedes l) = List.length l.
Proof. apply Permutation_length, sort_stable_perm. Qed.

Lemma sort_stable_In (x : A) (l : list A) :
  In x (sort_stable precedes l) <-> In x l.
Proof.
  split; apply Permutation_in;
    [ | apply Permutation_sym ]; apply sort_stable_perm.
Qed.

(** [a] may stand before [b]: [b] does not have to precede [a]. *)
Definition in_order (a b : A) : Prop := precedes b a = false.

Hypothesis precedes_asym : forall a b, precedes a b = true -> precedes b a = false.
Hypothesis precedes_negtrans : forall a b c,
    precedes b a = false -> precedes c b = false -> precedes c a = false.

Lemma insert_stable_sorted (x : A) (l : list A) :
  StronglySorted in_order l -> StronglySorted in_order (insert_stable precedes x l).
Proof.
  induction l as [ | y l IH]; simpl; intros Hs.
  - constructor; constructor.
  - inversion Hs as [ | y' l' Hl Hy ]; subst.
    destruct (precedes y x) eqn:Hyx.
    + constructor; [ apply IH, Hl | ].
      eapply Permutation_Forall;
        [ apply Permutation_sym, insert_stable_perm | ].
      constructor; [ apply precedes_asym, Hyx | exact Hy ].
    + constructor; [ exact Hs | ].
      constructor; [ exact Hyx | ].
      eapply Forall_impl; [ | exact Hy ].
      intros z Hz. unfold in_order in *.
      eapply precedes_negtrans; eassumption.
Qed.

Lemma sort_stable_sorted (l : list A) :
  StronglySorted in_order (sort_stable precedes l).
Proof.
  induction l as [ | x l IH]; simpl.
  - constructor.
  - apply insert_stable_sorted, IH.
Qed.

End StableSortFacts.

(** Sortedness when the laws of [precedes] are known of the elements of the
    list only. *)
Section StableSortOn.
Context {A : Type} (precedes : A -> A -> bool).

Lemma insert_stable_sorted_on (x : A) (l : list A) :
  (forall b, In b l -> precedes b x = true -> precedes x b = false) ->
  (forall b c, In b l -> In c l ->
               precedes b x = false -> precedes c b = false -> precedes c x = false) ->
  StronglySorted (in_order precedes) l ->
  StronglySorted (in_order precedes) (insert_stable precedes x l).
Proof.
  induction l as [ | y l IH]; simpl; intros Hasym Htrans Hs.
  - constructor; constructor.
  - inversion Hs as [ | y' l' Hl Hy ]; subst.
    destruct (precedes y x) eqn:Hyx.
    + constructor.
      * apply IH; [ | | exact Hl ].
        -- intros b Hb. apply Hasym. now right.
        -- intros b c Hb Hc. apply Htrans; now right.
      * eapply Permutation_Forall;
          [ apply Permutation_sym, insert_stable_perm | ].
        constructor; [ apply Hasym; [ now left | exact Hyx ] | exact Hy ].
    + constructor; [ exact Hs | ].
      constructor; [ exact Hyx | ].
      rewrite Forall_forall in *. intros z Hz. unfold in_order in *.
      apply (Htrans y z); [ now left | now right | exact Hyx | now apply Hy ].
Qed.

Lemma sort_stable_sorted_on (l : list A) :
  (forall a b, In a l -> In b l -> precedes a b = true -> precedes b a = false) ->
  (forall a b c, In a l -> In b l -> In c l ->
                 precedes b a = false -> precedes c b = false -> precedes c a = false) ->
  StronglySorted (in_order precedes) (sort_stable precedes l).
Proof.
  induction l as [ | x l IH]; simpl; intros Hasym Htrans.
  - constructor.
  - apply insert_stable_sorted_on.
    + intros b Hb. apply sort_stable_In in Hb. apply Hasym; auto.
    + intros b c Hb Hc. apply sort_stable_In in Hb, Hc. apply Htrans; auto.
    + apply IH.
      * intros a b Ha Hb. apply Hasym; auto.
      * intros a b c Ha Hb Hc. apply Htrans; auto.
Qed.

End StableSortOn.

Lemma In_firstn_In {A} (n : nat) (l : list A) (x : A) :
  In x (firstn n l) -> In x l.
Proof.
  intros H. rewrite <- (firstn_skipn n l). apply in_or_app. left. exact H.
Qed.

Lemma StronglySorted_firstn {A} (R : A -> A -> Prop) (n : nat) (l : list A) :
  StronglySorted R l -> StronglySorted R (firstn n l).
Proof.
  revert n. induction l as [ | x l IH]; intros [ | n] Hs; simpl; try constructor.
  - inversion Hs; subst. apply IH; assumption.
  - inversion Hs as [ | x' l' Hl Hx ]; subst.
    rewrite Forall_forall in *. intros y Hy.
    apply Hx. eapply In_firstn_In; eauto.
Qed.

Lemma StronglySorted_map {A B} (f : A -> B) (R : B -> B -> Prop) (l : list A) :
  StronglySorted (fun a b => R (f a) (f b)) l -> StronglySorted R (map f l).
Proof.
  induction 1 as [ | x l Hl IH Hx]; simpl; constructor; auto.
  rewrite Forall_forall in *. intros y Hy.
  apply in_map_iff in Hy. destruct Hy as [z [<- Hz]]. auto.
Qed.

(** ** asyncio.gather returns the results in task order *)

Section GatherFacts.
Context {A B : Type} (run : A -> B) (tasks : list A).

Lemma set_slot_length (i : nat) (v : B) (slots : list (option B)) :
  List.length (set_slot i v slots) = List.length slots.
Proof.
  revert i. induction slots as [ | s slots IH]; intros [ | i]; simpl; auto.
Qed.

Lemma set_slot_same (i : nat) (v : B) (slots : list (option B)) :
  i < List.length slots -> nth_error (set_slot i v slots) i = Some (Some v).
Proof.
  revert i. induction slots as [ | s slots IH]; intros [ | i]; simpl; try lia; auto.
  intros H. apply IH. lia.
Qed.

Lemma set_slot_other (i j : nat) (v : B) (slots : list (option B)) :
  i <> j -> nth_error (set_slot i v slots) j = nth_error slots j.
Proof.
  revert i j. induction slots as [ | s slots IH]; intros [ | i] [ | j] H; simpl; auto.
  congruence.
Qed.

Lemma complete_task_length (slots : list (option B)) (i : nat) :
  List.length (complete_task run tasks slots i) = List.length slots.
Proof.
  unfold complete_task. destruct (nth_error tasks i); auto using set_slot_length.
Qed.

(** The state of the slots once the tasks of [order] have finished: a
    finished task's slot holds its result, the others are untouched. *)
Lemma fold_complete_task (order : list nat) :
  forall (slots : list (option B)) (j : nat) (t : A),
    List.length slots = List.length tasks ->
    nth_error tasks j = Some t ->
    nth_error (fold_left (complete_task run tasks) order slots) j
    = if existsb (Nat.eqb j) order then Some (Some (run t)) else nth_error slots j.
Proof.
  induction order as [ | i order IH]; intros slots j t Hlen Hj; simpl.
  - reflexivity.
  - rewrite (IH _ j t); [ | rewrite complete_task_length; exact Hlen | exact Hj ].
    destruct (existsb (Nat.eqb j) order); [ now rewrite orb_true_r | ].
    rewrite orb_false_r. unfold complete_task.
    destruct (Nat.eqb_spec j i) as [-> | Hne].
    + rewrite Hj. apply set_slot_same. rewrite Hlen.
      apply nth_error_Some. congruence.
    + destruct (nth_error tasks i); [ apply set_slot_other; congruence | reflexivity ].
Qed.

Lemma fold_complete_task_length (order : list nat) (slots : list (option B)) :
  List.length (fold_left (complete_task run tasks) order slots) = List.length slots.
Proof.
  revert slots. induction order as [ | i order IH]; intros slots; simpl; auto.
  rewrite IH. apply complete_task_length.
Qed.

Lemma collect_slots_all (l : list B) : collect_slots (map Some l) = l.
Proof.
  unfold collect_slots. induction l as [ | x l IH]; simpl; congruence.
Qed.

Lemma completion_order_complete (latency : nat -> nat) (n j : nat) :
  j < n -> existsb (Nat.eqb j) (completion_order latency n) = true.
Proof.
  intros H. apply existsb_exists. exists j. split; [ | apply Nat.eqb_refl ].
  unfold completion_order, sorted_asc. apply sort_stable_In, in_seq. lia.
Qed.

(** Whatever the latencies, [gather] is [map]. *)
Lemma gather_in_task_order (latency : nat -> nat) :
  gather latency run tasks = map run tasks.
Proof.
  unfold gather.
  set (final := fold_left _ _ _).
  assert (Hfinal : final = map Some (map run tasks)).
  { apply nth_error_ext. intros j.
    destruct (nth_error tasks j) as [t | ] eqn:Hj.
    - unfold final. rewrite (fold_complete_task _ _ j t); auto using repeat_length.
      rewrite completion_order_complete.
      + rewrite !nth_error_map, Hj. reflexivity.
      + apply nth_error_Some. congruence.
    - apply nth_error_None in Hj.
      transitivity (@None (option B)); [ | symmetry ]; apply nth_error_None.
      + unfold final. rewrite fold_complete_task_length, repeat_length. exact Hj.
      + rewrite !length_map. exact Hj. }
  rewrite Hfinal. apply collect_slots_all.
Qed.

End GatherFacts.

(** ** The insertion-ordered dict *)

Section DictFacts.
Context {V : Type}.

Lemma dict_mem_get (k : string) (d : dict V) :
  dict_mem k d = present (dict_get k d).
Proof.
  induction d as [ | [k' v] d IH]; simpl; auto.
  destruct (String.eqb k' k); auto.
Qed.

Lemma dict_get_modify (k k0 : string) (f : V -> V) (d : dict V) :
  dict_get k (dict_modify k0 f d)
  = if String.eqb k0 k then option_map f (dict_get k d) else dict_get k d.
Proof.
  induction d as [ | [k' v] d IH]; simpl.
  - now destruct (String.eqb k0 k).
  - destruct (String.eqb_spec k' k0) as [-> | Hne]; simpl.
    + destruct (String.eqb k0 k); reflexivity.
    + destruct (String.eqb_spec k' k) as [-> | Hne'].
      * destruct (String.eqb_spec k0 k); [ congruence | reflexivity ].
      * exact IH.
Qed.

Lemma dict_get_add (k k0 : string) (v : V) (d : dict V) :
  dict_get k (dict_add k0 v d)
  = match dict_get k d with
    | Some x => Some x
    | None => if String.eqb k0 k then Some v else None
    end.
Proof.
  unfold dict_add. induction d as [ | [k' v'] d IH]; simpl; auto.
  destruct (String.eqb k' k); auto.
Qed.

Lemma dict_keys_modify (k : string) (f : V -> V) (d : dict V) :
  map fst (dict_modify k f d) = map fst d.
Proof.
  induction d as [ | [k' v] d IH]; simpl; auto.
  destruct (String.eqb k' k); simpl; congruence.
Qed.

Lemma dict_get_None_keys (k : string) (d : dict V) :
  dict_get k d = None -> ~ In k (map fst d).
Proof.
  induction d as [ | [k' v] d IH]; simpl; auto.
  destruct (String.eqb_spec k' k) as [-> | Hne]; [ discriminate | ].
  intros H [Heq | Hin]; [ congruence | exact (IH H Hin) ].
Qed.

Lemma dict_get_In (k : string) (v : V) (d : dict V) :
  NoDup (map fst d) -> In (k, v) d -> dict_get k d = Some v.
Proof.
  induction d as [ | [k' v'] d IH]; simpl; [ tauto | ].
  intros Hnd [Heq | Hin].
  - inversion Heq; subst. now rewrite String.eqb_refl.
  - inversion Hnd as [ | ? ? Hnotin Hnd']; subst.
    destruct (String.eqb_spec k' k) as [-> | Hne]; [ | auto ].
    exfalso. apply Hnotin. apply in_map_iff. exists (k, v). auto.
Qed.

End DictFacts.

(** ** The wallet agent: merging the holders' wallets *)

Section MergeFacts.
Import SolWalletAgent.
Context {num : Type} {N : PyNumber num}.

Definition accumulate_pair (a : token_aggregate) (ht : holder * holding) : token_aggregate :=
  accumulate (fst ht) (snd ht) a.

(** The entry of key [k] after the pairs [done] have been merged. *)
Definition entry_of (k : string) (done : list (holder * holding)) : option token_aggregate :=
  match filter (holds k) done with
  | [] => None
  | p :: rest => Some (fold_left accumulate_pair (p :: rest) (new_aggregate (snd p)))
  end.

Definition merged (token_map : dict token_aggregate) (done : list (holder * holding)) : Prop :=
  NoDup (map fst token_map) /\ forall k, dict_get k token_map = entry_of k done.

Lemma merged_nil : merged [] [].
Proof. split; [ constructor | reflexivity ]. Qed.

Lemma merge_token_merged (h : holder) (token : holding) token_map done :
  merged token_map done ->
  merged (merge_token h token_map token) (done ++ [(h, token)]).
Proof.
  intros [Hnd Hget]. unfold merge_token. split.
  - rewrite dict_keys_modify, dict_mem_get.
    destruct (dict_get (token_address token) token_map) eqn:Hk; simpl; auto.
    unfold dict_add. rewrite map_app. simpl.
    apply NoDup_app; auto.
    + repeat constructor. simpl. tauto.
    + intros x Hx [<- | []]. eapply dict_get_None_keys; eauto.
  - intros k. rewrite dict_get_modify.
    unfold entry_of. rewrite filter_app. simpl. unfold holds at 2. simpl.
    specialize (Hget k). unfold entry_of in Hget.
    destruct (String.eqb_spec (token_address token) k) as [Heq | Hne].
    + subst k. rewrite dict_mem_get, Hget.
      destruct (filter (holds (token_address token)) done) as [ | p rest] eqn:Hf.
      * simpl. rewrite dict_get_add, Hget, String.eqb_refl. reflexivity.
      * simpl negb. cbv iota. rewrite Hget.
        change ((p :: rest) ++ [(h, token)]) with (p :: (rest ++ [(h, token)])).
        cbv beta iota. simpl option_map. f_equal.
        change (p :: rest ++ [(h, token)]) with ((p :: rest) ++ [(h, token)]).
        rewrite fold_left_app. reflexivity.
    + rewrite app_nil_r.
      destruct (dict_mem (token_address token) token_map); simpl; auto.
      rewrite dict_get_add, Hget.
      destruct (filter (holds k) done); auto.
      destruct (String.eqb_spec (token_address token) k); congruence.
Qed.

Lemma merge_tokens_merged (h : holder) (assets : list holding) :
  forall token_map done,
    merged token_map done ->
    merged (fold_left (merge_token h) assets token_map) (done ++ map (pair h) assets).
Proof.
  induction assets as [ | token assets IH]; intros token_map done Hm; simpl.
  - now rewrite app_nil_r.
  - change (done ++ (h, token) :: map (pair h) assets)
      with (done ++ [(h, token)] ++ map (pair h) assets).
    rewrite app_assoc. apply IH, merge_token_merged, Hm.
Qed.

Lemma merge_holders_merged (w : world) (top_holders : list holder) :
  forall token_map done,
    merged token_map done ->
    merged (fold_left merge_holder (combine top_holders (map (fetch w) top_holders)) token_map)
           (done ++ visited w top_holders).
Proof.
  induction top_holders as [ | h hs IH]; intros token_map done Hm; simpl.
  - now rewrite app_nil_r.
  - unfold visited in *. rewrite app_assoc.
    apply IH. unfold merge_holder. simpl. apply merge_tokens_merged, Hm.
Qed.

Lemma merge_all_merged (w : world) (top_holders : list holder) :
  merged (merge_all top_holders (map (fetch w) top_holders)) (visited w top_holders).
Proof.
  unfold merge_all.
  apply (merge_holders_merged w top_holders [] []), merged_nil.
Qed.

(** What [accumulate] builds up. *)
Lemma fold_accumulate (l : list (holder * holding)) :
  forall a : token_aggregate,
    let a' := fold_left accumulate_pair l a in
    a_token_address a' = a_token_address a
    /\ total_holding_value a'
       = fold_left nadd (map (fun ht => total_price (snd ht)) l) (total_holding_value a)
    /\ holders a' = holders a ++ map (fun ht => contribution_of (fst ht) (snd ht)) l.
Proof.
  induction l as [ | ht l IH]; intros a; simpl.
  - now rewrite app_nil_r.
  - destruct (IH (accumulate_pair a ht)) as (H1 & H2 & H3).
    rewrite H1, H2, H3. simpl. rewrite <- app_assoc. auto.
Qed.

Lemma contributions_visited (w : world) (top_holders : list holder) (k : string) :
  map (fun ht => contribution_of (fst ht) (snd ht)) (filter (holds k) (visited w top_holders))
  = contributions_to w top_holders k.
Proof.
  unfold visited, contributions_to.
  induction top_holders as [ | h hs IH]; simpl; auto.
  rewrite filter_app, map_app, IH. f_equal.
  induction (fetch w h) as [ | token l IHl]; simpl; auto.
  unfold holds at 1. simpl.
  destruct (String.eqb (token_address token) k); simpl; congruence.
Qed.

Lemma filter_holds_key (k : string) (l : list (holder * holding)) :
  Forall (fun ht => token_address (num:=num) (snd ht) = k) (filter (holds k) l).
Proof.
  apply Forall_forall. intros ht Hin. apply filter_In in Hin.
  destruct Hin as [_ Hk]. now apply String.eqb_eq.
Qed.

(** An entry of the merged map, in terms of the wallets. *)
Lemma merged_entry (w : world) (top_holders : list holder) (k : string) (a : token_aggregate) :
  In (k, a) (merge_all top_holders (map (fetch w) top_holders)) ->
  a_token_address a = k
  /\ total_holding_value a
     = sum_left (map c_total_price (contributions_to w top_holders k))
  /\ holders a = contributions_to w top_holders k.
Proof.
  intros Hin.
  destruct (merge_all_merged w top_holders) as [Hnd Hget].
  apply (dict_get_In _ _ _ Hnd) in Hin. rewrite Hget in Hin.
  unfold entry_of in Hin.
  rewrite <- contributions_visited.
  pose proof (filter_holds_key k (visited w top_holders)) as Hkeys.
  destruct (filter (holds k) (visited w top_holders)) as [ | p rest]; [ discriminate | ].
  inversion Hin as [Ha]; subst a; clear Hin.
  destruct (fold_accumulate (p :: rest) (new_aggregate (snd p))) as (H1 & H2 & H3).
  cbv zeta in H1, H2, H3.
  change (fold_left accumulate_pair rest (accumulate_pair (new_aggregate (snd p)) p))
    with (fold_left accumulate_pair (p :: rest) (new_aggregate (snd p))).
  rewrite H1, H2, H3.
  inversion Hkeys; subst. repeat split.
  unfold sum_left. rewrite map_map. reflexivity.
Qed.

Lemma rank_In (token_map : dict token_aggregate) (a : token_aggregate) :
  In a (rank token_map) ->
  exists k a0, In (k, a0) token_map /\ a = finish_token a0.
Proof.
  unfold rank, dict_values. intros Hin.
  apply in_map_iff in Hin. destruct Hin as [a0 [<- Hin]].
  apply In_firstn_In in Hin.
  apply sort_stable_In in Hin.
  apply in_map_iff in Hin. destruct Hin as [[k a1] [Heq Hin]]. simpl in Heq. subst a1.
  eauto.
Qed.

Lemma analyze_holders_eq (w : world) (t : string) (n : Z) :
  analyze_holders w t n
  = match _get_holders w t n with
    | [] => []
    | hs =>
        let top_holders := top_holders_of hs in
        rank (merge_all top_holders (map (fetch w) top_holders))
    end.
Proof.
  unfold analyze_holders.
  destruct (_get_holders w t n) as [ | h hs]; auto.
  rewrite gather_in_task_order, map_map. reflexivity.
Qed.

End MergeFacts.

(** ** The wallet agent: ranking *)

Section RankFacts.
Import SolWalletAgent.
Context {num : Type} {N : PyNumber num}.

Lemma rank_length (token_map : dict token_aggregate) :
  List.length (rank token_map) <= 5.
Proof. unfold rank. rewrite length_map. apply firstn_le_length. Qed.

Lemma rank_holders_length (token_map : dict token_aggregate) :
  Forall (fun a => List.length (holders a) <= 5) (rank token_map).
Proof.
  apply Forall_forall. intros a Hin. apply rank_In in Hin.
  destruct Hin as (k & a0 & _ & ->). unfold finish_token. cbn [holders].
  apply firstn_le_length.
Qed.

Lemma sorted_desc_descending {O : PyNumberOrder num} {A} (key : A -> num) (l : list A) :
  descending_by key (sorted_desc nltb key l).
Proof.
  unfold descending_by, sorted_desc.
  apply (sort_stable_sorted (fun y x => nltb (key x) (key y))).
  - intros a b. apply nltb_asym.
  - intros a b c Hab Hbc. eapply nltb_negtrans; eassumption.
Qed.

Lemma ordered_on_all {O : PyNumberOrder num} (l : list num) : ordered_on l.
Proof.
  split.
  - intros x y _ _. apply nltb_asym.
  - intros x y z _ _ _. apply nltb_negtrans.
Qed.

Lemma sorted_desc_descending_on {A} (key : A -> num) (l : list A) :
  ordered_on (map key l) -> descending_by key (sorted_desc nltb key l).
Proof.
  intros [Hasym Htrans]. unfold descending_by, sorted_desc.
  apply (sort_stable_sorted_on (fun y x => nltb (key x) (key y))).
  - intros a b Ha Hb. apply Hasym; now apply in_map.
  - intros a b c Ha Hb Hc Hab Hbc.
    apply (Htrans (key c) (key b) (key a)); auto using in_map.
Qed.

Lemma rank_descending {O : PyNumberOrder num} (token_map : dict token_aggregate) :
  descending_by total_holding_value (rank token_map).
Proof.
  unfold rank, descending_by. apply StronglySorted_map.
  unfold finish_token. cbn [total_holding_value].
  apply StronglySorted_firstn. apply sorted_desc_descending.
Qed.

Lemma rank_holders_descending {O : PyNumberOrder num} (token_map : dict token_aggregate) :
  Forall (fun a => descending_by c_total_price (holders a)) (rank token_map).
Proof.
  apply Forall_forall. intros a Hin. apply rank_In in Hin.
  destruct Hin as (k & a0 & _ & ->). unfold finish_token. cbn [holders].
  apply StronglySorted_firstn. apply sorted_desc_descending.
Qed.

Lemma combine_with_map {A B} (f : A -> B) (l : list A) :
  combine l (map f l) = map (fun x => (x, f x)) l.
Proof. induction l as [ | x l IH]; simpl; congruence. Qed.




End RankFacts.

(** A list comprehension stops at the first element that raises. *)
Lemma mapM_raises {A B} (f : A -> result B) (l : list A) (x : A) (e : exn) :
  In x l -> f x = Raise e -> exists e', mapM f l = Raise e'.
Proof.
  induction l as [| a l IH]; simpl; [easy |].
  intros [-> | Hin] Hx.
  - rewrite Hx. simpl. eauto.
  - destruct (f a) as [y | e0]; simpl; [| eauto].
    destruct (IH Hin Hx) as [e' ->]. simpl. eauto.
Qed.

(** ** The wallet agent: wallet assets *)

Section WalletAssetsFacts.
Import SolWalletAgent.
Context {num : Type} {N : PyNumber num}.



(** Upstream failures the body of [get_wallet_assets] stops on: a transport
    exception or timeout, a rate-limit status, a result without ["items"],
    a kept asset without ["id"]. *)
Lemma transport_failure_raises (e : exn) :
  exists e', get_wallet_assets_try (HttpFailure e) = Raise e'.
Proof.
  unfold get_wallet_assets_try. simpl.
  destruct (exn_class e); simpl; eauto.
Qed.

Lemma rate_limit_raises (body : option rpc_reply) :
  exists e', get_wallet_assets_try (HttpResponse 429 body) = Raise e'.
Proof. unfold get_wallet_assets_try. simpl. eauto. Qed.

Lemma missing_id_raises (r : search_result) (its : list item) (a : item) :
  items r = Some its ->
  filter not_mutable (filter has_price_above_100 its) = [a] ->
  id a = None ->
  get_wallet_assets_try (HttpResponse 200 (Some {| rpc_result := Some r |}))
  = Raise (Exn KeyError "'id'").
Proof.
  intros Hi Hf Hid. unfold get_wallet_assets_try. simpl.
  unfold search_result_truthy. rewrite Hi. simpl. rewrite orb_true_r. simpl.
  rewrite Hf. simpl. unfold asset_holding. rewrite Hid. reflexivity.
Qed.

Lemma missing_items_raises (r : search_result) :
  search_result_truthy r = true -> items r = None ->
  get_wallet_assets_try (HttpResponse 200 (Some {| rpc_result := Some r |}))
  = Raise (Exn KeyError "'items'").
Proof.
  intros Ht Hi. unfold get_wallet_assets_try. simpl. rewrite Ht, Hi. reflexivity.
Qed.

(** The holding built from an asset that has its ["id"]. *)
Definition holding_of (asset : item) : holding :=
  let ti := get_or (it_token_info asset) empty_token_info in
  let p := get_or (ti_price_info ti) empty_price_info in
  {| token_address := get_or (id asset) "";
     token_img := asset_img asset;
     symbol := get_or (ti_symbol ti) "";
     price_per_token := get_or (pi_price_per_token p) (nconst 0);
     total_price := get_or (pi_total_price p) (nconst 0) |}.

Lemma mapM_asset_holding (l : list item) :
  Forall (fun a => present (id a) = true) l ->
  mapM asset_holding l = Ok (map holding_of l).
Proof.
  induction 1 as [ | a l Ha Hl IH]; simpl; auto.
  unfold asset_holding at 1. destruct (id a) eqn:Hid; [ | discriminate ].
  simpl. rewrite IH. simpl. unfold holding_of. rewrite Hid. reflexivity.
Qed.

Lemma kept_asset_price (a : item) :
  has_price_above_100 a = true ->
  nltb (nconst 100) (total_price (holding_of a)) = true.
Proof.
  unfold has_price_above_100, holding_of. simpl.
  destruct (ti_price_info (get_or (it_token_info a) empty_token_info)); [ | discriminate ].
  simpl. intros H. apply andb_true_iff in H. tauto.
Qed.

End WalletAssetsFacts.

(** ** The wallet agent: a worked instance

    Six wallets each hold 200 of one token and 50 of SOL; a seventh holder is
    the excluded protocol wallet and the fetch of an eighth times out.  The
    fetches finish in the reverse of the order they were started in. *)

Module WalletExample.
Import SolWalletAgent.

Definition token_a : item (num := Z) :=
  {| id := Some "TokenA";
     it_token_info :=
       Some {| ti_symbol := Some "A";
               ti_price_info :=
                 Some {| pi_price_per_token := Some 2%Z;
                         pi_total_price := Some 200%Z;
                         pi_currency := Some "USDC" |} |};
     mutable := Some false;
     it_content := Some {| files := Some [ {| cdn_uri := Some "cdn/a.png" |} ] |} |}.

(** A dust position and a position in a mutable token: both are left out. *)
Definition dust : item (num := Z) :=
  {| id := Some "Dust";
     it_token_info :=
       Some {| ti_symbol := Some "D";
               ti_price_info :=
                 Some {| pi_price_per_token := Some 1%Z;
                         pi_total_price := Some 100%Z;
                         pi_currency := None |} |};
     mutable := None;
     it_content := None |}.

Definition mutable_token : item (num := Z) :=
  {| id := Some "Rug";
     it_token_info :=
       Some {| ti_symbol := Some "R";
               ti_price_info :=
                 Some {| pi_price_per_token := Some 1%Z;
                         pi_total_price := Some 5000%Z;
                         pi_currency := None |} |};
     mutable := Some true;
     it_content := None |}.

Definition wallet : search_result (num := Z) :=
  {| sr_total := Some 3%Z;
     items := Some [dust; token_a; mutable_token];
     nativeBalance :=
       Some {| lamports := Some 333%Z;
               price_per_sol := Some 150%Z;
               nb_total_price := Some 50%Z |} |}.

Definition wallet_reply : http_outcome (num := Z) :=
  HttpResponse 200 (Some {| rpc_result := Some wallet |}).

Definition holder_of (a : string) : holder (num := Z) :=
  {| address := a; amount := 10%Z; percentage := "10.00" |}.

Definition the_world : world (num := Z) :=
  {| _get_holders := fun _ _ =>
       map holder_of ["w1"; "w2"; "w3"; raydium_address; "w4"; "slow"; "w5"; "w6"];
     assets_reply := fun a =>
       if String.eqb a "slow" then HttpFailure (Exn TimeoutError "timed out")
       else wallet_reply;
     latency := fun i => 10 - i |}.

Definition sol_entry : holding (num := Z) :=
  {| token_address := sol_address;
     token_img := "";
     symbol := "SOL";
     price_per_token := 150%Z;
     total_price := 50%Z |}.

Definition token_a_entry : holding (num := Z) :=
  {| token_address := "TokenA";
     token_img := "cdn/a.png";
     symbol := "A";
     price_per_token := 2%Z;
     total_price := 200%Z |}.

Example wallet_assets_of_w1 :
  get_wallet_assets (assets_reply the_world "w1") = [sol_entry; token_a_entry].
Proof. reflexivity. Qed.

Example wallet_assets_of_slow : get_wallet_assets (assets_reply the_world "slow") = [].
Proof. reflexivity. Qed.

Example analysis_of_the_world :
  map (fun a => (a_token_address a, total_holding_value a, List.length (holders a)))
      (analyze_holders the_world "TokenA" 20)
  = [("TokenA", 1200%Z, 5); (sol_address, 300%Z, 5)].
Proof. vm_compute. reflexivity. Qed.

End WalletExample.

(** ** The wallet agent: the aggregator's guarantees *)

Section AggregatorTheorems.
Import SolWalletAgent.
Context {num : Type} {N : PyNumber num}.

(** C3.  Two runs of [analyze_holders] on the same holder lists and the same
    per-wallet replies return the same aggregates in the same order, whatever
    the latencies of the concurrent wallet fetches (and so whatever order
    they finish in): both are the ranking of the map that the sequential
    merge builds over the holders in task order. *)
Theorem analyze_holders_deterministic
  (holders_of : string -> Z -> list holder) (replies : string -> http_outcome)
  (latency1 latency2 : nat -> nat) (t : string) (n : Z) :
  let run1 := {| _get_holders := holders_of; assets_reply := replies; latency := latency1 |} in
  let run2 := {| _get_holders := holders_of; assets_reply := replies; latency := latency2 |} in
  analyze_holders run1 t n = analyze_holders run2 t n
  /\ analyze_holders run1 t n
     = match holders_of t n with
       | [] => []
       | hs => rank (merge_all (top_holders_of hs) (map (fetch run1) (top_holders_of hs)))
       end.
Proof.
  cbv zeta. rewrite !analyze_holders_eq. simpl. split; reflexivity.
Qed.

(** The part of C9 that holds of every run: the [total_holding_value] of a
    returned aggregate adds up the [total_price] of every holder record
    merged for its token, while its [holders] are the 5 largest of them. *)
Lemma total_holding_value_of_aggregate (w : world) (t : string) (n : Z)
  (a : token_aggregate) :
  In a (analyze_holders w t n) ->
  let all := contributions_to w (top_holders_of (_get_holders w t n)) (a_token_address a) in
  total_holding_value a = sum_left (map c_total_price all)
  /\ holders a = firstn 5 (sorted_desc nltb c_total_price all).
Proof.
  rewrite analyze_holders_eq.
  destruct (_get_holders w t n) as [ | h hs] eqn:Hhs; [ intros [] | ].
  cbv zeta. intros Hin. apply rank_In in Hin.
  destruct Hin as (k & a0 & Hin & ->).
  apply merged_entry in Hin. destruct Hin as (Hk & Hv & Hh).
  unfold finish_token.
  cbn [a_token_address total_holding_value holders].
  rewrite Hk, Hv, Hh. auto.
Qed.

(** C4.  [analyze_holders] returns at most 5 aggregates, each with at most 5
    holders, whatever the upstream responses.  The aggregates are in
    descending order of [total_holding_value] as soon as [<] is a total
    preorder on the totals of the merged tokens, and the holders of an
    aggregate are in descending order of [total_price] as soon as it is one
    on the [total_price] of the holder records merged for that token.  Ints
    and floats other than NaN are so ordered; a NaN among the totals can
    leave the result out of order. *)
Theorem analyze_holders_top5_ranked (w : world) (t : string) (n : Z) :
  let tops := top_holders_of (_get_holders w t n) in
  let merged := dict_values (merge_all tops (map (fetch w) tops)) in
  List.length (analyze_holders w t n) <= 5
  /\ Forall (fun a => List.length (holders a) <= 5) (analyze_holders w t n)
  /\ (ordered_on (map total_holding_value merged) ->
      descending_by total_holding_value (analyze_holders w t n))
  /\ Forall (fun a =>
               ordered_on (map c_total_price (contributions_to w tops (a_token_address a))) ->
               descending_by c_total_price (holders a))
       (analyze_holders w t n).
Proof.
  cbv zeta. split; [ | split; [ | split ] ].
  - rewrite analyze_holders_eq.
    destruct (_get_holders w t n); [ simpl; lia | apply rank_length ].
  - rewrite analyze_holders_eq.
    destruct (_get_holders w t n); [ constructor | apply rank_holders_length ].
  - intros Hordered. rewrite analyze_holders_eq.
    destruct (_get_holders w t n) as [ | h hs]; [ constructor | ].
    cbv zeta. unfold rank, descending_by. apply StronglySorted_map.
    unfold finish_token. cbn [total_holding_value].
    apply StronglySorted_firstn. now apply sorted_desc_descending_on.
  - apply Forall_forall. intros a Ha Hordered.
    destruct (total_holding_value_of_aggregate w t n a Ha) as [_ ->].
    apply StronglySorted_firstn. now apply sorted_desc_descending_on.
Qed.


(** C10.  When the upstream response carries a native balance,
    [get_wallet_assets] returns one of two things.  Either the body raised
    (the result has no item list, or an asset that passes both filters has no
    id) and the list is empty, the native balance lost with the rest.  Or the
    first element is the native SOL holding, built with whatever
    [total_price] the balance has and without the price or the mutability
    test, and the elements after it are the assets that pass both filters,
    each with a [total_price] above 100. *)
Theorem native_balance_comes_first (o : http_outcome) (r : search_result)
  (nb : native_balance) :
  _post o = Ok (Some {| rpc_result := Some r |}) ->
  nativeBalance r = Some nb ->
  native_balance_truthy nb = true ->
  (get_wallet_assets o = []
   /\ (items r = None
       \/ exists its a,
            items r = Some its
            /\ In a (filter not_mutable (filter has_price_above_100 its))
            /\ id a = None))
  \/ (exists its others,
        items r = Some its
        /\ Forall (fun a => present (id a) = true)
             (filter not_mutable (filter has_price_above_100 its))
        /\ mapM asset_holding (filter not_mutable (filter has_price_above_100 its))
           = Ok others
        /\ get_wallet_assets o
           = {| token_address := sol_address;
                token_img := "";
                symbol := "SOL";
                price_per_token := get_or (price_per_sol nb) (nconst 0);
                total_price := get_or (nb_total_price nb) (nconst 0) |} :: others
        /\ Forall (fun hd => nltb (nconst 100) (total_price hd) = true) others).
Proof.
  intros Hpost Hnb Htruthy.
  assert (Hr : search_result_truthy r = true).
  { unfold search_result_truthy. rewrite Hnb. simpl. apply orb_true_r. }
  destruct (items r) as [its | ] eqn:Hitems.
  2: { left. split; [ | now left ].
       unfold get_wallet_assets, get_wallet_assets_try.
       rewrite Hpost. simpl. rewrite Hr, Hitems. reflexivity. }
  set (kept := filter not_mutable (filter has_price_above_100 its)).
  destruct (forallb (fun a => present (id a)) kept) eqn:Hids.
  - right. exists its, (map holding_of kept).
    assert (Hall : Forall (fun a => present (id a) = true) kept).
    { apply Forall_forall. intros a Ha.
      rewrite forallb_forall in Hids. now apply Hids. }
    pose proof (mapM_asset_holding _ Hall) as HmapM.
    split; [ reflexivity | ]. split; [ exact Hall | ]. split; [ exact HmapM | ].
    split.
    + unfold get_wallet_assets, get_wallet_assets_try.
      rewrite Hpost. simpl. rewrite Hr, Hitems. simpl. fold kept.
      rewrite HmapM. simpl.
      unfold native_holding. rewrite Hnb, Htruthy. reflexivity.
    + apply Forall_forall. intros hd Hin.
      apply in_map_iff in Hin. destruct Hin as (a & <- & Hin).
      apply filter_In in Hin. destruct Hin as [Hin _].
      apply filter_In in Hin. destruct Hin as [_ Hprice].
      now apply kept_asset_price.
  - left.
    assert (Hbad : exists a, In a kept /\ id a = None).
    { clear - Hids. induction kept as [ | a l IH]; simpl in Hids; [ discriminate | ].
      destruct (id a) as [i | ] eqn:Hid.
      - simpl in Hids. destruct (IH Hids) as (b & Hb & Hnone).
        exists b. split; [ now right | exact Hnone ].
      - exists a. split; [ now left | exact Hid ]. }
    destruct Hbad as (a & Ha & Hid).
    split; [ | right; exists its, a; auto ].
    destruct (mapM_raises asset_holding kept a (Exn KeyError "'id'") Ha) as [e He].
    { unfold asset_holding. rewrite Hid. reflexivity. }
    unfold get_wallet_assets, get_wallet_assets_try.
    rewrite Hpost. simpl. rewrite Hr, Hitems. simpl. fold kept.
    rewrite He. reflexivity.
Qed.

End AggregatorTheorems.

(** C9.  The [total_holding_value] of every returned aggregate is the sum of
    [total_price] over all the holder records merged for its token, those cut
    from the listed top 5 included; so it can be strictly more than the sum
    over the holders the aggregate lists (six wallets with 200 each: 1200
    against the 1000 of the five listed). *)
Theorem total_holding_value_counts_every_contribution :
  (forall (num : Type) (N : PyNumber num) (w : SolWalletAgent.world) (t : string) (n : Z)
          (a : SolWalletAgent.token_aggregate),
      In a (SolWalletAgent.analyze_holders w t n) ->
      let all :=
        SolWalletAgent.contributions_to w
          (SolWalletAgent.top_holders_of (SolWalletAgent._get_holders w t n))
          (SolWalletAgent.a_token_address a) in
      SolWalletAgent.total_holding_value a
      = sum_left (map SolWalletAgent.c_total_price all)
      /\ SolWalletAgent.holders a
         = firstn 5 (sorted_desc nltb SolWalletAgent.c_total_price all))
  /\ (exists a : SolWalletAgent.token_aggregate,
        In a (SolWalletAgent.analyze_holders WalletExample.the_world "TokenA" 20)
        /\ List.length
             (SolWalletAgent.contributions_to WalletExample.the_world
                (SolWalletAgent.top_holders_of
                   (SolWalletAgent._get_holders WalletExample.the_world "TokenA" 20%Z))
                (SolWalletAgent.a_token_address a)) = 6
        /\ SolWalletAgent.total_holding_value a = 1200%Z
        /\ sum_left (map SolWalletAgent.c_total_price (SolWalletAgent.holders a)) = 1000%Z).
Proof.
  split.
  - intros num N w t n a. apply total_holding_value_of_aggregate.
  - eexists. split; [ left; reflexivity | ].
    vm_compute. repeat split; reflexivity.
Qed.

Lemma total_holding_value_counts_every_contribution_witness :
  exists a : SolWalletAgent.token_aggregate,
    In a (SolWalletAgent.analyze_holders WalletExample.the_world "TokenA" 20)
    /\ SolWalletAgent.a_token_address a = SolWalletAgent.sol_address
    /\ SolWalletAgent.total_holding_value a
       = sum_left
           (map SolWalletAgent.c_total_price
              (SolWalletAgent.contributions_to WalletExample.the_world
                 (SolWalletAgent.top_holders_of
                    (SolWalletAgent._get_holders WalletExample.the_world "TokenA" 20%Z))
                 (SolWalletAgent.a_token_address a))).
Proof.
  eexists. split; [ right; left; reflexivity | ].
  split; [ reflexivity | ].
  apply (proj1 total_holding_value_counts_every_contribution).
  right. left. reflexivity.
Defined.

Lemma analyze_holders_top5_ranked_witness :
  List.length (SolWalletAgent.analyze_holders WalletExample.the_world "TokenA" 20) <= 5
  /\ Forall (fun a => List.length (SolWalletAgent.holders a) <= 5)
       (SolWalletAgent.analyze_holders WalletExample.the_world "TokenA" 20)
  /\ SolWalletAgent.descending_by SolWalletAgent.total_holding_value
       (SolWalletAgent.analyze_holders WalletExample.the_world "TokenA" 20)
  /\ Forall (fun a => SolWalletAgent.descending_by SolWalletAgent.c_total_price
                        (SolWalletAgent.holders a))
       (SolWalletAgent.analyze_holders WalletExample.the_world "TokenA" 20).
Proof.
  pose proof (analyze_holders_top5_ranked WalletExample.the_world "TokenA" 20) as H.
  cbv zeta in H. destruct H as (Hlength & Hholders & Hranked & Hholders_ranked).
  split; [ exact Hlength | ]. split; [ exact Hholders | ]. split.
  - apply Hranked. apply (ordered_on_all (O := Z_PyNumberOrder)).
  - eapply Forall_impl; [ | exact Hholders_ranked ].
    intros a Ha. apply Ha. apply (ordered_on_all (O := Z_PyNumberOrder)).
Defined.

(** A wallet whose native balance has a NaN [total_price] (Python's JSON
    decoder reads the literal [NaN]), between a token worth 200 and one worth
    300. *)
Module FloatExample.
Import SolWalletAgent.

Definition priced (name : string) (total : Z) : item (num := PrimFloat.float) :=
  {| id := Some name;
     it_token_info :=
       Some {| ti_symbol := Some name;
               ti_price_info :=
                 Some {| pi_price_per_token := Some (float_of_Z 1);
                         pi_total_price := Some (float_of_Z total);
                         pi_currency := None |} |};
     mutable := None;
     it_content := None |}.

Definition reply (its : list (item (num := PrimFloat.float)))
  (native : option (native_balance (num := PrimFloat.float)))
  : http_outcome (num := PrimFloat.float) :=
  HttpResponse 200
    (Some {| rpc_result :=
               Some {| sr_total := None; items := Some its; nativeBalance := native |} |}).

Definition the_world : world (num := PrimFloat.float) :=
  {| _get_holders := fun _ _ =>
       [ {| address := "w1"; amount := float_of_Z 60; percentage := "60.00" |};
         {| address := "w2"; amount := float_of_Z 40; percentage := "40.00" |} ];
     assets_reply := fun a =>
       if String.eqb a "w1" then reply [priced "TokenA" 200] None
       else reply [priced "TokenB" 300]
              (Some {| lamports := Some (float_of_Z 1);
                       price_per_sol := Some (float_of_Z 150);
                       nb_total_price := Some PrimFloat.nan |});
     latency := fun i => i |}.

End FloatExample.

Lemma nan_total_leaves_aggregates_unordered :
  map SolWalletAgent.a_token_address
    (SolWalletAgent.analyze_holders FloatExample.the_world "TokenA" 20)
  = ["TokenA"; SolWalletAgent.sol_address; "TokenB"]
  /\ map SolWalletAgent.total_holding_value
       (SolWalletAgent.analyze_holders FloatExample.the_world "TokenA" 20)
     = [float_of_Z 200; PrimFloat.nan; float_of_Z 300]
  /\ nltb (float_of_Z 200) (float_of_Z 300) = true
  /\ ~ SolWalletAgent.descending_by SolWalletAgent.total_holding_value
         (SolWalletAgent.analyze_holders FloatExample.the_world "TokenA" 20).
Proof.
  assert (Htotals :
            map SolWalletAgent.total_holding_value
              (SolWalletAgent.analyze_holders FloatExample.the_world "TokenA" 20)
            = [float_of_Z 200; PrimFloat.nan; float_of_Z 300])
    by (vm_compute; reflexivity).
  split; [ vm_compute; reflexivity | ].
  split; [ exact Htotals | ].
  split; [ vm_compute; reflexivity | ].
  intros Hsorted. unfold SolWalletAgent.descending_by in Hsorted.
  apply (StronglySorted_map SolWalletAgent.total_holding_value
           (fun x y => nltb x y = false)) in Hsorted.
  rewrite Htotals in Hsorted.
  inversion Hsorted as [ | x l _ Hfirst ]; subst.
  inversion Hfirst as [ | y l' _ Hrest ]; subst.
  inversion Hrest as [ | z l'' Hbad _ ]; subst.
  vm_compute in Hbad. discriminate.
Qed.


Lemma native_balance_comes_first_witness :
  exists others,
    SolWalletAgent.get_wallet_assets WalletExample.wallet_reply
    = WalletExample.sol_entry :: others
    /\ mapM SolWalletAgent.asset_holding
         (filter SolWalletAgent.not_mutable
            (filter SolWalletAgent.has_price_above_100
               [WalletExample.dust; WalletExample.token_a; WalletExample.mutable_token]))
       = Ok others
    /\ Forall (fun hd => nltb (nconst 100) (SolWalletAgent.total_price hd) = true) others.
Proof.
  destruct (native_balance_comes_first WalletExample.wallet_reply WalletExample.wallet
              {| SolWalletAgent.lamports := Some 333%Z;
                 SolWalletAgent.price_per_sol := Some 150%Z;
                 SolWalletAgent.nb_total_price := Some 50%Z |}
              eq_refl eq_refl eq_refl)
    as [[Hempty _] | (its & others & Hits & _ & Hothers & Hassets & Hprices)].
  - vm_compute in Hempty. discriminate.
  - injection Hits as <-. exists others.
    split; [ exact Hassets | ]. split; [ exact Hothers | exact Hprices ].
Defined.

(** A wallet with a native balance and one asset that passes both filters
    but has no id. *)
Module NamelessExample.
Import SolWalletAgent.

Definition nameless : item (num := Z) :=
  {| id := None;
     it_token_info := it_token_info WalletExample.token_a;
     mutable := Some false;
     it_content := None |}.

Definition balance : native_balance (num := Z) :=
  {| lamports := Some 333%Z; price_per_sol := Some 150%Z; nb_total_price := Some 50%Z |}.

Definition wallet : search_result (num := Z) :=
  {| sr_total := Some 1%Z; items := Some [nameless]; nativeBalance := Some balance |}.

Definition wallet_reply : http_outcome (num := Z) :=
  HttpResponse 200 (Some {| rpc_result := Some wallet |}).

End NamelessExample.

Lemma native_balance_lost_with_a_nameless_asset :
  SolWalletAgent._post NamelessExample.wallet_reply
  = Ok (Some {| SolWalletAgent.rpc_result := Some NamelessExample.wallet |})
  /\ SolWalletAgent.nativeBalance NamelessExample.wallet = Some NamelessExample.balance
  /\ SolWalletAgent.native_balance_truthy NamelessExample.balance = true
  /\ SolWalletAgent.get_wallet_assets_try NamelessExample.wallet_reply
     = Raise (Exn KeyError "'id'")
  /\ SolWalletAgent.get_wallet_assets NamelessExample.wallet_reply = [].
Proof. repeat split. Qed.

(** ** The order of strings *)

Lemma string_compare_lt_trans (a b c : string) :
  String.compare a b = Lt -> String.compare b c = Lt -> String.compare a c = Lt.
Proof.
  revert b c. induction a as [ | x a IH]; intros [ | y b] [ | z c]; simpl; try congruence.
  unfold Ascii.compare.
  destruct (N.compare_spec (N_of_ascii x) (N_of_ascii y)) as [Hxy | Hxy | Hxy];
    destruct (N.compare_spec (N_of_ascii y) (N_of_ascii z)) as [Hyz | Hyz | Hyz];
    try congruence; intros H1 H2.
  - rewrite Hxy, Hyz, N.compare_refl. eapply IH; eassumption.
  - rewrite Hxy. now apply N.compare_lt_iff in Hyz as ->.
  - rewrite <- Hyz. now apply N.compare_lt_iff in Hxy as ->.
  - assert (Hxz : (N_of_ascii x < N_of_ascii z)%N) by lia.
    now apply N.compare_lt_iff in Hxz as ->.
Qed.

Lemma string_ltb_leb (a b : string) : String.ltb b a = negb (String.leb a b).
Proof.
  unfold String.ltb, String.leb. rewrite (String.compare_antisym a b).
  destruct (String.compare b a); reflexivity.
Qed.

Lemma string_leb_trans (a b c : string) :
  String.leb a b = true -> String.leb b c = true -> String.leb a c = true.
Proof.
  unfold String.leb.
  destruct (String.compare a b) eqn:Hab; try discriminate;
    destruct (String.compare b c) eqn:Hbc; try discriminate; intros _ _.
  - apply String.compare_eq_iff in Hab. subst a. now rewrite Hbc.
  - apply String.compare_eq_iff in Hab. subst a. now rewrite Hbc.
  - apply String.compare_eq_iff in Hbc. subst c. now rewrite Hab.
  - now rewrite (string_compare_lt_trans a b c).
Qed.

(** ** The token-info agent: trade buckets *)

Section TradeFacts.
Import BitquerySolanaTokenInfoAgent.
Context {num : Type} {N : PyNumber num}.
Context (parse_float : string -> option num).

Lemma py_lt_time_ok (a b : option string) (r : bool) :
  py_lt_time a b = Ok r ->
  exists x y, a = Some x /\ b = Some y /\ r = String.ltb x y.
Proof.
  destruct a as [x | ], b as [y | ]; simpl; try discriminate.
  intros H. inversion H. eauto.
Qed.

Lemma insert_checked_sorted (x : @trade_bucket num) (l r : list (@trade_bucket num)) :
  sorted_by_time l ->
  insert_checked py_lt_time time x l = Ok r ->
  sorted_by_time r /\ Permutation r (x :: l).
Proof.
  unfold sorted_by_time. revert r.
  induction l as [ | y l IH]; simpl; intros r Hs Hr.
  - inversion Hr; subst. split; [ repeat constructor | apply Permutation_refl ].
  - destruct (py_lt_time (time y) (time x)) as [b | e] eqn:Hlt; [ | discriminate ].
    apply py_lt_time_ok in Hlt. destruct Hlt as (ty & tx & Hty & Htx & ->).
    inversion Hs as [ | y' l' Hl Hy ]; subst.
    simpl in Hr. destruct (String.ltb ty tx) eqn:Hcmp.
    + destruct (insert_checked py_lt_time time x l) as [r' | e] eqn:Hins; [ | discriminate ].
      simpl in Hr. inversion Hr; subst r; clear Hr.
      destruct (IH r' Hl eq_refl) as [Hs' Hp].
      split.
      * constructor; [ exact Hs' | ].
        eapply Permutation_Forall; [ apply Permutation_sym, Hp | ].
        constructor; [ | exact Hy ].
        exists ty, tx. repeat split; auto.
        rewrite string_ltb_leb in Hcmp. apply negb_true_iff in Hcmp.
        destruct (String.leb_total ty tx); congruence.
      * eapply perm_trans; [ apply perm_skip, Hp | apply perm_swap ].
    + inversion Hr; subst r; clear Hr.
      split; [ | apply Permutation_refl ].
      assert (Hxy : String.leb tx ty = true).
      { rewrite string_ltb_leb in Hcmp. now apply negb_false_iff in Hcmp. }
      constructor; [ exact Hs | ].
      constructor; [ exists tx, ty; auto | ].
      eapply Forall_impl; [ | exact Hy ].
      intros z (ty' & tz & Hty' & Htz & Hle).
      assert (ty' = ty) by congruence. subst ty'.
      exists tx, tz. repeat split; auto.
      eapply string_leb_trans; eassumption.
Qed.

Lemma sort_checked_sorted (l r : list (@trade_bucket num)) :
  sort_checked py_lt_time time l = Ok r ->
  sorted_by_time r /\ Permutation r l.
Proof.
  revert r. induction l as [ | x l IH]; simpl; intros r Hr.
  - inversion Hr. split; constructor.
  - destruct (sort_checked py_lt_time time l) as [s | e]; [ | discriminate ].
    simpl in Hr. destruct (IH s eq_refl) as [Hs Hp].
    destruct (insert_checked_sorted x s r Hs Hr) as [Hs' Hp'].
    split; [ exact Hs' | ].
    eapply perm_trans; [ exact Hp' | apply perm_skip, Hp ].
Qed.

(** C7.  Whenever [fetch_and_organize_dex_trade_data] returns a bucket
    sequence, the sequence is in non-decreasing order of [time]. *)
Theorem organized_trades_sorted_by_time (o : post_outcome) (l : list trade_bucket) :
  fetch_and_organize_dex_trade_data parse_float o = Ok l -> sorted_by_time l.
Proof.
  unfold fetch_and_organize_dex_trade_data.
  destruct o as [response | e]; [ | discriminate ].
  destruct (negb (Z.eqb (status_code response) 200)); [ discriminate | ].
  destruct (json response) as [[buckets | ] | e]; simpl; try discriminate.
  destruct (mapM (organize_bucket parse_float) buckets) as [organized | e];
    simpl; [ | discriminate ].
  intros H. now apply sort_checked_sorted in H.
Qed.

End TradeFacts.

(** ** The token-info agent: the trading summary *)

Section SummaryFacts.
Import BitquerySolanaTokenInfoAgent.
Context {num : Type} {N : PyNumber num}.



(** [max] and [min] share their loop; [above best item] says that [item]
    replaces [best]. *)
Section Best.
Context (better : option num -> option num -> result bool) (above : num -> num -> bool).
Hypothesis better_ok : forall item best b,
    better item best = Ok b ->
    exists x y, item = Some x /\ best = Some y /\ b = above y x.
Hypothesis better_numbers : forall x y, better (Some x) (Some y) = Ok (above y x).
Hypothesis above_asym : forall x y, above x y = true -> above y x = false.
Hypothesis above_negtrans : forall x y z,
    above y x = false -> above z y = false -> above z x = false.





End Best.

Context {O : PyNumberOrder num}.



End SummaryFacts.

Section SummaryTheorems.
Import BitquerySolanaTokenInfoAgent.
Context {num : Type} {N : PyNumber num} {O : PyNumberOrder num}.
Context (parse_float : string -> option num).
Context {trending_token : Type}.







End SummaryTheorems.

(** ** The token-info agent: a worked instance

    Three 5-minute buckets that arrive out of order; prices are exact
    rationals and volumes are integer literals. *)

Module TradeExample.
Import BitquerySolanaTokenInfoAgent.

(** [float(s)] on integer literals. *)
Definition parse_float (s : string) : option Q :=
  option_map (fun i => inject_Z (Z.of_int i)) (NilZero.int_of_string s).

Definition row (t : string) (o h l c : Q) : raw_bucket (num := Q) :=
  {| Block := Some {| Time := Some t |};
     raw_open := Some o;
     raw_max := Some h;
     raw_min := Some l;
     raw_close := Some c;
     raw_volume_field := Some (VolumeString "10") |}.

Definition bucket (t : string) (o h l c : Q) : trade_bucket (num := Q) :=
  {| time := Some t;
     open := Some o;
     high := Some h;
     low := Some l;
     close := Some c;
     volume := VNumber (10 # 1) |}.

Definition t0 : string := "2024-01-01T00:00:00Z".
Definition t5 : string := "2024-01-01T00:05:00Z".
Definition t10 : string := "2024-01-01T00:10:00Z".

Definition reply_of (rows : list raw_bucket) : post_outcome (num := Q) :=
  Responded {| status_code := 200; text := ""; json := Ok (Some rows) |}.

(** Scenario B: open 1 throughout, last close 1.1. *)
Definition rising : post_outcome (num := Q) :=
  reply_of [row t10 1 (6 # 5) 1 (11 # 10); row t0 1 1 1 1; row t5 1 1 1 1].

Definition rising_buckets : list (trade_bucket (num := Q)) :=
  [bucket t0 1 1 1 1; bucket t5 1 1 1 1; bucket t10 1 (6 # 5) 1 (11 # 10)].

(** Scenario C: the first open is 0. *)
Definition from_zero : post_outcome (num := Q) :=
  reply_of [row t5 1 2 1 2; row t0 0 1 0 1].

Example rising_is_organized :
  fetch_and_organize_dex_trade_data parse_float rising = Ok rising_buckets.
Proof. vm_compute. reflexivity. Qed.

Example unparsed_volume_is_kept :
  fetch_and_organize_dex_trade_data parse_float
    (Responded {| status_code := 200; text := "";
                  json := Ok (Some [ {| Block := None; raw_open := None; raw_max := None;
                                        raw_min := None; raw_close := None;
                                        raw_volume_field := Some (VolumeString "n/a") |} ]) |})
  = Ok [ {| time := None; open := None; high := None; low := None; close := None;
            volume := VText "n/a" |} ].
Proof. vm_compute. reflexivity. Qed.

Example missing_time_stops_the_sort :
  is_ok (fetch_and_organize_dex_trade_data parse_float
           (reply_of [row t5 1 1 1 1;
                      {| Block := None; raw_open := Some 1%Q; raw_max := Some 1%Q;
                         raw_min := Some 1%Q; raw_close := Some 1%Q;
                         raw_volume_field := None |} ])) = false.
Proof. vm_compute. reflexivity. Qed.

Example rising_summary :
  match get_token_trading_info (trending_token := unit) parse_float "now" rising with
  | TradingInfo s d =>
      Qeq_bool (price_change_1h s) (1 # 10)
      && Qeq_bool (price_change_percentage_1h s) 10
      && Qeq_bool (total_volume_1h s) 30
  | _ => false
  end = true.
Proof. vm_compute. reflexivity. Qed.

Example from_zero_summary :
  match get_token_trading_info (trending_token := unit) parse_float "now" from_zero with
  | TradingInfo s d =>
      Qeq_bool (price_change_1h s) 2
      && match price_change_percentage_1h s with
         | Qmake 0 1 => true
         | _ => false
         end
  | _ => false
  end = true.
Proof. vm_compute. reflexivity. Qed.

Example bad_status_is_an_error :
  get_token_trading_info (num := Q) (trending_token := unit) parse_float "now"
    (Responded {| status_code := 500; text := "oops"; json := Ok None |})
  = DataError "Failed to fetch token trading info: Query failed with status code 500: oops".
Proof. vm_compute. reflexivity. Qed.

Example no_buckets_is_an_error :
  get_token_trading_info (num := Q) (trending_token := unit) parse_float "now" (reply_of [])
  = DataError "No trading data available".
Proof. vm_compute. reflexivity. Qed.

End TradeExample.

Lemma organized_trades_sorted_by_time_witness :
  BitquerySolanaTokenInfoAgent.sorted_by_time TradeExample.rising_buckets.
Proof.
  apply (organized_trades_sorted_by_time TradeExample.parse_float TradeExample.rising).
  vm_compute. reflexivity.
Defined.


(** ** The dispatchers *)

Section TracedFacts.
Context {event : Type}.

Lemma tbind_emit {B} (e : event) (k : unit -> traced event B) :
  tbind (emit e) k = (e :: fst (k tt), snd (k tt)).
Proof. unfold tbind, emit. destruct (k tt). reflexivity. Qed.

Lemma tbind_lift_ok {A B} (a : A) (k : A -> traced event B) :
  tbind (lift (Ok a)) k = k a.
Proof. unfold tbind, lift. destruct (k a). reflexivity. Qed.

Lemma tbind_lift_raise {A B} (e : exn) (k : A -> traced event B) :
  tbind (lift (Raise e)) k = ([], Raise e).
Proof. reflexivity. Qed.

Lemma tbind_ok {A B} (t : list event) (a : A) (k : A -> traced event B) :
  tbind (t, Ok a) k = (t ++ fst (k a), snd (k a)).
Proof. unfold tbind. destruct (k a). reflexivity. Qed.

Lemma tbind_raise {A B} (t : list event) (e : exn) (k : A -> traced event B) :
  tbind (t, Raise e) k = (t, Raise e).
Proof. reflexivity. Qed.

End TracedFacts.

Section TokenInfoDispatch.
Import BitquerySolanaTokenInfoAgent.
Context {num : Type} {N : PyNumber num}.
Context (parse_float : string -> option num).
Context {trending_token : Type}.

Lemma token_info_missing_input (s : services (trending_token := trending_token)) (p : params) :
  truthy_str (tool p) = false ->
  truthy_str (query p) = false ->
  handle_message parse_float s p
  = ([], Ok (error_reply "Either 'query' or 'tool' must be provided in the parameters.")).
Proof. intros Ht Hq. unfold handle_message. rewrite Ht, Hq. reflexivity. Qed.

(** On the LLM path without [raw_data_only], the data of the tool call goes to
    the narration call, error payload or not. *)
Lemma token_info_narrates (s : services (trending_token := trending_token)) (p : params)
  (q : string) (r : llm_response) (tc : tool_call) (args : tool_args)
  (t : list event) (d : tool_data) :
  truthy_str (tool p) = false ->
  query p = Some q -> truthy_str (Some q) = true ->
  get_or (raw_data_only p) false = false ->
  call_llm_with_tools_async s q = Ok (Some r) ->
  (llm_tool_calls r = Some (OneToolCall tc)
   \/ exists more, llm_tool_calls r = Some (ToolCallList (tc :: more))) ->
  json_loads s (function_arguments tc) = Ok args ->
  _handle_tool_logic parse_float s (function_name tc) args = (t, Ok d) ->
  handle_message parse_float s p
  = (LLMToolSelection q :: t ++ [LLMNarration q d],
     match call_llm_async s q (tc_id tc) d with
     | Ok explanation => Ok (envelope explanation d)
     | Raise e => Raise e
     end).
Proof.
  intros Ht Hq Hqt Hraw Hllm Hcalls Hargs Hlogic.
  unfold handle_message. rewrite Ht, Hq, Hqt, Hraw. simpl get_or.
  rewrite tbind_emit, Hllm, tbind_lift_ok.
  assert (Htruthy : tool_calls_truthy (llm_tool_calls r) = true).
  { destruct Hcalls as [-> | [more ->]]; reflexivity. }
  assert (Hresp : llm_response_truthy (Some r) = true).
  { simpl. destruct Hcalls as [-> | [more ->]]; simpl; apply orb_true_r. }
  cbn [get_or]. rewrite Hresp, Htruthy. simpl negb. cbv iota.
  assert (Hsel : match llm_tool_calls r with
                 | Some (ToolCallList (tc0 :: _)) => Ok tc0
                 | Some (OneToolCall tc0) => Ok tc0
                 | _ => Raise (Exn AttributeError "object has no attribute 'function'")
                 end = Ok tc).
  { destruct Hcalls as [-> | [more ->]]; reflexivity. }
  rewrite Hsel, tbind_lift_ok, Hargs, tbind_lift_ok, Hlogic, tbind_ok.
  rewrite tbind_emit. simpl fst. simpl snd.
  destruct (call_llm_async s q (tc_id tc) d); reflexivity.
Qed.

Lemma token_info_reply_shape (s : services (trending_token := trending_token)) (p : params) :
  match snd (handle_message parse_float s p) with
  | Ok r => (exists response data, r = envelope response data)
            \/ (exists msg, r = error_reply msg)
  | Raise _ => True
  end.
Proof.
  unfold handle_message.
  destruct (truthy_str (tool p)).
  { destruct (_handle_tool_logic parse_float s (get_or (tool p) "")
                (get_or (tool_arguments p) no_args)) as [t [d | e]]; simpl; eauto. }
  destruct (truthy_str (query p)); [ | simpl; eauto ].
  rewrite tbind_emit. cbn [snd].
  destruct (call_llm_with_tools_async s (get_or (query p) "")) as [resp | e];
    [ rewrite tbind_lift_ok | exact I ].
  destruct (llm_response_truthy resp); simpl negb; cbv iota; [ | simpl; eauto ].
  destruct (tool_calls_truthy _); simpl negb; cbv iota; [ | simpl; eauto ].
  match goal with
  | |- context [tbind (lift ?c) _] => destruct c as [tc | e]
  end; [ rewrite tbind_lift_ok | exact I ].
  destruct (json_loads s (function_arguments tc)) as [args | e];
    [ rewrite tbind_lift_ok | exact I ].
  destruct (_handle_tool_logic parse_float s (function_name tc) args) as [t [d | e]];
    [ rewrite tbind_ok | exact I ].
  destruct (get_or (raw_data_only p) false); simpl; eauto.
  destruct (call_llm_async s _ (tc_id tc) d); simpl; eauto.
Qed.

End TokenInfoDispatch.

Section WalletDispatch.
Import SolWalletAgent.
Context {num : Type} {N : PyNumber num} {tx_record : Type}.

Lemma wallet_missing_input (s : services (tx_record := tx_record)) (p : params) :
  truthy_str (tool p) = false ->
  truthy_str (query p) = false ->
  handle_message s p
  = ([], error_reply "Either 'query' or 'tool' must be provided in the parameters.").
Proof.
  intros Ht Hq. unfold handle_message, handle_message_try. rewrite Ht, Hq. reflexivity.
Qed.

Lemma wallet_narrates (s : services (tx_record := tx_record)) (p : params)
  (q : string) (r : llm_response) (tc : tool_call) (args : tool_args)
  (t : list event) (d : tool_data) :
  truthy_str (tool p) = false ->
  query p = Some q -> truthy_str (Some q) = true ->
  get_or (raw_data_only p) false = false ->
  call_llm_with_tools_async s q = Ok (Some r) ->
  llm_tool_calls r = Some (OneToolCall tc) ->
  json_loads s (function_arguments tc) = Ok args ->
  _handle_tool_logic s (function_name tc) args = (t, Ok d) ->
  handle_message s p
  = (LLMToolSelection q :: t ++ [LLMNarration q d],
     match call_llm_async s q (tc_id tc) d with
     | Ok explanation => envelope explanation d
     | Raise e => error_reply ("Error handling message: " ++ exn_str e)
     end).
Proof.
  intros Ht Hq Hqt Hraw Hllm Hcalls Hargs Hlogic.
  unfold handle_message, handle_message_try. rewrite Ht, Hq, Hqt, Hraw. simpl get_or.
  rewrite tbind_emit, Hllm, tbind_lift_ok. cbn [get_or].
  assert (Hresp : llm_response_truthy (Some r) = true).
  { simpl. rewrite Hcalls. apply orb_true_r. }
  rewrite Hresp, Hcalls. simpl negb. cbv iota.
  rewrite tbind_lift_ok, Hargs, tbind_lift_ok, Hlogic, tbind_ok.
  rewrite tbind_emit. simpl fst. simpl snd.
  destruct (call_llm_async s q (tc_id tc) d); reflexivity.
Qed.

Lemma wallet_reply_shape (s : services (tx_record := tx_record)) (p : params) :
  (exists response data, snd (handle_message s p) = envelope response data)
  \/ (exists msg, snd (handle_message s p) = error_reply msg).
Proof.
  unfold handle_message.
  assert (H : match snd (handle_message_try s p) with
              | Ok r => (exists response data, r = envelope response data)
                        \/ (exists msg, r = error_reply msg)
              | Raise _ => True
              end).
  { unfold handle_message_try.
    destruct (truthy_str (tool p)).
    { destruct (_handle_tool_logic s (get_or (tool p) "")
                  (get_or (tool_arguments p) no_args)) as [t [d | e]]; simpl; eauto. }
    destruct (truthy_str (query p)); [ | simpl; eauto ].
    rewrite tbind_emit. cbn [snd].
    destruct (call_llm_with_tools_async s (get_or (query p) "")) as [resp | e];
      [ rewrite tbind_lift_ok | exact I ].
    destruct (llm_response_truthy resp); simpl negb; cbv iota; [ | simpl; eauto ].
    destruct (tool_calls_truthy _); simpl negb; cbv iota.
    2: { match goal with
         | |- context [tbind (lift ?c) _] => destruct c as [content | e]
         end; simpl; eauto. }
    match goal with
    | |- context [tbind (lift ?c) _] => destruct c as [tc | e]
    end; [ rewrite tbind_lift_ok | exact I ].
    destruct (json_loads s (function_arguments tc)) as [args | e];
      [ rewrite tbind_lift_ok | exact I ].
    destruct (_handle_tool_logic s (function_name tc) args) as [t [d | e]];
      [ rewrite tbind_ok | exact I ].
    destruct (get_or (raw_data_only p) false); simpl; eauto.
    destruct (call_llm_async s _ (tc_id tc) d); simpl; eauto. }
  destruct (handle_message_try s p) as [t [r | e]]; simpl in *; eauto.
Qed.

End WalletDispatch.

(** ** The dispatchers: worked instances *)

Module DispatchExample.

(** The JSON text of an object with one string member: [{"key": "value"}]. *)
Definition json_object (key value : string) : string :=
  let quote := String (Ascii.ascii_of_nat 34) EmptyString in
  "{" ++ quote ++ key ++ quote ++ ": " ++ quote ++ value ++ quote ++ "}".

Definition mint1_arguments : string := json_object "token_address" "Mint1".

(** [json.loads] on the argument texts of these examples: the empty object,
    the object above, and [JSONDecodeError] for any other text. *)
Definition wallet_loads (s : string) : result SolWalletAgent.tool_args :=
  if String.eqb s "{}" then Ok SolWalletAgent.no_args
  else Raise (Exn JSONDecodeError "Expecting value").

Definition token_loads (s : string) : result BitquerySolanaTokenInfoAgent.tool_args :=
  if String.eqb s "{}" then Ok BitquerySolanaTokenInfoAgent.no_args
  else if String.eqb s mint1_arguments then
    Ok {| BitquerySolanaTokenInfoAgent.token_address := Some "Mint1" |}
  else Raise (Exn JSONDecodeError "Expecting value").

(** The LLM picks a tool the wallet agent does not have. *)
Definition wallet_services : SolWalletAgent.services (num := Z) (tx_record := unit) :=
  {| SolWalletAgent.chain := WalletExample.the_world;
     SolWalletAgent.tx_history := fun _ => [];
     SolWalletAgent.call_llm_with_tools_async := fun _ =>
       Ok (Some {| SolWalletAgent.llm_content := None;
                   SolWalletAgent.llm_tool_calls :=
                     Some (SolWalletAgent.OneToolCall
                             {| SolWalletAgent.tc_id := "call_1";
                                SolWalletAgent.function_name := "get_sol_price";
                                SolWalletAgent.function_arguments := "{}" |}) |});
     SolWalletAgent.call_llm_async := fun _ _ _ => Ok "That tool is not available.";
     SolWalletAgent.json_loads := wallet_loads |}.

Definition wallet_question : SolWalletAgent.params :=
  {| SolWalletAgent.query := Some "What is the price of SOL?";
     SolWalletAgent.tool := None;
     SolWalletAgent.tool_arguments := None;
     SolWalletAgent.raw_data_only := None |}.

Definition wallet_nothing : SolWalletAgent.params :=
  {| SolWalletAgent.query := None;
     SolWalletAgent.tool := None;
     SolWalletAgent.tool_arguments := None;
     SolWalletAgent.raw_data_only := None |}.

(** The LLM picks [get_token_trading_info]; the indexer has no trades. *)
Definition token_services
  : BitquerySolanaTokenInfoAgent.services (num := Q) (trending_token := unit) :=
  {| BitquerySolanaTokenInfoAgent.utcnow := "2024-01-01T01:00:00";
     BitquerySolanaTokenInfoAgent.trades_reply := fun _ => TradeExample.reply_of [];
     BitquerySolanaTokenInfoAgent.top_ten_trending_tokens := Ok [];
     BitquerySolanaTokenInfoAgent.call_llm_with_tools_async := fun _ =>
       Ok (Some {| BitquerySolanaTokenInfoAgent.llm_content := None;
                   BitquerySolanaTokenInfoAgent.llm_tool_calls :=
                     Some (BitquerySolanaTokenInfoAgent.ToolCallList
                             [ {| BitquerySolanaTokenInfoAgent.tc_id := "call_1";
                                  BitquerySolanaTokenInfoAgent.function_name :=
                                    "get_token_trading_info";
                                  BitquerySolanaTokenInfoAgent.function_arguments :=
                                    mint1_arguments |} ]) |});
     BitquerySolanaTokenInfoAgent.call_llm_async := fun _ _ _ =>
       Ok "There is no trading data for this token.";
     BitquerySolanaTokenInfoAgent.json_loads := token_loads |}.

Definition token_question : BitquerySolanaTokenInfoAgent.params :=
  {| BitquerySolanaTokenInfoAgent.query := Some "How is Mint1 trading?";
     BitquerySolanaTokenInfoAgent.tool := None;
     BitquerySolanaTokenInfoAgent.tool_arguments := None;
     BitquerySolanaTokenInfoAgent.raw_data_only := Some false |}.

Definition token_nothing : BitquerySolanaTokenInfoAgent.params :=
  {| BitquerySolanaTokenInfoAgent.query := Some "";
     BitquerySolanaTokenInfoAgent.tool := None;
     BitquerySolanaTokenInfoAgent.tool_arguments := None;
     BitquerySolanaTokenInfoAgent.raw_data_only := None |}.

Definition token_direct : BitquerySolanaTokenInfoAgent.params :=
  {| BitquerySolanaTokenInfoAgent.query := Some "ignored";
     BitquerySolanaTokenInfoAgent.tool := Some "get_token_trading_info";
     BitquerySolanaTokenInfoAgent.tool_arguments :=
       Some {| BitquerySolanaTokenInfoAgent.token_address := Some "Mint1" |};
     BitquerySolanaTokenInfoAgent.raw_data_only := None |}.

Example direct_call_skips_the_llm :
  BitquerySolanaTokenInfoAgent.handle_message TradeExample.parse_float token_services
    token_direct
  = ([BitquerySolanaTokenInfoAgent.Operation "get_token_trading_info"],
     Ok (BitquerySolanaTokenInfoAgent.envelope ""
           (BitquerySolanaTokenInfoAgent.DataError "No trading data available"))).
Proof. vm_compute. reflexivity. Qed.

Example direct_call_without_its_argument_raises :
  BitquerySolanaTokenInfoAgent.handle_message TradeExample.parse_float token_services
    {| BitquerySolanaTokenInfoAgent.query := None;
       BitquerySolanaTokenInfoAgent.tool := Some "get_token_trading_info";
       BitquerySolanaTokenInfoAgent.tool_arguments := None;
       BitquerySolanaTokenInfoAgent.raw_data_only := None |}
  = ([], Raise (Exn KeyError "'token_address'")).
Proof. vm_compute. reflexivity. Qed.

Example wallet_direct_call_without_its_argument :
  SolWalletAgent.handle_message wallet_services
    {| SolWalletAgent.query := None;
       SolWalletAgent.tool := Some "get_sol_wallet_assets";
       SolWalletAgent.tool_arguments := None;
       SolWalletAgent.raw_data_only := None |}
  = ([], SolWalletAgent.error_reply "Error handling message: 'owner_address'").
Proof. vm_compute. reflexivity. Qed.

End DispatchExample.

(** ** The dispatchers: what a request gets back *)

(** C8.  A request with neither a tool name nor a query gets the
    missing-input error, and no operation and no LLM call is made. *)
Theorem missing_input_is_reported :
  (forall (num : Type) (N : PyNumber num) (tx_record : Type)
          (s : SolWalletAgent.services (num := num) (tx_record := tx_record))
          (p : SolWalletAgent.params),
      truthy_str (SolWalletAgent.tool p) = false ->
      truthy_str (SolWalletAgent.query p) = false ->
      SolWalletAgent.handle_message s p
      = ([], SolWalletAgent.error_reply
               "Either 'query' or 'tool' must be provided in the parameters."))
  /\ (forall (num : Type) (N : PyNumber num) (parse_float : string -> option num)
             (trending_token : Type)
             (s : BitquerySolanaTokenInfoAgent.services
                    (num := num) (trending_token := trending_token))
             (p : BitquerySolanaTokenInfoAgent.params),
         truthy_str (BitquerySolanaTokenInfoAgent.tool p) = false ->
         truthy_str (BitquerySolanaTokenInfoAgent.query p) = false ->
         BitquerySolanaTokenInfoAgent.handle_message parse_float s p
         = ([], Ok (BitquerySolanaTokenInfoAgent.error_reply
                      "Either 'query' or 'tool' must be provided in the parameters."))).
Proof.
  split; intros.
  - now apply wallet_missing_input.
  - now apply token_info_missing_input.
Qed.

Lemma missing_input_is_reported_witness :
  SolWalletAgent.handle_message DispatchExample.wallet_services
    DispatchExample.wallet_nothing
  = ([], SolWalletAgent.error_reply
           "Either 'query' or 'tool' must be provided in the parameters.")
  /\ BitquerySolanaTokenInfoAgent.handle_message TradeExample.parse_float
       DispatchExample.token_services DispatchExample.token_nothing
     = ([], Ok (BitquerySolanaTokenInfoAgent.error_reply
                  "Either 'query' or 'tool' must be provided in the parameters.")).
Proof.
  split.
  - apply (proj1 missing_input_is_reported); reflexivity.
  - apply (proj2 missing_input_is_reported); reflexivity.
Defined.

(** C2 as stated fails: the reply to a request without input has neither a
    [response] nor a [data] field. *)
Lemma reply_without_envelope_fields :
  dict_get "response"
    (snd (SolWalletAgent.handle_message DispatchExample.wallet_services
            DispatchExample.wallet_nothing)) = None
  /\ dict_get "data"
       (snd (SolWalletAgent.handle_message DispatchExample.wallet_services
               DispatchExample.wallet_nothing)) = None
  /\ exists r,
       snd (BitquerySolanaTokenInfoAgent.handle_message TradeExample.parse_float
              DispatchExample.token_services DispatchExample.token_nothing) = Ok r
       /\ dict_get "response" r = None /\ dict_get "data" r = None.
Proof.
  split; [ reflexivity | ]. split; [ reflexivity | ].
  eexists. split; [ reflexivity | ]. split; reflexivity.
Qed.

(** C2, amended.  What [handle_message] returns is a response envelope
    [{response, data}] or an error object [{error}] without those fields.
    The wallet agent always returns one of the two; the token-info agent does
    whenever no exception leaves it. *)
Theorem reply_is_envelope_or_error :
  (forall (num : Type) (N : PyNumber num) (tx_record : Type)
          (s : SolWalletAgent.services (num := num) (tx_record := tx_record))
          (p : SolWalletAgent.params),
      (exists response data,
          snd (SolWalletAgent.handle_message s p) = SolWalletAgent.envelope response data)
      \/ (exists msg,
             snd (SolWalletAgent.handle_message s p) = SolWalletAgent.error_reply msg))
  /\ (forall (num : Type) (N : PyNumber num) (parse_float : string -> option num)
             (trending_token : Type)
             (s : BitquerySolanaTokenInfoAgent.services
                    (num := num) (trending_token := trending_token))
             (p : BitquerySolanaTokenInfoAgent.params),
         match snd (BitquerySolanaTokenInfoAgent.handle_message parse_float s p) with
         | Ok r =>
             (exists response data, r = BitquerySolanaTokenInfoAgent.envelope response data)
             \/ (exists msg, r = BitquerySolanaTokenInfoAgent.error_reply msg)
         | Raise _ => True
         end)
  /\ (forall (num : Type) (tx_record : Type) response
             (data : SolWalletAgent.tool_data (num := num) (tx_record := tx_record)) msg,
         SolWalletAgent.is_response_envelope (SolWalletAgent.envelope response data)
         /\ dict_get "response" (SolWalletAgent.error_reply (num := num)
                                   (tx_record := tx_record) msg) = None
         /\ dict_get "data" (SolWalletAgent.error_reply (num := num)
                               (tx_record := tx_record) msg) = None).
Proof.
  split; [ | split ].
  - intros. apply wallet_reply_shape.
  - intros. apply token_info_reply_shape.
  - intros. repeat split; simpl; eauto.
Qed.

(** C1 as stated fails: on the LLM path without [raw_data_only], an error
    payload is handed to the narration call like any other data. *)
Lemma error_payload_reaches_narration :
  BitquerySolanaTokenInfoAgent.handle_message TradeExample.parse_float
    DispatchExample.token_services DispatchExample.token_question
  = ([BitquerySolanaTokenInfoAgent.LLMToolSelection "How is Mint1 trading?";
      BitquerySolanaTokenInfoAgent.Operation "get_token_trading_info";
      BitquerySolanaTokenInfoAgent.LLMNarration "How is Mint1 trading?"
        (BitquerySolanaTokenInfoAgent.DataError "No trading data available")],
     Ok (BitquerySolanaTokenInfoAgent.envelope
           "There is no trading data for this token."
           (BitquerySolanaTokenInfoAgent.DataError "No trading data available")))
  /\ SolWalletAgent.handle_message DispatchExample.wallet_services
       DispatchExample.wallet_question
     = ([SolWalletAgent.LLMToolSelection "What is the price of SOL?";
         SolWalletAgent.LLMNarration "What is the price of SOL?"
           (SolWalletAgent.DataError "Unsupported tool: get_sol_price")],
        SolWalletAgent.envelope "That tool is not available."
          (SolWalletAgent.DataError "Unsupported tool: get_sol_price")).
Proof. split; vm_compute; reflexivity. Qed.

(** C1, amended.  On the LLM path without [raw_data_only], when the tool call
    hands back an error object, that object is kept unchanged as [data], the
    narration call is still made on it, and the reply is the envelope of the
    narration and the error object. *)
Theorem error_payload_is_kept_and_narrated :
  (forall (num : Type) (N : PyNumber num) (parse_float : string -> option num)
          (trending_token : Type)
          (s : BitquerySolanaTokenInfoAgent.services
                 (num := num) (trending_token := trending_token))
          (p : BitquerySolanaTokenInfoAgent.params) (q : string)
          (r : BitquerySolanaTokenInfoAgent.llm_response)
          (tc : BitquerySolanaTokenInfoAgent.tool_call)
          (args : BitquerySolanaTokenInfoAgent.tool_args)
          (t : list BitquerySolanaTokenInfoAgent.event) (msg : string),
      truthy_str (BitquerySolanaTokenInfoAgent.tool p) = false ->
      BitquerySolanaTokenInfoAgent.query p = Some q ->
      truthy_str (Some q) = true ->
      get_or (BitquerySolanaTokenInfoAgent.raw_data_only p) false = false ->
      BitquerySolanaTokenInfoAgent.call_llm_with_tools_async s q = Ok (Some r) ->
      (BitquerySolanaTokenInfoAgent.llm_tool_calls r
       = Some (BitquerySolanaTokenInfoAgent.OneToolCall tc)
       \/ exists more,
           BitquerySolanaTokenInfoAgent.llm_tool_calls r
           = Some (BitquerySolanaTokenInfoAgent.ToolCallList (tc :: more))) ->
      BitquerySolanaTokenInfoAgent.json_loads s
        (BitquerySolanaTokenInfoAgent.function_arguments tc) = Ok args ->
      BitquerySolanaTokenInfoAgent._handle_tool_logic parse_float s
        (BitquerySolanaTokenInfoAgent.function_name tc) args
      = (t, Ok (BitquerySolanaTokenInfoAgent.DataError msg)) ->
      BitquerySolanaTokenInfoAgent.handle_message parse_float s p
      = (BitquerySolanaTokenInfoAgent.LLMToolSelection q
           :: t ++ [BitquerySolanaTokenInfoAgent.LLMNarration q
                      (BitquerySolanaTokenInfoAgent.DataError msg)],
         match BitquerySolanaTokenInfoAgent.call_llm_async s q
                 (BitquerySolanaTokenInfoAgent.tc_id tc)
                 (BitquerySolanaTokenInfoAgent.DataError msg) with
         | Ok explanation =>
             Ok (BitquerySolanaTokenInfoAgent.envelope explanation
                   (BitquerySolanaTokenInfoAgent.DataError msg))
         | Raise e => Raise e
         end))
  /\ (forall (num : Type) (N : PyNumber num) (tx_record : Type)
             (s : SolWalletAgent.services (num := num) (tx_record := tx_record))
             (p : SolWalletAgent.params) (q : string)
             (r : SolWalletAgent.llm_response) (tc : SolWalletAgent.tool_call)
             (args : SolWalletAgent.tool_args)
             (t : list SolWalletAgent.event) (msg : string),
         truthy_str (SolWalletAgent.tool p) = false ->
         SolWalletAgent.query p = Some q ->
         truthy_str (Some q) = true ->
         get_or (SolWalletAgent.raw_data_only p) false = false ->
         SolWalletAgent.call_llm_with_tools_async s q = Ok (Some r) ->
         SolWalletAgent.llm_tool_calls r = Some (SolWalletAgent.OneToolCall tc) ->
         SolWalletAgent.json_loads s (SolWalletAgent.function_arguments tc) = Ok args ->
         SolWalletAgent._handle_tool_logic s (SolWalletAgent.function_name tc) args
         = (t, Ok (SolWalletAgent.DataError msg)) ->
         SolWalletAgent.handle_message s p
         = (SolWalletAgent.LLMToolSelection q
              :: t ++ [SolWalletAgent.LLMNarration q (SolWalletAgent.DataError msg)],
            match SolWalletAgent.call_llm_async s q (SolWalletAgent.tc_id tc)
                    (SolWalletAgent.DataError msg) with
            | Ok explanation =>
                SolWalletAgent.envelope explanation (SolWalletAgent.DataError msg)
            | Raise e =>
                SolWalletAgent.error_reply ("Error handling message: " ++ exn_str e)
            end)).
Proof.
  split; intros.
  - eapply token_info_narrates; eassumption.
  - eapply wallet_narrates; eassumption.
Qed.

Lemma error_payload_is_kept_and_narrated_witness :
  BitquerySolanaTokenInfoAgent.handle_message TradeExample.parse_float
    DispatchExample.token_services DispatchExample.token_question
  = ([BitquerySolanaTokenInfoAgent.LLMToolSelection "How is Mint1 trading?";
      BitquerySolanaTokenInfoAgent.Operation "get_token_trading_info";
      BitquerySolanaTokenInfoAgent.LLMNarration "How is Mint1 trading?"
        (BitquerySolanaTokenInfoAgent.DataError "No trading data available")],
     Ok (BitquerySolanaTokenInfoAgent.envelope
           "There is no trading data for this token."
           (BitquerySolanaTokenInfoAgent.DataError "No trading data available"))).
Proof.
  apply (proj1 error_payload_is_kept_and_narrated Q Q_PyNumber TradeExample.parse_float
           unit DispatchExample.token_services DispatchExample.token_question
           "How is Mint1 trading?"
           {| BitquerySolanaTokenInfoAgent.llm_content := None;
              BitquerySolanaTokenInfoAgent.llm_tool_calls :=
                Some (BitquerySolanaTokenInfoAgent.ToolCallList
                        [ {| BitquerySolanaTokenInfoAgent.tc_id := "call_1";
                             BitquerySolanaTokenInfoAgent.function_name :=
                               "get_token_trading_info";
                             BitquerySolanaTokenInfoAgent.function_arguments :=
                               DispatchExample.mint1_arguments |} ]) |}
           {| BitquerySolanaTokenInfoAgent.tc_id := "call_1";
              BitquerySolanaTokenInfoAgent.function_name := "get_token_trading_info";
              BitquerySolanaTokenInfoAgent.function_arguments :=
                DispatchExample.mint1_arguments |}
           {| BitquerySolanaTokenInfoAgent.token_address := Some "Mint1" |}
           [BitquerySolanaTokenInfoAgent.Operation "get_token_trading_info"]
           "No trading data available").
  - reflexivity.
  - reflexivity.
  - reflexivity.
  - reflexivity.
  - reflexivity.
  - right. exists []. reflexivity.
  - reflexivity.
  - vm_compute. reflexivity.
Defined.

Lemma reply_is_envelope_or_error_witness :
  (exists response data,
      snd (SolWalletAgent.handle_message DispatchExample.wallet_services
             DispatchExample.wallet_question)
      = SolWalletAgent.envelope response data)
  \/ (exists msg,
         snd (SolWalletAgent.handle_message DispatchExample.wallet_services
                DispatchExample.wallet_question)
         = SolWalletAgent.error_reply msg).
Proof.
  exact (proj1 reply_is_envelope_or_error Z Z_PyNumber unit
           DispatchExample.wallet_services DispatchExample.wallet_question).
Defined.

(** With [raw_data_only] the same request returns the data without a
    narration call. *)
Example raw_data_only_skips_narration :
  BitquerySolanaTokenInfoAgent.handle_message TradeExample.parse_float
    DispatchExample.token_services
    {| BitquerySolanaTokenInfoAgent.query := Some "How is Mint1 trading?";
       BitquerySolanaTokenInfoAgent.tool := None;
       BitquerySolanaTokenInfoAgent.tool_arguments := None;
       BitquerySolanaTokenInfoAgent.raw_data_only := Some true |}
  = ([BitquerySolanaTokenInfoAgent.LLMToolSelection "How is Mint1 trading?";
      BitquerySolanaTokenInfoAgent.Operation "get_token_trading_info"],
     Ok (BitquerySolanaTokenInfoAgent.envelope ""
           (BitquerySolanaTokenInfoAgent.DataError "No trading data available"))).
Proof. vm_compute. reflexivity. Qed.

(* ======================================================================== *)
(** * Further properties of the dispatchers *)

Module DispatchPaths.

(** The calls a request may make, in the only orders the handlers make them:
    at most one tool selection, then at most one operation, then at most one
    narration, and a narration only after a selection. *)
Definition token_trace_ok {num trending_token : Type}
  (t : list (BitquerySolanaTokenInfoAgent.event (num := num) (trending_token := trending_token)))
  : Prop :=
  match t with
  | [] => True
  | [BitquerySolanaTokenInfoAgent.Operation _] => True
  | [BitquerySolanaTokenInfoAgent.LLMToolSelection _] => True
  | [BitquerySolanaTokenInfoAgent.LLMToolSelection _;
     BitquerySolanaTokenInfoAgent.Operation _] => True
  | [BitquerySolanaTokenInfoAgent.LLMToolSelection _;
     BitquerySolanaTokenInfoAgent.LLMNarration _ _] => True
  | [BitquerySolanaTokenInfoAgent.LLMToolSelection _;
     BitquerySolanaTokenInfoAgent.Operation _;
     BitquerySolanaTokenInfoAgent.LLMNarration _ _] => True
  | _ => False
  end.

Definition wallet_trace_ok {num tx_record : Type}
  (t : list (SolWalletAgent.event (num := num) (tx_record := tx_record))) : Prop :=
  match t with
  | [] => True
  | [SolWalletAgent.Operation _] => True
  | [SolWalletAgent.LLMToolSelection _] => True
  | [SolWalletAgent.LLMToolSelection _; SolWalletAgent.Operation _] => True
  | [SolWalletAgent.LLMToolSelection _; SolWalletAgent.LLMNarration _ _] => True
  | [SolWalletAgent.LLMToolSelection _; SolWalletAgent.Operation _;
     SolWalletAgent.LLMNarration _ _] => True
  | _ => False
  end.

(** The tools each agent registers. *)
Definition wallet_tools : list string :=
  ["get_sol_wallet_assets"; "analyze_sol_token_holders"; "get_sol_tx_history"].

Definition token_tools : list string :=
  ["get_token_trading_info"; "get_top_trending_tokens"].

(** [s] with an LLM that answers every query with the tool calls [v]. *)
Definition token_llm_selects {num trending_token : Type}
  (s : BitquerySolanaTokenInfoAgent.services (num := num) (trending_token := trending_token))
  (content : option string) (v : BitquerySolanaTokenInfoAgent.tool_calls_value)
  : BitquerySolanaTokenInfoAgent.services :=
  {| BitquerySolanaTokenInfoAgent.utcnow := BitquerySolanaTokenInfoAgent.utcnow s;
     BitquerySolanaTokenInfoAgent.trades_reply := BitquerySolanaTokenInfoAgent.trades_reply s;
     BitquerySolanaTokenInfoAgent.top_ten_trending_tokens :=
       BitquerySolanaTokenInfoAgent.top_ten_trending_tokens s;
     BitquerySolanaTokenInfoAgent.call_llm_with_tools_async := fun _ =>
       Ok (Some {| BitquerySolanaTokenInfoAgent.llm_content := content;
                   BitquerySolanaTokenInfoAgent.llm_tool_calls := Some v |});
     BitquerySolanaTokenInfoAgent.call_llm_async :=
       BitquerySolanaTokenInfoAgent.call_llm_async s;
     BitquerySolanaTokenInfoAgent.json_loads := BitquerySolanaTokenInfoAgent.json_loads s |}.

End DispatchPaths.

Section TokenInfoPaths.
Import BitquerySolanaTokenInfoAgent DispatchPaths.
Context {num : Type} {N : PyNumber num}.
Context (parse_float : string -> option num).
Context {trending_token : Type}.

(** What [_handle_tool_logic] calls: the one operation it is asked for, after
    its arguments were read, or nothing. *)
Lemma token_tool_logic_trace
  (s : services (num := num) (trending_token := trending_token))
  (name : string) (args : tool_args) :
  (fst (_handle_tool_logic parse_float s name args) = []
   /\ (In name token_tools ->
       exists e, snd (_handle_tool_logic parse_float s name args) = Raise e))
  \/ (fst (_handle_tool_logic parse_float s name args) = [Operation name]
      /\ In name token_tools
      /\ exists d, snd (_handle_tool_logic parse_float s name args) = Ok d).
Proof.
  unfold _handle_tool_logic, token_tools.
  destruct (String.eqb_spec name "get_token_trading_info") as [-> | Hn1].
  - destruct (token_address args) as [a | ]; simpl.
    + right.
      destruct (get_token_trading_info parse_float (utcnow s) (trades_reply s a));
        simpl; repeat split; eauto.
    + left. split; eauto.
  - destruct (String.eqb_spec name "get_top_trending_tokens") as [-> | Hn2].
    + right. simpl.
      destruct (get_top_trending_tokens (top_ten_trending_tokens s)); simpl;
        repeat split; eauto.
    + left. simpl. split; auto. intros [H | [H | []]]; congruence.
Qed.

Lemma token_unsupported_tool (s : services (num := num) (trending_token := trending_token)) (name : string) (args : tool_args) :
  ~ In name token_tools ->
  _handle_tool_logic parse_float s name args
  = ([], Ok (DataError ("Unsupported tool: " ++ name))).
Proof.
  intros Hn. unfold _handle_tool_logic, token_tools in *.
  destruct (String.eqb_spec name "get_token_trading_info") as [-> | Hn1];
    [ exfalso; apply Hn; simpl; auto | ].
  destruct (String.eqb_spec name "get_top_trending_tokens") as [-> | Hn2];
    [ exfalso; apply Hn; simpl; auto | ].
  reflexivity.
Qed.

Lemma token_direct_call (s : services (num := num) (trending_token := trending_token)) (p : params) :
  truthy_str (tool p) = true ->
  handle_message parse_float s p
  = (fst (_handle_tool_logic parse_float s (get_or (tool p) "")
            (get_or (tool_arguments p) no_args)),
     match snd (_handle_tool_logic parse_float s (get_or (tool p) "")
                  (get_or (tool_arguments p) no_args)) with
     | Ok data => Ok (envelope "" data)
     | Raise e => Raise e
     end).
Proof.
  intros Ht. unfold handle_message. rewrite Ht.
  destruct (_handle_tool_logic parse_float s (get_or (tool p) "")
              (get_or (tool_arguments p) no_args)) as [t [d | e]]; simpl.
  - now rewrite app_nil_r.
  - reflexivity.
Qed.

(** The LLM route up to the tool call: the query was sent, and the reply
    names the tool call [tc] whose arguments decode to [args]. *)
Lemma token_llm_route (s : services (num := num) (trending_token := trending_token)) (p : params) (q : string)
  (r : llm_response) (tc : tool_call) :
  truthy_str (tool p) = false ->
  query p = Some q -> truthy_str (Some q) = true ->
  call_llm_with_tools_async s q = Ok (Some r) ->
  (llm_tool_calls r = Some (OneToolCall tc)
   \/ exists more, llm_tool_calls r = Some (ToolCallList (tc :: more))) ->
  handle_message parse_float s p
  = (LLMToolSelection q
       :: fst (tool_call_args <~ lift (json_loads s (function_arguments tc)) ;;
               data <~ _handle_tool_logic parse_float s (function_name tc) tool_call_args ;;
               if get_or (raw_data_only p) false then tret (envelope "" data)
               else
                 _ <~ emit (LLMNarration q data) ;;
                 explanation <~ lift (call_llm_async s q (tc_id tc) data) ;;
                 tret (envelope explanation data)),
     snd (tool_call_args <~ lift (json_loads s (function_arguments tc)) ;;
          data <~ _handle_tool_logic parse_float s (function_name tc) tool_call_args ;;
          if get_or (raw_data_only p) false then tret (envelope "" data)
          else
            _ <~ emit (LLMNarration q data) ;;
            explanation <~ lift (call_llm_async s q (tc_id tc) data) ;;
            tret (envelope explanation data))).
Proof.
  intros Ht Hq Hqt Hllm Hcalls.
  unfold handle_message. rewrite Ht, Hq, Hqt. cbn [get_or].
  rewrite tbind_emit, Hllm, tbind_lift_ok. cbn [get_or].
  assert (Htruthy : tool_calls_truthy (llm_tool_calls r) = true).
  { destruct Hcalls as [-> | [more ->]]; reflexivity. }
  assert (Hresp : llm_response_truthy (Some r) = true).
  { simpl. destruct Hcalls as [-> | [more ->]]; simpl; apply orb_true_r. }
  rewrite Hresp, Htruthy. simpl negb. cbv iota.
  assert (Hsel : match llm_tool_calls r with
                 | Some (ToolCallList (tc0 :: _)) => Ok tc0
                 | Some (OneToolCall tc0) => Ok tc0
                 | _ => Raise (Exn AttributeError "object has no attribute 'function'")
                 end = Ok tc).
  { destruct Hcalls as [-> | [more ->]]; reflexivity. }
  rewrite Hsel, tbind_lift_ok. reflexivity.
Qed.

End TokenInfoPaths.

Section WalletPaths.
Import SolWalletAgent DispatchPaths.
Context {num : Type} {N : PyNumber num} {tx_record : Type}.

Lemma wallet_tool_logic_trace
  (s : services (num := num) (tx_record := tx_record))
  (name : string) (args : tool_args) :
  (fst (_handle_tool_logic s name args) = []
   /\ (In name wallet_tools -> exists e, snd (_handle_tool_logic s name args) = Raise e))
  \/ (fst (_handle_tool_logic s name args) = [Operation name]
      /\ In name wallet_tools
      /\ exists d, snd (_handle_tool_logic s name args) = Ok d).
Proof.
  unfold _handle_tool_logic, wallet_tools.
  destruct (String.eqb_spec name "get_sol_wallet_assets") as [-> | Hn1].
  { destruct (owner_address args) as [a | ]; simpl.
    - right. destruct (get_wallet_assets (assets_reply (chain s) a));
        simpl; repeat split; eauto.
    - left. split; eauto. }
  destruct (String.eqb_spec name "analyze_sol_token_holders") as [-> | Hn2].
  { destruct (arg_token_address args) as [a | ]; simpl.
    - right. destruct (analyze_holders (chain s) a (get_or (top_n args) 20%Z));
        simpl; repeat split; eauto.
    - left. split; eauto. }
  destruct (String.eqb_spec name "get_sol_tx_history") as [-> | Hn3].
  { destruct (owner_address args) as [a | ]; simpl.
    - right. destruct (tx_history s a); simpl; repeat split; eauto.
    - left. split; eauto. }
  left. simpl. split; auto. intros [H | [H | [H | []]]]; congruence.
Qed.

Lemma wallet_unsupported_tool
  (s : services (num := num) (tx_record := tx_record))
  (name : string) (args : tool_args) :
  ~ In name wallet_tools ->
  _handle_tool_logic s name args = ([], Ok (DataError ("Unsupported tool: " ++ name))).
Proof.
  intros Hn. unfold _handle_tool_logic, wallet_tools in *.
  destruct (String.eqb_spec name "get_sol_wallet_assets") as [-> | Hn1];
    [ exfalso; apply Hn; simpl; auto | ].
  destruct (String.eqb_spec name "analyze_sol_token_holders") as [-> | Hn2];
    [ exfalso; apply Hn; simpl; auto | ].
  destruct (String.eqb_spec name "get_sol_tx_history") as [-> | Hn3];
    [ exfalso; apply Hn; simpl; auto | ].
  reflexivity.
Qed.

Lemma wallet_direct_call
  (s : services (num := num) (tx_record := tx_record)) (p : params) :
  truthy_str (tool p) = true ->
  handle_message s p
  = (fst (_handle_tool_logic s (get_or (tool p) "") (get_or (tool_arguments p) no_args)),
     match snd (_handle_tool_logic s (get_or (tool p) "")
                  (get_or (tool_arguments p) no_args)) with
     | Ok data => envelope "" data
     | Raise e => error_reply ("Error handling message: " ++ exn_str e)
     end).
Proof.
  intros Ht. unfold handle_message, handle_message_try. rewrite Ht.
  destruct (_handle_tool_logic s (get_or (tool p) "")
              (get_or (tool_arguments p) no_args)) as [t [d | e]]; simpl.
  - now rewrite app_nil_r.
  - reflexivity.
Qed.

(** The LLM route up to the tool call. *)
Lemma wallet_llm_route
  (s : services (num := num) (tx_record := tx_record)) (p : params) (q : string)
  (r : llm_response) (tc : tool_call) :
  truthy_str (tool p) = false ->
  query p = Some q -> truthy_str (Some q) = true ->
  call_llm_with_tools_async s q = Ok (Some r) ->
  llm_tool_calls r = Some (OneToolCall tc) ->
  handle_message_try s p
  = (LLMToolSelection q
       :: fst (tool_call_args <~ lift (json_loads s (function_arguments tc)) ;;
               data <~ _handle_tool_logic s (function_name tc) tool_call_args ;;
               if get_or (raw_data_only p) false then tret (envelope "" data)
               else
                 _ <~ emit (LLMNarration q data) ;;
                 explanation <~ lift (call_llm_async s q (tc_id tc) data) ;;
                 tret (envelope explanation data)),
     snd (tool_call_args <~ lift (json_loads s (function_arguments tc)) ;;
          data <~ _handle_tool_logic s (function_name tc) tool_call_args ;;
          if get_or (raw_data_only p) false then tret (envelope "" data)
          else
            _ <~ emit (LLMNarration q data) ;;
            explanation <~ lift (call_llm_async s q (tc_id tc) data) ;;
            tret (envelope explanation data))).
Proof.
  intros Ht Hq Hqt Hllm Hcalls.
  unfold handle_message_try. rewrite Ht, Hq, Hqt. cbn [get_or].
  rewrite tbind_emit, Hllm, tbind_lift_ok. cbn [get_or].
  assert (Hresp : llm_response_truthy (Some r) = true).
  { simpl. rewrite Hcalls. apply orb_true_r. }
  rewrite Hresp, Hcalls. simpl negb. cbv iota.
  rewrite tbind_lift_ok. reflexivity.
Qed.

End WalletPaths.

Section DispatchProperties.
Import DispatchPaths.
Context {num : Type} {N : PyNumber num}.
Context (parse_float : string -> option num).
Context {trending_token tx_record : Type}.
Context (ts : BitquerySolanaTokenInfoAgent.services
                (num := num) (trending_token := trending_token)).
Context (ws : SolWalletAgent.services (num := num) (tx_record := tx_record)).

(** X1.  A request that names one of the agent's tools is served by that
    operation alone, without any LLM call.  With the tool's argument present
    the one call made is the operation and the reply is the envelope with an
    empty [response] and the operation's result as [data]; with the argument
    missing nothing is called, the token-info agent raises the [KeyError] and
    the wallet agent returns it as an error object.
    [get_top_trending_tokens] takes no argument. *)
Theorem direct_call_makes_no_llm_call
  (tp : BitquerySolanaTokenInfoAgent.params) (wp : SolWalletAgent.params) :
  let targs :=
    get_or (BitquerySolanaTokenInfoAgent.tool_arguments tp)
      BitquerySolanaTokenInfoAgent.no_args in
  let tout := BitquerySolanaTokenInfoAgent.handle_message parse_float ts tp in
  let wargs := get_or (SolWalletAgent.tool_arguments wp) SolWalletAgent.no_args in
  let wout := SolWalletAgent.handle_message ws wp in
  (BitquerySolanaTokenInfoAgent.tool tp = Some "get_token_trading_info" ->
   match BitquerySolanaTokenInfoAgent.token_address targs with
   | Some a =>
       tout = ([BitquerySolanaTokenInfoAgent.Operation "get_token_trading_info"],
               Ok (BitquerySolanaTokenInfoAgent.envelope ""
                     (BitquerySolanaTokenInfoAgent.get_token_trading_info parse_float
                        (BitquerySolanaTokenInfoAgent.utcnow ts)
                        (BitquerySolanaTokenInfoAgent.trades_reply ts a))))
   | None => tout = ([], Raise (Exn KeyError "'token_address'"))
   end)
  /\ (BitquerySolanaTokenInfoAgent.tool tp = Some "get_top_trending_tokens" ->
      tout = ([BitquerySolanaTokenInfoAgent.Operation "get_top_trending_tokens"],
              Ok (BitquerySolanaTokenInfoAgent.envelope ""
                    (BitquerySolanaTokenInfoAgent.get_top_trending_tokens
                       (BitquerySolanaTokenInfoAgent.top_ten_trending_tokens ts)))))
  /\ (SolWalletAgent.tool wp = Some "get_sol_wallet_assets" ->
      match SolWalletAgent.owner_address wargs with
      | Some a =>
          wout = ([SolWalletAgent.Operation "get_sol_wallet_assets"],
                  SolWalletAgent.envelope ""
                    (SolWalletAgent.DataAssets
                       (SolWalletAgent.get_wallet_assets
                          (SolWalletAgent.assets_reply (SolWalletAgent.chain ws) a))))
      | None =>
          wout = ([], SolWalletAgent.error_reply "Error handling message: 'owner_address'")
      end)
  /\ (SolWalletAgent.tool wp = Some "analyze_sol_token_holders" ->
      match SolWalletAgent.arg_token_address wargs with
      | Some t =>
          wout = ([SolWalletAgent.Operation "analyze_sol_token_holders"],
                  SolWalletAgent.envelope ""
                    (SolWalletAgent.DataAggregates
                       (SolWalletAgent.analyze_holders (SolWalletAgent.chain ws) t
                          (get_or (SolWalletAgent.top_n wargs) 20%Z))))
      | None =>
          wout = ([], SolWalletAgent.error_reply "Error handling message: 'token_address'")
      end)
  /\ (SolWalletAgent.tool wp = Some "get_sol_tx_history" ->
      match SolWalletAgent.owner_address wargs with
      | Some a =>
          wout = ([SolWalletAgent.Operation "get_sol_tx_history"],
                  SolWalletAgent.envelope ""
                    (SolWalletAgent.DataTransactions (SolWalletAgent.tx_history ws a)))
      | None =>
          wout = ([], SolWalletAgent.error_reply "Error handling message: 'owner_address'")
      end).
Proof.
  cbv zeta. repeat split; intros Ht.
  - rewrite token_direct_call by (now rewrite Ht). rewrite Ht. cbn [get_or].
    unfold BitquerySolanaTokenInfoAgent._handle_tool_logic. simpl String.eqb. cbv iota.
    destruct (BitquerySolanaTokenInfoAgent.token_address _) as [a | ];
      [ | reflexivity ].
    simpl.
    destruct (BitquerySolanaTokenInfoAgent.get_token_trading_info parse_float _ _);
      reflexivity.
  - rewrite token_direct_call by (now rewrite Ht). rewrite Ht. cbn [get_or].
    unfold BitquerySolanaTokenInfoAgent._handle_tool_logic. simpl.
    destruct (BitquerySolanaTokenInfoAgent.get_top_trending_tokens _); reflexivity.
  - rewrite wallet_direct_call by (now rewrite Ht). rewrite Ht. cbn [get_or].
    unfold SolWalletAgent._handle_tool_logic. simpl String.eqb. cbv iota.
    destruct (SolWalletAgent.owner_address _) as [a | ]; [ | reflexivity ].
    simpl.
    destruct (SolWalletAgent.get_wallet_assets _); reflexivity.
  - rewrite wallet_direct_call by (now rewrite Ht). rewrite Ht. cbn [get_or].
    unfold SolWalletAgent._handle_tool_logic. simpl String.eqb. cbv iota.
    destruct (SolWalletAgent.arg_token_address _) as [t | ]; [ | reflexivity ].
    simpl.
    destruct (SolWalletAgent.analyze_holders _ _ _); reflexivity.
  - rewrite wallet_direct_call by (now rewrite Ht). rewrite Ht. cbn [get_or].
    unfold SolWalletAgent._handle_tool_logic. simpl String.eqb. cbv iota.
    destruct (SolWalletAgent.owner_address _) as [a | ]; [ | reflexivity ].
    simpl.
    destruct (SolWalletAgent.tx_history ws a); reflexivity.
Qed.

(** X2.  Naming a tool the agent does not have gives the envelope whose data
    is [{"error": "Unsupported tool: <name>"}]; nothing is called. *)
Theorem unknown_tool_is_reported_in_data
  (tp : BitquerySolanaTokenInfoAgent.params) (wp : SolWalletAgent.params)
  (name : string) :
  name <> "" ->
  (BitquerySolanaTokenInfoAgent.tool tp = Some name -> ~ In name token_tools ->
   BitquerySolanaTokenInfoAgent.handle_message parse_float ts tp
   = ([], Ok (BitquerySolanaTokenInfoAgent.envelope ""
                (BitquerySolanaTokenInfoAgent.DataError ("Unsupported tool: " ++ name)))))
  /\ (SolWalletAgent.tool wp = Some name -> ~ In name wallet_tools ->
      SolWalletAgent.handle_message ws wp
      = ([], SolWalletAgent.envelope ""
               (SolWalletAgent.DataError ("Unsupported tool: " ++ name)))).
Proof.
  intros Hname.
  assert (Htruthy : truthy_str (Some name) = true).
  { simpl. apply negb_true_iff. now apply String.eqb_neq. }
  split; intros Htool Hunknown.
  - rewrite token_direct_call by (now rewrite Htool).
    rewrite Htool. cbn [get_or]. now rewrite token_unsupported_tool.
  - rewrite wallet_direct_call by (now rewrite Htool).
    rewrite Htool. cbn [get_or]. now rewrite wallet_unsupported_tool.
Qed.

End DispatchProperties.

Section LLMRouteProperties.
Import DispatchPaths.
Context {num : Type} {N : PyNumber num}.
Context (parse_float : string -> option num).
Context {trending_token tx_record : Type}.
Context (ts : BitquerySolanaTokenInfoAgent.services
                (num := num) (trending_token := trending_token)).
Context (ws : SolWalletAgent.services (num := num) (tx_record := tx_record)).

(** X3.  When the LLM answers a query without selecting a tool, its text is
    the [response] and the data is [{}]; only the selection call was made.
    The token-info agent puts ["No response content"] for a reply without
    text, the wallet agent reads the text unguarded and reports the missing
    key. *)
Theorem llm_text_reply_is_the_response
  (tp : BitquerySolanaTokenInfoAgent.params) (wp : SolWalletAgent.params) (q : string)
  (tr : BitquerySolanaTokenInfoAgent.llm_response) (wr : SolWalletAgent.llm_response) :
  truthy_str (Some q) = true ->
  (truthy_str (BitquerySolanaTokenInfoAgent.tool tp) = false ->
   BitquerySolanaTokenInfoAgent.query tp = Some q ->
   BitquerySolanaTokenInfoAgent.call_llm_with_tools_async ts q = Ok (Some tr) ->
   BitquerySolanaTokenInfoAgent.llm_response_truthy (Some tr) = true ->
   BitquerySolanaTokenInfoAgent.tool_calls_truthy
     (BitquerySolanaTokenInfoAgent.llm_tool_calls tr) = false ->
   BitquerySolanaTokenInfoAgent.handle_message parse_float ts tp
   = ([BitquerySolanaTokenInfoAgent.LLMToolSelection q],
      Ok (BitquerySolanaTokenInfoAgent.envelope
            (get_or (BitquerySolanaTokenInfoAgent.llm_content tr) "No response content")
            BitquerySolanaTokenInfoAgent.DataEmpty)))
  /\ (truthy_str (SolWalletAgent.tool wp) = false ->
      SolWalletAgent.query wp = Some q ->
      SolWalletAgent.call_llm_with_tools_async ws q = Ok (Some wr) ->
      SolWalletAgent.llm_response_truthy (Some wr) = true ->
      SolWalletAgent.tool_calls_truthy (SolWalletAgent.llm_tool_calls wr) = false ->
      SolWalletAgent.handle_message ws wp
      = ([SolWalletAgent.LLMToolSelection q],
         match SolWalletAgent.llm_content wr with
         | Some content => SolWalletAgent.envelope content SolWalletAgent.DataEmpty
         | None => SolWalletAgent.error_reply "Error handling message: 'content'"
         end)).
Proof.
  intros Hqt. split; intros Ht Hq Hllm Hresp Hcalls.
  - unfold BitquerySolanaTokenInfoAgent.handle_message.
    rewrite Ht, Hq, Hqt. cbn [get_or].
    rewrite tbind_emit, Hllm, tbind_lift_ok. cbn [get_or].
    rewrite Hresp, Hcalls. reflexivity.
  - unfold SolWalletAgent.handle_message, SolWalletAgent.handle_message_try.
    rewrite Ht, Hq, Hqt. cbn [get_or].
    rewrite tbind_emit, Hllm, tbind_lift_ok. cbn [get_or].
    rewrite Hresp, Hcalls. simpl negb. cbv iota.
    destruct (SolWalletAgent.llm_content wr); reflexivity.
Qed.

(** X4.  When the LLM offers several tool calls the token-info agent acts on
    the first one only: the others change nothing in the calls made or in
    the reply. *)
Theorem only_the_first_tool_call_counts
  (tp : BitquerySolanaTokenInfoAgent.params) (content : option string)
  (tc : BitquerySolanaTokenInfoAgent.tool_call)
  (more : list BitquerySolanaTokenInfoAgent.tool_call) :
  BitquerySolanaTokenInfoAgent.handle_message parse_float
    (token_llm_selects ts content (BitquerySolanaTokenInfoAgent.ToolCallList (tc :: more))) tp
  = BitquerySolanaTokenInfoAgent.handle_message parse_float
      (token_llm_selects ts content (BitquerySolanaTokenInfoAgent.OneToolCall tc)) tp.
Proof.
  destruct (truthy_str (BitquerySolanaTokenInfoAgent.tool tp)) eqn:Ht.
  - rewrite !token_direct_call by exact Ht. reflexivity.
  - destruct (BitquerySolanaTokenInfoAgent.query tp) as [q | ] eqn:Hq.
    + destruct (truthy_str (Some q)) eqn:Hqt.
      * rewrite (token_llm_route parse_float
                   (token_llm_selects ts content
                      (BitquerySolanaTokenInfoAgent.ToolCallList (tc :: more)))
                   tp q
                   {| BitquerySolanaTokenInfoAgent.llm_content := content;
                      BitquerySolanaTokenInfoAgent.llm_tool_calls :=
                        Some (BitquerySolanaTokenInfoAgent.ToolCallList (tc :: more)) |}
                   tc Ht Hq Hqt eq_refl (or_intror (ex_intro _ more eq_refl))).
        rewrite (token_llm_route parse_float
                   (token_llm_selects ts content
                      (BitquerySolanaTokenInfoAgent.OneToolCall tc))
                   tp q
                   {| BitquerySolanaTokenInfoAgent.llm_content := content;
                      BitquerySolanaTokenInfoAgent.llm_tool_calls :=
                        Some (BitquerySolanaTokenInfoAgent.OneToolCall tc) |}
                   tc Ht Hq Hqt eq_refl (or_introl eq_refl)).
        reflexivity.
      * unfold BitquerySolanaTokenInfoAgent.handle_message. rewrite Ht, Hq, Hqt.
        reflexivity.
    + unfold BitquerySolanaTokenInfoAgent.handle_message. rewrite Ht, Hq. reflexivity.
Qed.

(** X5.  The wallet agent takes [tool_calls] for a single tool call: handed a
    list of them it stops on the attribute access, runs no operation and
    returns an error object. *)
Theorem wallet_rejects_a_list_of_tool_calls
  (wp : SolWalletAgent.params) (q : string) (wr : SolWalletAgent.llm_response)
  (tc : SolWalletAgent.tool_call) (more : list SolWalletAgent.tool_call) :
  truthy_str (SolWalletAgent.tool wp) = false ->
  SolWalletAgent.query wp = Some q -> truthy_str (Some q) = true ->
  SolWalletAgent.call_llm_with_tools_async ws q = Ok (Some wr) ->
  SolWalletAgent.llm_tool_calls wr = Some (SolWalletAgent.ToolCallList (tc :: more)) ->
  SolWalletAgent.handle_message ws wp
  = ([SolWalletAgent.LLMToolSelection q],
     SolWalletAgent.error_reply
       "Error handling message: 'list' object has no attribute 'function'").
Proof.
  intros Ht Hq Hqt Hllm Hcalls.
  unfold SolWalletAgent.handle_message, SolWalletAgent.handle_message_try.
  rewrite Ht, Hq, Hqt. cbn [get_or].
  rewrite tbind_emit, Hllm, tbind_lift_ok. cbn [get_or].
  assert (Hresp : SolWalletAgent.llm_response_truthy (Some wr) = true).
  { simpl. rewrite Hcalls. apply orb_true_r. }
  rewrite Hresp, Hcalls. reflexivity.
Qed.

End LLMRouteProperties.

Section ToolCallProperties.
Import DispatchPaths.
Context {num : Type} {N : PyNumber num}.
Context (parse_float : string -> option num).
Context {trending_token tx_record : Type}.
Context (ts : BitquerySolanaTokenInfoAgent.services
                (num := num) (trending_token := trending_token)).
Context (ws : SolWalletAgent.services (num := num) (tx_record := tx_record)).

(** X6.  With [raw_data_only] set, a query that is routed to a tool returns
    that tool's data under an empty [response], and the narration call is
    not made: the calls are the selection and, at most, the operation. *)
Theorem raw_data_only_makes_no_narration_call
  (tp : BitquerySolanaTokenInfoAgent.params) (q : string)
  (tr : BitquerySolanaTokenInfoAgent.llm_response)
  (tc : BitquerySolanaTokenInfoAgent.tool_call)
  (args : BitquerySolanaTokenInfoAgent.tool_args) :
  truthy_str (BitquerySolanaTokenInfoAgent.tool tp) = false ->
  BitquerySolanaTokenInfoAgent.query tp = Some q -> truthy_str (Some q) = true ->
  BitquerySolanaTokenInfoAgent.raw_data_only tp = Some true ->
  BitquerySolanaTokenInfoAgent.call_llm_with_tools_async ts q = Ok (Some tr) ->
  (BitquerySolanaTokenInfoAgent.llm_tool_calls tr
   = Some (BitquerySolanaTokenInfoAgent.OneToolCall tc)
   \/ exists more,
       BitquerySolanaTokenInfoAgent.llm_tool_calls tr
       = Some (BitquerySolanaTokenInfoAgent.ToolCallList (tc :: more))) ->
  BitquerySolanaTokenInfoAgent.json_loads ts
    (BitquerySolanaTokenInfoAgent.function_arguments tc) = Ok args ->
  let logic :=
    BitquerySolanaTokenInfoAgent._handle_tool_logic parse_float ts
      (BitquerySolanaTokenInfoAgent.function_name tc) args in
  BitquerySolanaTokenInfoAgent.handle_message parse_float ts tp
  = (BitquerySolanaTokenInfoAgent.LLMToolSelection q :: fst logic,
     match snd logic with
     | Ok data => Ok (BitquerySolanaTokenInfoAgent.envelope "" data)
     | Raise e => Raise e
     end)
  /\ (fst logic = []
      \/ fst logic = [BitquerySolanaTokenInfoAgent.Operation
                        (BitquerySolanaTokenInfoAgent.function_name tc)]).
Proof.
  intros Ht Hq Hqt Hraw Hllm Hcalls Hargs. cbv zeta. split.
  - rewrite (token_llm_route parse_float ts tp q tr tc Ht Hq Hqt Hllm Hcalls).
    rewrite Hargs, tbind_lift_ok, Hraw. cbn [get_or].
    destruct (BitquerySolanaTokenInfoAgent._handle_tool_logic parse_float ts
                (BitquerySolanaTokenInfoAgent.function_name tc) args) as [t [d | e]];
      simpl; [ now rewrite app_nil_r | reflexivity ].
  - destruct (token_tool_logic_trace parse_float ts
                (BitquerySolanaTokenInfoAgent.function_name tc) args)
      as [[H _] | [H _]]; auto.
Qed.

(** X7.  Tool-call arguments that do not parse stop the request before any
    operation runs: the token-info agent lets the parser's exception out,
    the wallet agent returns it as an error object. *)
Theorem unparsable_arguments_run_no_operation
  (tp : BitquerySolanaTokenInfoAgent.params) (wp : SolWalletAgent.params) (q : string)
  (tr : BitquerySolanaTokenInfoAgent.llm_response) (wr : SolWalletAgent.llm_response)
  (ttc : BitquerySolanaTokenInfoAgent.tool_call) (wtc : SolWalletAgent.tool_call)
  (e : exn) :
  truthy_str (Some q) = true ->
  (truthy_str (BitquerySolanaTokenInfoAgent.tool tp) = false ->
   BitquerySolanaTokenInfoAgent.query tp = Some q ->
   BitquerySolanaTokenInfoAgent.call_llm_with_tools_async ts q = Ok (Some tr) ->
   (BitquerySolanaTokenInfoAgent.llm_tool_calls tr
    = Some (BitquerySolanaTokenInfoAgent.OneToolCall ttc)
    \/ exists more,
        BitquerySolanaTokenInfoAgent.llm_tool_calls tr
        = Some (BitquerySolanaTokenInfoAgent.ToolCallList (ttc :: more))) ->
   BitquerySolanaTokenInfoAgent.json_loads ts
     (BitquerySolanaTokenInfoAgent.function_arguments ttc) = Raise e ->
   BitquerySolanaTokenInfoAgent.handle_message parse_float ts tp
   = ([BitquerySolanaTokenInfoAgent.LLMToolSelection q], Raise e))
  /\ (truthy_str (SolWalletAgent.tool wp) = false ->
      SolWalletAgent.query wp = Some q ->
      SolWalletAgent.call_llm_with_tools_async ws q = Ok (Some wr) ->
      SolWalletAgent.llm_tool_calls wr = Some (SolWalletAgent.OneToolCall wtc) ->
      SolWalletAgent.json_loads ws (SolWalletAgent.function_arguments wtc) = Raise e ->
      SolWalletAgent.handle_message ws wp
      = ([SolWalletAgent.LLMToolSelection q],
         SolWalletAgent.error_reply ("Error handling message: " ++ exn_str e))).
Proof.
  intros Hqt. split; intros Ht Hq Hllm Hcalls Hargs.
  - rewrite (token_llm_route parse_float ts tp q tr ttc Ht Hq Hqt Hllm Hcalls).
    rewrite Hargs. reflexivity.
  - unfold SolWalletAgent.handle_message.
    rewrite (wallet_llm_route ws wp q wr wtc Ht Hq Hqt Hllm Hcalls).
    rewrite Hargs. reflexivity.
Qed.

(** The calls after the selection, once the tool call is known. *)
Lemma token_after_selection_ok (q : string) (raw : bool)
  (tc : BitquerySolanaTokenInfoAgent.tool_call) :
  token_trace_ok
    (BitquerySolanaTokenInfoAgent.LLMToolSelection q
       :: fst (tool_call_args <~ lift (BitquerySolanaTokenInfoAgent.json_loads ts
                                         (BitquerySolanaTokenInfoAgent.function_arguments tc)) ;;
               data <~ BitquerySolanaTokenInfoAgent._handle_tool_logic parse_float ts
                         (BitquerySolanaTokenInfoAgent.function_name tc) tool_call_args ;;
               if raw then tret (BitquerySolanaTokenInfoAgent.envelope "" data)
               else
                 _ <~ emit (BitquerySolanaTokenInfoAgent.LLMNarration q data) ;;
                 explanation <~ lift (BitquerySolanaTokenInfoAgent.call_llm_async ts q
                                        (BitquerySolanaTokenInfoAgent.tc_id tc) data) ;;
                 tret (BitquerySolanaTokenInfoAgent.envelope explanation data))).
Proof.
  destruct (BitquerySolanaTokenInfoAgent.json_loads ts _) as [args | e];
    [ rewrite tbind_lift_ok | exact I ].
  pose proof (token_tool_logic_trace parse_float ts
                (BitquerySolanaTokenInfoAgent.function_name tc) args) as Hlogic.
  destruct (BitquerySolanaTokenInfoAgent._handle_tool_logic parse_float ts
              (BitquerySolanaTokenInfoAgent.function_name tc) args) as [t [d | e]];
    cbn [fst snd] in Hlogic.
  - rewrite tbind_ok. cbn [fst].
    destruct raw.
    + destruct Hlogic as [[-> _] | [-> _]]; exact I.
    + rewrite tbind_emit. cbn [fst].
      destruct (BitquerySolanaTokenInfoAgent.call_llm_async ts q _ d);
        destruct Hlogic as [[-> _] | [-> _]]; exact I.
  - rewrite tbind_raise. cbn [fst].
    destruct Hlogic as [[-> _] | [-> _]]; exact I.
Qed.

Lemma wallet_after_selection_ok (q : string) (raw : bool) (tc : SolWalletAgent.tool_call) :
  wallet_trace_ok
    (SolWalletAgent.LLMToolSelection q
       :: fst (tool_call_args <~ lift (SolWalletAgent.json_loads ws
                                         (SolWalletAgent.function_arguments tc)) ;;
               data <~ SolWalletAgent._handle_tool_logic ws
                         (SolWalletAgent.function_name tc) tool_call_args ;;
               if raw then tret (SolWalletAgent.envelope "" data)
               else
                 _ <~ emit (SolWalletAgent.LLMNarration q data) ;;
                 explanation <~ lift (SolWalletAgent.call_llm_async ws q
                                        (SolWalletAgent.tc_id tc) data) ;;
                 tret (SolWalletAgent.envelope explanation data))).
Proof.
  destruct (SolWalletAgent.json_loads ws _) as [args | e];
    [ rewrite tbind_lift_ok | exact I ].
  pose proof (wallet_tool_logic_trace ws (SolWalletAgent.function_name tc) args) as Hlogic.
  destruct (SolWalletAgent._handle_tool_logic ws (SolWalletAgent.function_name tc) args)
    as [t [d | e]]; cbn [fst snd] in Hlogic.
  - rewrite tbind_ok. cbn [fst].
    destruct raw.
    + destruct Hlogic as [[-> _] | [-> _]]; exact I.
    + rewrite tbind_emit. cbn [fst].
      destruct (SolWalletAgent.call_llm_async ws q _ d);
        destruct Hlogic as [[-> _] | [-> _]]; exact I.
  - rewrite tbind_raise. cbn [fst].
    destruct Hlogic as [[-> _] | [-> _]]; exact I.
Qed.

(** X8.  Whatever the request and whatever the collaborators answer, a
    handler makes its calls in one order: at most one tool selection, then at
    most one operation, then at most one narration, and no narration without
    a selection before it. *)
Theorem handler_calls_are_ordered
  (tp : BitquerySolanaTokenInfoAgent.params) (wp : SolWalletAgent.params) :
  token_trace_ok (fst (BitquerySolanaTokenInfoAgent.handle_message parse_float ts tp))
  /\ wallet_trace_ok (fst (SolWalletAgent.handle_message ws wp)).
Proof.
  split.
  - destruct (truthy_str (BitquerySolanaTokenInfoAgent.tool tp)) eqn:Ht.
    { rewrite token_direct_call by exact Ht. cbn [fst].
      destruct (token_tool_logic_trace parse_float ts
                  (get_or (BitquerySolanaTokenInfoAgent.tool tp) "")
                  (get_or (BitquerySolanaTokenInfoAgent.tool_arguments tp)
                     BitquerySolanaTokenInfoAgent.no_args))
        as [[-> _] | [-> _]]; exact I. }
    unfold BitquerySolanaTokenInfoAgent.handle_message. rewrite Ht.
    destruct (truthy_str (BitquerySolanaTokenInfoAgent.query tp)); [ | exact I ].
    rewrite tbind_emit. cbn [fst].
    destruct (BitquerySolanaTokenInfoAgent.call_llm_with_tools_async ts _)
      as [resp | e]; [ rewrite tbind_lift_ok | exact I ].
    destruct (BitquerySolanaTokenInfoAgent.llm_response_truthy resp);
      simpl negb; cbv iota; [ | exact I ].
    destruct (BitquerySolanaTokenInfoAgent.tool_calls_truthy _);
      simpl negb; cbv iota; [ | exact I ].
    match goal with
    | |- context [tbind (lift ?c) _] => destruct c as [tc | e]
    end; [ rewrite tbind_lift_ok | exact I ].
    apply token_after_selection_ok.
  - unfold SolWalletAgent.handle_message.
    assert (H : wallet_trace_ok (fst (SolWalletAgent.handle_message_try ws wp))).
    { destruct (truthy_str (SolWalletAgent.tool wp)) eqn:Ht.
      { pose proof (wallet_direct_call ws wp Ht) as Hd.
        unfold SolWalletAgent.handle_message in Hd.
        destruct (SolWalletAgent.handle_message_try ws wp) as [t [r | e]];
          inversion Hd as [[Htrace Hreply]]; cbn [fst];
          destruct (wallet_tool_logic_trace ws (get_or (SolWalletAgent.tool wp) "")
                      (get_or (SolWalletAgent.tool_arguments wp) SolWalletAgent.no_args))
            as [[-> _] | [-> _]]; exact I. }
      unfold SolWalletAgent.handle_message_try. rewrite Ht.
      destruct (truthy_str (SolWalletAgent.query wp)); [ | exact I ].
      rewrite tbind_emit. cbn [fst].
      destruct (SolWalletAgent.call_llm_with_tools_async ws _)
        as [resp | e]; [ rewrite tbind_lift_ok | exact I ].
      destruct (SolWalletAgent.llm_response_truthy resp);
        simpl negb; cbv iota; [ | exact I ].
      destruct (SolWalletAgent.tool_calls_truthy _); simpl negb; cbv iota.
      2: { match goal with
           | |- context [tbind (lift ?c) _] => destruct c as [content | e]
           end; exact I. }
      match goal with
      | |- context [tbind (lift ?c) _] => destruct c as [tc | e]
      end; [ rewrite tbind_lift_ok | exact I ].
      apply wallet_after_selection_ok. }
    destruct (SolWalletAgent.handle_message_try ws wp) as [t [r | e]]; exact H.
Qed.

End ToolCallProperties.

(* ======================================================================== *)
(** * Further properties of the wallet operations *)

Lemma mapM_In {A B} (f : A -> result B) (l : list A) (r : list B) (y : B) :
  mapM f l = Ok r -> In y r -> exists x, In x l /\ f x = Ok y.
Proof.
  revert r. induction l as [ | x l IH]; simpl; intros r Hr Hy.
  - inversion Hr; subst. destruct Hy.
  - destruct (f x) as [b | e] eqn:Hx; [ | discriminate ]. simpl in Hr.
    destruct (mapM f l) as [bs | e]; [ | discriminate ]. simpl in Hr.
    inversion Hr; subst. destruct Hy as [<- | Hy]; [ eauto | ].
    destruct (IH bs eq_refl Hy) as (x' & Hin & Hfx). eauto.
Qed.

Lemma mapM_length {A B} (f : A -> result B) (l : list A) (r : list B) :
  mapM f l = Ok r -> List.length r = List.length l.
Proof.
  revert r. induction l as [ | x l IH]; simpl; intros r Hr.
  - now inversion Hr.
  - destruct (f x) as [b | e]; [ | discriminate ]. simpl in Hr.
    destruct (mapM f l) as [bs | e]; [ | discriminate ]. simpl in Hr.
    inversion Hr; subst. simpl. f_equal. now apply IH.
Qed.

Lemma mapM_In_ok {A B} (f : A -> result B) (l : list A) (r : list B) (x : A) :
  mapM f l = Ok r -> In x l -> exists y, In y r /\ f x = Ok y.
Proof.
  revert r. induction l as [ | a l IH]; simpl; intros r Hr Hx; [ destruct Hx | ].
  destruct (f a) as [b | e] eqn:Ha; [ | discriminate ]. simpl in Hr.
  destruct (mapM f l) as [bs | e]; [ | discriminate ]. simpl in Hr.
  inversion Hr; subst. destruct Hx as [<- | Hx].
  - exists b. split; [ now left | exact Ha ].
  - destruct (IH bs eq_refl Hx) as (y & Hy & Hfx). exists y. split; [ now right | exact Hfx ].
Qed.

Section WalletAssetsProperties.
Import SolWalletAgent.
Context {num : Type} {N : PyNumber num}.

(** X9.  Everything [get_wallet_assets] returns is accounted for by the
    reply: a holding is the native SOL entry, or it is built from an upstream
    item that has an id, has price information with a [total_price] above
    100 and is not flagged mutable.  So no dust position and no holding of a
    mutable token is ever returned. *)
Theorem returned_holdings_pass_the_filters (o : http_outcome) (h : holding) :
  In h (get_wallet_assets o) ->
  exists r its,
    _post o = Ok (Some {| rpc_result := Some r |})
    /\ items r = Some its
    /\ (In h (native_holding r)
        \/ exists it,
            In it its
            /\ id it = Some (token_address h)
            /\ has_price_above_100 it = true
            /\ get_or (mutable it) false = false
            /\ h = holding_of it
            /\ nltb (nconst 100) (total_price h) = true).
Proof.
  unfold get_wallet_assets, get_wallet_assets_try.
  destruct (_post o) as [[[[r | ]] | ] | e]; simpl; try tauto.
  destruct (search_result_truthy r); simpl; [ | tauto ].
  destruct (items r) as [its | ] eqn:Hits; simpl; [ | tauto ].
  destruct (mapM asset_holding (filter not_mutable (filter has_price_above_100 its)))
    as [others | e] eqn:Hmap; simpl; [ | tauto ].
  intros Hin. exists r, its. repeat split; auto.
  apply in_app_or in Hin. destruct Hin as [Hin | Hin]; [ now left | right ].
  destruct (mapM_In _ _ _ _ Hmap Hin) as (it & Hit & Hh).
  apply filter_In in Hit. destruct Hit as [Hit Hmut].
  apply filter_In in Hit. destruct Hit as [Hit Hprice].
  unfold asset_holding in Hh. destruct (id it) as [a | ] eqn:Hid; [ | discriminate ].
  simpl in Hh.
  assert (Heq : h = holding_of it).
  { inversion Hh. unfold holding_of. rewrite Hid. reflexivity. }
  exists it. repeat split; auto.
  - rewrite Heq. unfold holding_of. rewrite Hid. reflexivity.
  - unfold not_mutable in Hmut. now apply negb_true_iff in Hmut.
  - rewrite Heq. now apply kept_asset_price.
Qed.

End WalletAssetsProperties.

Lemma NoDup_firstn {A} (n : nat) (l : list A) : NoDup l -> NoDup (firstn n l).
Proof.
  intros H. rewrite <- (firstn_skipn n l) in H. now apply NoDup_app_remove_r in H.
Qed.

Lemma StronglySorted_app_order {A} (R : A -> A -> Prop) (l1 l2 : list A) :
  StronglySorted R (l1 ++ l2) -> forall a b, In a l1 -> In b l2 -> R a b.
Proof.
  induction l1 as [ | x l1 IH]; simpl; intros Hs a b Ha Hb; [ destruct Ha | ].
  inversion Hs as [ | x' l' Hl Hx ]; subst.
  destruct Ha as [<- | Ha]; [ | now apply IH ].
  rewrite Forall_forall in Hx. apply Hx, in_or_app. now right.
Qed.

Lemma dict_get_Some_In {V} (k : string) (v : V) (d : dict V) :
  dict_get k d = Some v -> In (k, v) d.
Proof.
  induction d as [ | [k' v'] d IH]; simpl; [ discriminate | ].
  destruct (String.eqb_spec k' k) as [-> | Hne].
  - intros H. inversion H. now left.
  - intros H. right. now apply IH.
Qed.

Section AggregatorProperties.
Import SolWalletAgent.
Context {num : Type} {N : PyNumber num}.

Lemma top_holders_of_In (hs : list (@holder num)) (h : holder) :
  In h (top_holders_of hs) <-> In h hs /\ address h <> raydium_address.
Proof.
  unfold top_holders_of. rewrite filter_In, negb_true_iff, String.eqb_neq. tauto.
Qed.

Lemma contributions_to_In (w : world) (tops : list holder) (k : string) (c : contribution) :
  In c (contributions_to w tops k) ->
  exists h token,
    In h tops /\ In token (fetch w h) /\ token_address token = k
    /\ c = contribution_of h token.
Proof.
  unfold contributions_to. intros Hin.
  apply in_flat_map in Hin. destruct Hin as (h & Hh & Hin).
  apply in_map_iff in Hin. destruct Hin as (token & <- & Htoken).
  apply filter_In in Htoken. destruct Htoken as [Htoken Hk].
  apply String.eqb_eq in Hk. eauto 6.
Qed.

Lemma contributions_to_held (w : world) (tops : list holder) (k : string) :
  contributions_to w tops k <> [] <->
  filter (holds k) (visited w tops) <> [].
Proof.
  rewrite <- contributions_visited.
  destruct (filter (holds k) (visited w tops)); simpl; split; congruence.
Qed.

Lemma merged_entry_held (w : world) (tops : list holder) (k : string) (a : token_aggregate) :
  In (k, a) (merge_all tops (map (fetch w) tops)) ->
  contributions_to w tops k <> [].
Proof.
  intros Hin. destruct (merge_all_merged w tops) as [Hnd Hget].
  apply (dict_get_In _ _ _ Hnd) in Hin. rewrite Hget in Hin.
  apply contributions_to_held. unfold entry_of in Hin.
  destruct (filter (holds k) (visited w tops)); congruence.
Qed.

Lemma held_entry (w : world) (tops : list holder) (k : string) :
  contributions_to w tops k <> [] ->
  exists a, In (k, a) (merge_all tops (map (fetch w) tops)).
Proof.
  intros Hheld. apply contributions_to_held in Hheld.
  destruct (merge_all_merged w tops) as [Hnd Hget].
  specialize (Hget k). unfold entry_of in Hget.
  destruct (filter (holds k) (visited w tops)) as [ | p rest]; [ congruence | ].
  eexists. apply dict_get_Some_In. exact Hget.
Qed.

Lemma merged_addresses (w : world) (tops : list holder) :
  map a_token_address (dict_values (merge_all tops (map (fetch w) tops)))
  = map fst (merge_all tops (map (fetch w) tops)).
Proof.
  unfold dict_values. rewrite map_map. apply map_ext_in.
  intros [k a] Hin. simpl. now apply merged_entry in Hin.
Qed.

Lemma rank_addresses (token_map : dict token_aggregate) :
  map a_token_address (rank token_map)
  = firstn 5 (map a_token_address
                (sorted_desc nltb total_holding_value (dict_values token_map))).
Proof.
  unfold rank. rewrite map_map, <- firstn_map. reflexivity.
Qed.

(** X10.  Every holder an aggregate lists is one of the holders
    [_get_holders] returned, never the excluded protocol wallet, carries that
    holder's percentage and explorer link, and stands for a holding of the
    aggregate's token in that holder's wallet. *)
Theorem listed_holders_are_fetched_holders (w : world) (t : string) (n : Z)
  (a : token_aggregate) (c : contribution) :
  In a (analyze_holders w t n) ->
  In c (holders a) ->
  exists h token,
    In h (_get_holders w t n)
    /\ address h <> raydium_address
    /\ In token (get_wallet_assets (assets_reply w (address h)))
    /\ token_address token = a_token_address a
    /\ c_address c = address h
    /\ c_percentage c = percentage h
    /\ c_total_price c = total_price token
    /\ gmgn_link_owner_address c = ("https://gmgn.ai/sol/address/" ++ address h)%string.
Proof.
  intros Ha Hc.
  destruct (total_holding_value_of_aggregate w t n a Ha) as [_ Hholders].
  rewrite Hholders in Hc. apply In_firstn_In in Hc.
  apply sort_stable_In in Hc.
  apply contributions_to_In in Hc. destruct Hc as (h & token & Hh & Htoken & Hk & ->).
  apply top_holders_of_In in Hh. destruct Hh as [Hh Hnot].
  exists h, token. repeat split; auto.
Qed.

(** X11.  No token appears twice in the result of [analyze_holders]. *)
Theorem aggregates_have_distinct_tokens (w : world) (t : string) (n : Z) :
  NoDup (map a_token_address (analyze_holders w t n)).
Proof.
  rewrite analyze_holders_eq.
  destruct (_get_holders w t n) as [ | h hs]; [ constructor | ].
  cbv zeta. set (tops := top_holders_of (h :: hs)).
  rewrite rank_addresses. apply NoDup_firstn.
  eapply Permutation_NoDup.
  - apply Permutation_map, Permutation_sym. apply sort_stable_perm.
  - rewrite merged_addresses. apply (merge_all_merged w tops).
Qed.

(** X12.  Every aggregate returned carries the referral link and lists as
    many holders as were merged for its token, up to 5, and at least one. *)
Theorem aggregates_list_up_to_five_holders (w : world) (t : string) (n : Z)
  (a : token_aggregate) :
  In a (analyze_holders w t n) ->
  let merged_for_token :=
    contributions_to w (top_holders_of (_get_holders w t n)) (a_token_address a) in
  gmgn_referral_link a = Some "https://gmgn.ai/?ref=WtaAO4Jn&chain=sol"
  /\ List.length (holders a) = Nat.min 5 (List.length merged_for_token)
  /\ 1 <= List.length (holders a).
Proof.
  intros Ha. cbv zeta.
  destruct (total_holding_value_of_aggregate w t n a Ha) as [_ Hholders].
  assert (Hlen : List.length (holders a)
                 = Nat.min 5 (List.length
                                (contributions_to w (top_holders_of (_get_holders w t n))
                                   (a_token_address a)))).
  { rewrite Hholders, length_firstn. unfold sorted_desc.
    now rewrite sort_stable_length. }
  rewrite analyze_holders_eq in Ha.
  destruct (_get_holders w t n) as [ | h hs]; [ destruct Ha | ].
  cbv zeta in Ha. apply rank_In in Ha. destruct Ha as (k & a0 & Hin & ->).
  split; [ reflexivity | ]. split; [ exact Hlen | ].
  rewrite Hlen.
  pose proof (merged_entry_held _ _ _ _ Hin) as Hheld.
  apply merged_entry in Hin. destruct Hin as (Hk & _ & _).
  unfold finish_token. cbn [a_token_address]. rewrite Hk.
  destruct (contributions_to w (top_holders_of (h :: hs)) k); [ congruence | ].
  simpl. lia.
Qed.

End AggregatorProperties.

Section RankingProperties.
Import SolWalletAgent.
Context {num : Type} {N : PyNumber num}.

(** X13.  The aggregates returned are the top of the ranking of all tokens:
    a token that some analysed holder holds is either in the result or its
    total is not above the total of any aggregate that is. *)
Theorem left_out_tokens_rank_lower {O : PyNumberOrder num}
  (w : world) (t : string) (n : Z) (k : string) :
  let merged_for_token := contributions_to w (top_holders_of (_get_holders w t n)) k in
  merged_for_token <> [] ->
  (exists a, In a (analyze_holders w t n) /\ a_token_address a = k)
  \/ (forall a, In a (analyze_holders w t n) ->
                nltb (total_holding_value a)
                     (sum_left (map c_total_price merged_for_token)) = false).
Proof.
  cbv zeta. intros Hheld. rewrite analyze_holders_eq.
  destruct (_get_holders w t n) as [ | h hs]; [ now right | ].
  cbv zeta. set (tops := top_holders_of (h :: hs)) in *.
  destruct (held_entry w tops k Hheld) as [a0 Hin].
  pose proof (merged_entry _ _ _ _ Hin) as (Hk & Hv & _).
  set (s := sorted_desc nltb total_holding_value
              (dict_values (merge_all tops (map (fetch w) tops)))).
  assert (Hs : In a0 s).
  { apply sort_stable_In. unfold dict_values.
    apply in_map_iff. exists (k, a0). auto. }
  rewrite <- (firstn_skipn 5 s) in Hs. apply in_app_or in Hs.
  destruct Hs as [Htop | Hrest].
  - left. exists (finish_token a0). split; [ | exact Hk ].
    unfold rank. apply in_map. exact Htop.
  - right. intros a Ha. unfold rank in Ha.
    apply in_map_iff in Ha. destruct Ha as (a1 & <- & Ha1).
    unfold finish_token. cbn [total_holding_value]. rewrite <- Hv.
    pose proof (sorted_desc_descending total_holding_value
                  (dict_values (merge_all tops (map (fetch w) tops)))) as Hsorted.
    unfold descending_by in Hsorted. fold s in Hsorted.
    rewrite <- (firstn_skipn 5 s) in Hsorted.
    exact (StronglySorted_app_order _ _ _ Hsorted a1 a0 Ha1 Hrest).
Qed.

Lemma merge_all_unchanged (w : world) (tops : list holder) :
  Forall (fun h => fetch w h = []) tops ->
  forall token_map,
    fold_left merge_holder (map (fun h => (h, fetch w h)) tops) token_map = token_map.
Proof.
  induction 1 as [ | h tops Hh Htops IH]; intros token_map; simpl; auto.
  rewrite IH. unfold merge_holder. simpl. now rewrite Hh.
Qed.

(** X14.  When there is nothing to merge (no holder came back, only the
    excluded wallet did, or every wallet fetch came back empty) the analysis
    is the empty list. *)
Theorem nothing_held_gives_no_aggregates (w : world) (t : string) (n : Z) :
  (forall h, In h (_get_holders w t n) ->
             address h <> raydium_address ->
             get_wallet_assets (assets_reply w (address h)) = []) ->
  analyze_holders w t n = [].
Proof.
  intros Hempty. rewrite analyze_holders_eq.
  destruct (_get_holders w t n) as [ | h hs]; [ reflexivity | ].
  cbv zeta. unfold merge_all. rewrite combine_with_map, merge_all_unchanged.
  - reflexivity.
  - apply Forall_forall. intros h' Hin.
    apply top_holders_of_In in Hin. destruct Hin as [Hin Hnot].
    now apply Hempty.
Qed.

End RankingProperties.

(* ======================================================================== *)
(** * Further properties of the trade organizer and the trading summary *)

Section TradeProperties.
Import BitquerySolanaTokenInfoAgent.
Context {num : Type} {N : PyNumber num}.
Context (parse_float : string -> option num).
Context {trending_token : Type}.

Lemma fetch_ok_inv (o : post_outcome) (l : list trade_bucket) :
  fetch_and_organize_dex_trade_data parse_float o = Ok l ->
  exists response rows organized,
    o = Responded response
    /\ status_code response = 200%Z
    /\ json response = Ok (Some rows)
    /\ mapM (organize_bucket parse_float) rows = Ok organized
    /\ sort_checked py_lt_time time organized = Ok l.
Proof.
  unfold fetch_and_organize_dex_trade_data.
  destruct o as [response | e]; [ | discriminate ].
  destruct (Z.eqb_spec (status_code response) 200) as [Hs | Hs]; simpl; [ | discriminate ].
  destruct (json response) as [[rows | ] | e] eqn:Hj; simpl; try discriminate.
  destruct (mapM (organize_bucket parse_float) rows) as [organized | e] eqn:Hm;
    simpl; [ | discriminate ].
  intros H. exists response, rows, organized. auto.
Qed.

(** X15.  The organizer neither drops nor invents buckets: what it returns is
    a rearrangement of the converted upstream rows, one bucket per row, each
    with the row's time, open, max, min and close. *)
Theorem organizer_keeps_every_row (o : post_outcome) (l : list trade_bucket) :
  fetch_and_organize_dex_trade_data parse_float o = Ok l ->
  exists response rows organized,
    o = Responded response
    /\ json response = Ok (Some rows)
    /\ mapM (organize_bucket parse_float) rows = Ok organized
    /\ Permutation l organized
    /\ List.length l = List.length rows
    /\ forall b, In b l ->
         exists row,
           In row rows
           /\ time b = Time (get_or (Block row) {| Time := None |})
           /\ open b = raw_open row /\ high b = raw_max row
           /\ low b = raw_min row /\ close b = raw_close row.
Proof.
  intros H. destruct (fetch_ok_inv o l H) as (response & rows & organized & -> & _ & Hj & Hm & Hs).
  exists response, rows, organized.
  destruct (sort_checked_sorted organized l Hs) as [_ Hp].
  repeat split; auto.
  - rewrite (Permutation_length Hp). now apply mapM_length in Hm.
  - intros b Hb. apply (Permutation_in _ Hp) in Hb.
    destruct (mapM_In _ _ _ _ Hm Hb) as (row & Hrow & Hob).
    exists row. split; [ exact Hrow | ].
    unfold organize_bucket in Hob.
    destruct (match get_or (raw_volume_field row) (VolumeString "0") with
              | VolumeString s =>
                  match parse_float s with
                  | Some f => Ok (VNumber f)
                  | None => Ok (VText s)
                  end
              | VolumeNumber n => Ok (VNumber (nfloat n))
              | VolumeNull =>
                  Raise (type_error "float() argument must be a string or a real number")
              end) as [v | e]; simpl in Hob; [ | discriminate ].
    inversion Hob; subst b. simpl. auto.
Qed.

End TradeProperties.

Section TradingInfoProperties.
Import BitquerySolanaTokenInfoAgent.
Context {num : Type} {N : PyNumber num}.
Context (parse_float : string -> option num).
Context {trending_token : Type}.

(** X16.  "Nothing found" can be told from "the call failed": the error
    ["No trading data available"] is returned exactly when the fetch
    succeeded with an empty bucket list. *)
Theorem no_data_is_not_a_failure (now : string) (o : post_outcome) :
  get_token_trading_info (trending_token := trending_token) parse_float now o
  = DataError "No trading data available"
  <-> fetch_and_organize_dex_trade_data parse_float o = Ok [].
Proof.
  unfold get_token_trading_info, get_token_trading_info_try.
  destruct (fetch_and_organize_dex_trade_data parse_float o) as [[ | first rest] | e];
    simpl.
  - split; reflexivity.
  - destruct (summarize now (first :: rest) first); simpl; split; discriminate.
  - split; discriminate.
Qed.

Lemma sorted_times_present (l : list (@trade_bucket num)) :
  sorted_by_time l -> 2 <= List.length l ->
  Forall (fun b => exists t, time b = Some t) l.
Proof.
  intros Hs Hlen.
  destruct l as [ | a [ | b rest]]; simpl in Hlen; try lia.
  inversion Hs as [ | a' l' Hl Ha ]; subst.
  inversion Ha as [ | b' rest' Hab Hrest ]; subst.
  destruct Hab as (ta & tb & Hta & Htb & _).
  constructor; [ eauto | ].
  eapply Forall_impl; [ | exact Ha ].
  intros x (tx & ty & _ & Hy & _). eauto.
Qed.

(** X17.  As soon as the organizer returns two buckets or more, every one of
    them has its time: rows without a time cannot be ordered and make the
    fetch fail instead. *)
Theorem several_buckets_all_have_a_time (o : post_outcome) (l : list trade_bucket) :
  fetch_and_organize_dex_trade_data parse_float o = Ok l ->
  2 <= List.length l ->
  Forall (fun b => exists t, time b = Some t) l.
Proof.
  intros H Hlen. apply sorted_times_present; [ | exact Hlen ].
  destruct (fetch_ok_inv parse_float o l H) as (_ & _ & organized & _ & _ & _ & _ & Hs).
  now apply sort_checked_sorted in Hs.
Qed.

Lemma py_sum_from_text (l : list volume_value) (s : string) :
  In (VText s) l -> forall acc : num, exists e, py_sum_from acc l = Raise e.
Proof.
  induction l as [ | [v | s'] l IH]; simpl; intros Hin acc.
  - destruct Hin.
  - destruct Hin as [Heq | Hin]; [ discriminate | ]. now apply IH.
  - eauto.
Qed.

Lemma summarize_text_volume (now : string) (first : @trade_bucket num)
  (rest : list trade_bucket) (s : string) :
  In (VText s) (map volume (first :: rest)) ->
  exists e, summarize now (first :: rest) first = Raise e.
Proof.
  intros Hin. unfold summarize.
  destruct (py_sub _ _) as [change | e]; simpl; [ | eauto ].
  match goal with
  | |- context [bind ?c _] => destruct c as [pct | e]
  end; simpl; [ | eauto ].
  unfold py_sum.
  destruct (py_sum_from_text _ s Hin (nconst 0)) as [e He].
  simpl map in He. rewrite He. simpl. eauto.
Qed.

(** X18.  A volume that [float()] cannot read is kept as text by the
    organizer and cannot be added up: a single such row in a well-formed
    reply makes [get_token_trading_info] return an error instead of a
    summary. *)
Theorem unreadable_volume_fails_the_summary (now : string) (response : http_response)
  (rows : list raw_bucket) (row : raw_bucket) (s : string) :
  status_code response = 200%Z ->
  json response = Ok (Some rows) ->
  In row rows ->
  raw_volume_field row = Some (VolumeString s) ->
  parse_float s = None ->
  exists msg,
    get_token_trading_info (trending_token := trending_token) parse_float now
      (Responded response)
    = DataError msg.
Proof.
  intros Hstatus Hjson Hrow Hvol Hparse.
  unfold get_token_trading_info, get_token_trading_info_try,
    fetch_and_organize_dex_trade_data.
  rewrite Hstatus, Hjson. simpl.
  destruct (mapM (organize_bucket parse_float) rows) as [organized | e] eqn:Hm;
    simpl; [ | eauto ].
  destruct (sort_checked py_lt_time time organized) as [l | e] eqn:Hs;
    simpl; [ | eauto ].
  destruct (mapM_In_ok _ _ _ _ Hm Hrow) as (b & Hb & Hob).
  assert (Hv : volume b = VText s).
  { unfold organize_bucket in Hob. rewrite Hvol in Hob. simpl in Hob.
    rewrite Hparse in Hob. simpl in Hob. now inversion Hob. }
  destruct (sort_checked_sorted organized l Hs) as [_ Hp].
  apply (Permutation_in _ (Permutation_sym Hp)) in Hb.
  destruct l as [ | first rest]; [ destruct Hb | ].
  destruct (summarize_text_volume now first rest s) as [e He].
  { apply in_map_iff. exists b. auto. }
  rewrite He. simpl. eauto.
Qed.

End TradingInfoProperties.

(* ======================================================================== *)
(** * The holder query of the wallet agent: [_get_holders] *)

(** [l[:n]]: a negative [n] counts from the end. *)
Definition py_take {A} (n : Z) (l : list A) : list A :=
  if (0 <=? n)%Z then firstn (Z.to_nat n) l
  else firstn (List.length l - Z.to_nat (- n)) l.

Module HolderQuery.

Section Query.
Import SolWalletAgent.
Context {num : Type} {N : PyNumber num}.

(** [f"{x:.2f}"]: the two-decimal rendering of a number. *)
Context (format_2f : num -> string).

(** *** The Helius [getTokenAccounts] reply, as the code reads it *)

Record token_account := {
  owner : option string;
  account_amount : option num
}.

Record accounts_page := {
  token_accounts : option (list token_account);
  cursor : option string
}.

(** The JSON-RPC reply object; only its ["result"] key is read. *)
Record accounts_reply := { accounts_result : option accounts_page }.

Inductive accounts_outcome :=
| AccountsResponse (status : Z) (body : option accounts_reply)
| AccountsFailure (e : exn).

(** [_post], on this reply type. *)
Definition _post (o : accounts_outcome) : result (option accounts_reply) :=
  match o with
  | AccountsResponse status body =>
      if Z.eqb status 200 then Ok body
      else if Z.eqb status 429 then
        Raise (Exn ClientError "Request failed: Rate limit exceeded")
      else Ok (Some {| accounts_result := None |})
  | AccountsFailure e =>
      match exn_class e with
      | ClientError => Raise (Exn ClientError ("Request failed: " ++ exn_str e))
      | _ => Raise e
      end
  end.

Definition empty_page : accounts_page := {| token_accounts := None; cursor := None |}.

(** The [while True] loop.  [page c] is what the indexer answers to the
    request made with cursor [c]; [fuel] bounds the number of requests, and
    [None] says that the loop was still asking for pages when it ran out. *)
Fixpoint fetch_accounts (fuel : nat) (page : option string -> accounts_outcome)
  (c : option string) (all_holders : list token_account)
  : option (result (list token_account)) :=
  match fuel with
  | O => None
  | S fuel' =>
      match _post (page c) with
      | Raise e => Some (Raise e)
      | Ok None =>
          Some (Raise (Exn AttributeError "'NoneType' object has no attribute 'get'"))
      | Ok (Some data) =>
          let result := get_or (accounts_result data) empty_page in
          match token_accounts result with
          | None | Some [] => Some (Ok all_holders)
          | Some accounts =>
              let all_holders := all_holders ++ accounts in
              if truthy_str (cursor result) then
                fetch_accounts fuel' page (cursor result) all_holders
              else Some (Ok all_holders)
          end
      end
  end.

(** [float(account["amount"])] *)
Definition float_amount (account : token_account) : result num :=
  a <- getitem "amount" (account_amount account) ;; Ok (nfloat a).

Definition holder_of_account (total_supply : num) (account : token_account)
  : result holder :=
  o <- getitem "owner" (owner account) ;;
  a <- float_amount account ;;
  a' <- float_amount account ;;
  share <- py_truediv a' total_supply ;;
  Ok {| address := o;
        amount := a;
        percentage := format_2f (nmul share (nconst 100)) |}.

(** From [if not all_holders] to the [return] of the [try]. *)
Definition rank_holders (top_n : Z) (all_holders : list token_account)
  : result (list holder) :=
  match all_holders with
  | [] => Ok []
  | _ =>
      amounts <- mapM float_amount all_holders ;;
      let total_supply := sum_left amounts in
      holders <- mapM (holder_of_account total_supply) all_holders ;;
      Ok (py_take top_n (sorted_desc nltb amount holders))
  end.

(** [_get_holders]: [except Exception: return []]. *)
Definition _get_holders (fuel : nat) (page : option string -> accounts_outcome)
  (top_n : Z) : option (list holder) :=
  match fetch_accounts fuel page None [] with
  | None => None
  | Some fetched =>
      Some match all_holders <- fetched ;; rank_holders top_n all_holders with
           | Ok holders => holders
           | Raise _ => []
           end
  end.

(** *** What the loop is compared with *)

(** The page answered to cursor [c] holds [accounts] and hands on [next]. *)
Definition page_holds (page : option string -> accounts_outcome) (c : option string)
  (accounts : list token_account) (next : option string) : Prop :=
  exists data,
    _post (page c) = Ok (Some data)
    /\ token_accounts (get_or (accounts_result data) empty_page) = Some accounts
    /\ cursor (get_or (accounts_result data) empty_page) = next.

(** The page answered to cursor [c] has no accounts. *)
Definition page_is_empty (page : option string -> accounts_outcome) (c : option string)
  : Prop :=
  exists data,
    _post (page c) = Ok (Some data)
    /\ (token_accounts (get_or (accounts_result data) empty_page) = None
        \/ token_accounts (get_or (accounts_result data) empty_page) = Some []).

(** Starting at cursor [c], the indexer serves the non-empty pages [pages]
    one after the other, each handing on the cursor of the next, and then
    stops: the last page has no cursor, or the page after it is empty. *)
Inductive serves (page : option string -> accounts_outcome)
  : option string -> list (list token_account) -> Prop :=
| serves_nothing c :
    page_is_empty page c -> serves page c []
| serves_last c accounts next :
    page_holds page c accounts next -> accounts <> [] ->
    truthy_str next = false ->
    serves page c [accounts]
| serves_more c accounts next pages :
    page_holds page c accounts next -> accounts <> [] ->
    truthy_str next = true ->
    serves page next pages ->
    serves page c (accounts :: pages).

End Query.

End HolderQuery.

Section HolderQueryFacts.
Import SolWalletAgent HolderQuery.
Context {num : Type} {N : PyNumber num}.
Context (format_2f : num -> string).

Lemma fetch_accounts_serves (page : option string -> @accounts_outcome num)
  (c : option string) (pages : list (list (@token_account num))) :
  serves page c pages ->
  forall fuel all_holders,
    List.length pages < fuel ->
    fetch_accounts fuel page c all_holders = Some (Ok (all_holders ++ List.concat pages)).
Proof.
  induction 1 as [c Hempty | c accounts next Hpage Hne Hnext
                 | c accounts next pages Hpage Hne Hnext Hrest IH];
    intros fuel all_holders Hfuel; (destruct fuel as [ | fuel]; [ simpl in Hfuel; lia | ]);
    simpl.
  - destruct Hempty as (data & -> & [-> | ->]); now rewrite app_nil_r.
  - destruct Hpage as (data & -> & -> & ->).
    destruct accounts; [ congruence | ]. rewrite Hnext, app_nil_r. reflexivity.
  - destruct Hpage as (data & -> & -> & ->).
    destruct accounts as [ | a accounts]; [ congruence | ]. rewrite Hnext.
    rewrite IH by (simpl in Hfuel; lia). now rewrite app_assoc.
Qed.

(** X19.  [_get_holders] pages through the indexer: it asks for the page of
    each cursor it is handed, stops at the first page without accounts or
    without a cursor, and ranks the accounts of all the pages it saw, in the
    order it saw them. *)
Theorem holders_are_ranked_over_all_pages (page : option string -> @accounts_outcome num)
  (pages : list (list (@token_account num))) (fuel : nat) (top_n : Z) :
  serves page None pages ->
  List.length pages < fuel ->
  _get_holders format_2f fuel page top_n
  = Some match rank_holders format_2f top_n (List.concat pages) with
         | Ok holders => holders
         | Raise _ => []
         end.
Proof.
  intros Hserves Hfuel. unfold _get_holders.
  rewrite (fetch_accounts_serves page None pages Hserves fuel [] Hfuel).
  reflexivity.
Qed.

Lemma py_take_length {A} (n : Z) (l : list A) :
  (0 <= n)%Z -> List.length (py_take n l) <= Z.to_nat n.
Proof.
  intros Hn. unfold py_take.
  destruct (Z.leb_spec 0 n); [ apply firstn_le_length | lia ].
Qed.

Lemma py_take_sorted {A} (R : A -> A -> Prop) (n : Z) (l : list A) :
  StronglySorted R l -> StronglySorted R (py_take n l).
Proof.
  intros H. unfold py_take. destruct (0 <=? n)%Z; now apply StronglySorted_firstn.
Qed.

Lemma py_take_In {A} (n : Z) (l : list A) (x : A) : In x (py_take n l) -> In x l.
Proof.
  unfold py_take. destruct (0 <=? n)%Z; apply In_firstn_In.
Qed.

Lemma rank_holders_ok (top_n : Z) (all_holders : list (@token_account num))
  (hs : list holder) :
  rank_holders format_2f top_n all_holders = Ok hs ->
  (all_holders = [] /\ hs = [])
  \/ exists amounts holders,
      mapM float_amount all_holders = Ok amounts
      /\ mapM (holder_of_account format_2f (sum_left amounts)) all_holders = Ok holders
      /\ hs = py_take top_n (sorted_desc nltb amount holders).
Proof.
  unfold rank_holders.
  destruct all_holders as [ | a rest]; [ intros H; inversion H; auto | ].
  remember (a :: rest) as all_holders eqn:Hall.
  destruct (mapM float_amount all_holders) as [amounts | e] eqn:Hamounts;
    [ | discriminate ].
  unfold bind at 1.
  destruct (mapM (holder_of_account format_2f (sum_left amounts)) all_holders)
    as [holders | e] eqn:Hholders; [ | discriminate ].
  unfold bind. intros H. inversion H. right. exists amounts, holders. auto.
Qed.

Lemma _get_holders_inv (page : option string -> @accounts_outcome num) (fuel : nat)
  (top_n : Z) (hs : list holder) :
  _get_holders format_2f fuel page top_n = Some hs ->
  hs = []
  \/ exists all_holders,
      fetch_accounts fuel page None [] = Some (Ok all_holders)
      /\ rank_holders format_2f top_n all_holders = Ok hs.
Proof.
  unfold _get_holders.
  destruct (fetch_accounts fuel page None []) as [[all_holders | e] | ];
    [ | | discriminate ]; unfold bind; intros H; inversion H; clear H; auto.
  destruct (rank_holders format_2f top_n all_holders) as [holders | e] eqn:Hrank;
    [ right; exists all_holders; auto | now left ].
Qed.

(** X20.  What [_get_holders] returns is in descending order of [amount] and,
    for a non-negative [top_n], has at most [top_n] holders. *)
Theorem holders_are_the_largest_first {O : PyNumberOrder num}
  (page : option string -> @accounts_outcome num) (fuel : nat) (top_n : Z)
  (holders : list holder) :
  _get_holders format_2f fuel page top_n = Some holders ->
  descending_by amount holders
  /\ ((0 <= top_n)%Z -> List.length holders <= Z.to_nat top_n).
Proof.
  intros H. apply _get_holders_inv in H.
  destruct H as [-> | (all_holders & _ & Hrank)];
    [ split; [ constructor | simpl; lia ] | ].
  apply rank_holders_ok in Hrank.
  destruct Hrank as [[_ ->] | (amounts & hs & _ & _ & ->)];
    [ split; [ constructor | simpl; lia ] | ].
  split.
  - apply py_take_sorted. apply sorted_desc_descending.
  - apply py_take_length.
Qed.

End HolderQueryFacts.

Module HolderQueryFailures.
Import HolderQuery.

(** Starting at cursor [c], the paging runs into a request that raises or
    into a reply that is [null], after [n] pages that were fine. *)
Inductive breaks {num : Type} (page : option string -> accounts_outcome (num := num))
  : option string -> nat -> Prop :=
| breaks_raising c e : _post (page c) = Raise e -> breaks page c 0
| breaks_null c : _post (page c) = Ok None -> breaks page c 0
| breaks_later c accounts next n :
    page_holds page c accounts next -> accounts <> [] ->
    truthy_str next = true ->
    breaks page next n ->
    breaks page c (S n).

End HolderQueryFailures.

Section HolderQueryProperties.
Import SolWalletAgent HolderQuery HolderQueryFailures.
Context {num : Type} {N : PyNumber num}.
Context (format_2f : num -> string).

(** X21.  Every holder returned stands for one fetched token account: its
    address is the account's owner, its amount the account's amount, and its
    percentage the two-decimal rendering of its share in the total over all
    the accounts fetched, which was not zero. *)
Theorem holder_shares_are_of_the_whole_supply
  (page : option string -> @accounts_outcome num) (fuel : nat) (top_n : Z)
  (holders : list holder) (h : holder) :
  _get_holders format_2f fuel page top_n = Some holders ->
  In h holders ->
  exists all_holders amounts account a,
    fetch_accounts fuel page None [] = Some (Ok all_holders)
    /\ mapM float_amount all_holders = Ok amounts
    /\ In account all_holders
    /\ owner account = Some (address h)
    /\ account_amount account = Some a
    /\ amount h = nfloat a
    /\ neqb (sum_left amounts) (nconst 0) = false
    /\ percentage h
       = format_2f (nmul (ntruediv (nfloat a) (sum_left amounts)) (nconst 100)).
Proof.
  intros H Hin. apply _get_holders_inv in H.
  destruct H as [-> | (all_holders & Hfetch & Hrank)]; [ destruct Hin | ].
  apply rank_holders_ok in Hrank.
  destruct Hrank as [[_ ->] | (amounts & hs & Hamounts & Hhs & ->)]; [ destruct Hin | ].
  apply py_take_In in Hin. apply sort_stable_In in Hin.
  destruct (mapM_In _ _ _ _ Hhs Hin) as (account & Haccount & Hh).
  unfold holder_of_account, float_amount, py_truediv in Hh.
  destruct (owner account) as [o | ] eqn:Ho; [ | discriminate ].
  destruct (account_amount account) as [a | ] eqn:Ha; [ | discriminate ].
  simpl in Hh.
  destruct (neqb (sum_left amounts) (nconst 0)) eqn:Hzero; [ discriminate | ].
  simpl in Hh. inversion Hh; subst h; clear Hh.
  exists all_holders, amounts, account, a. simpl. repeat split; auto.
Qed.

Lemma fetch_accounts_breaks (page : option string -> @accounts_outcome num)
  (c : option string) (n : nat) :
  breaks page c n ->
  forall fuel all_holders,
    n < fuel ->
    exists e, fetch_accounts fuel page c all_holders = Some (Raise e).
Proof.
  induction 1 as [c e He | c Hnull | c accounts next n Hpage Hne Hnext Hrest IH];
    intros [ | fuel] all_holders Hfuel; try lia; simpl.
  - rewrite He. eauto.
  - rewrite Hnull. eauto.
  - destruct Hpage as (data & -> & -> & ->).
    destruct accounts; [ congruence | ]. rewrite Hnext. apply IH. lia.
Qed.

(** X22.  A failure in the paging costs the pages already fetched: when a
    request raises (transport error, timeout, rate limit) or a reply is
    [null] after [n] good pages, [_get_holders] returns the empty list, not
    the accounts of those pages.  A reply with another status than 200 or 429
    is not such a failure: it reads as a page without accounts and ends the
    paging with what was collected. *)
Theorem broken_paging_gives_no_holders
  (page : option string -> @accounts_outcome num) (fuel : nat) (top_n : Z) (n : nat) :
  (breaks page None n -> n < fuel -> _get_holders format_2f fuel page top_n = Some [])
  /\ (forall c status body,
         page c = AccountsResponse status body ->
         status <> 200%Z -> status <> 429%Z ->
         page_is_empty page c).
Proof.
  split.
  - intros Hbreaks Hfuel. unfold _get_holders.
    destruct (fetch_accounts_breaks page None n Hbreaks fuel [] Hfuel) as [e ->].
    reflexivity.
  - intros c status body Hpage H200 H429.
    exists {| accounts_result := None |}. rewrite Hpage. simpl.
    destruct (Z.eqb_spec status 200); [ contradiction | ].
    destruct (Z.eqb_spec status 429); [ contradiction | ].
    split; [ reflexivity | left; reflexivity ].
Qed.

(** X23.  A token whose fetched accounts add up to zero gives no holders:
    the division of the percentage is attempted, fails, and is absorbed. *)
Theorem zero_supply_gives_no_holders
  (page : option string -> @accounts_outcome num) (fuel : nat) (top_n : Z)
  (all_holders : list token_account) (amounts : list num) :
  fetch_accounts fuel page None [] = Some (Ok all_holders) ->
  mapM float_amount all_holders = Ok amounts ->
  neqb (sum_left amounts) (nconst 0) = true ->
  _get_holders format_2f fuel page top_n = Some [].
Proof.
  intros Hfetch Hamounts Hzero. unfold _get_holders. rewrite Hfetch.
  unfold bind at 1. unfold rank_holders.
  destruct all_holders as [ | a rest]; [ reflexivity | ].
  rewrite Hamounts. unfold bind at 1.
  assert (Hfirst : exists e, holder_of_account format_2f (sum_left amounts) a = Raise e).
  { simpl in Hamounts. unfold holder_of_account, py_truediv.
    destruct (owner a); simpl; [ | eauto ].
    destruct (float_amount a); simpl; [ | eauto ].
    rewrite Hzero. simpl. eauto. }
  destruct Hfirst as [e He]. simpl mapM. rewrite He. reflexivity.
Qed.

End HolderQueryProperties.

(* ======================================================================== *)
(** * The swap history of the wallet agent: [get_tx_history] *)

Module SwapHistory.

Section History.

(** [int(s)] on a string: the integer, or [None] for [ValueError]. *)
Context (parse_int : string -> option Z).

(** [_format_amount(amount, decimals)], that is [str(amount / (10**decimals))]:
    the rendering of a float, taken as given. *)
Context (_format_amount : Z -> Z -> result string).

(** *** The Helius enhanced transactions, as the code reads them

    A field is [None] when its key is absent. *)

(** An amount: a decimal string or an integer. *)
Inductive amount_value :=
| AmountText (s : string)
| AmountInt (z : Z).

Record native_transfer := { native_amount : option amount_value }.

Record raw_token_amount := {
  tokenAmount : option amount_value;
  decimals : option Z
}.

Record token_transfer := {
  mint : option string;
  rawTokenAmount : option raw_token_amount
}.

(** A swap event that passes [if not swap_event]: a non-empty object.  Of its
    keys the code reads these four. *)
Record swap := {
  nativeInput : option native_transfer;
  tokenInputs : option (list token_transfer);
  nativeOutput : option native_transfer;
  tokenOutputs : option (list token_transfer)
}.

(** [events_swap] is [None] when the key is absent or its value is falsy
    ([null] or [{}]). *)
Record events := { events_swap : option swap }.

Record transaction := {
  tx_type : option string;
  tx_events : option events;
  feePayer : option string;
  timestamp : option Z;
  description : option string
}.

(** The decoded body of the reply: [null], a list of transactions, or some
    other object ([{}] when [has_keys] is false). *)
Inductive tx_body :=
| BodyNull
| BodyList (txs : list transaction)
| BodyObject (has_keys : bool).

Inductive tx_outcome :=
| TxResponse (status : Z) (body : tx_body)
| TxFailure (e : exn).

(** [_request] / [_get]. *)
Definition _get (o : tx_outcome) : result tx_body :=
  match o with
  | TxResponse status body =>
      if Z.eqb status 200 then Ok body
      else if Z.eqb status 429 then
        Raise (Exn ClientError "Request failed: Rate limit exceeded")
      else Ok (BodyObject false)
  | TxFailure e =>
      match exn_class e with
      | ClientError => Raise (Exn ClientError ("Request failed: " ++ exn_str e))
      | _ => Raise e
      end
  end.

(** *** Processing one swap *)

Definition SOL_ADDRESS : string := "So11111111111111111111111111111111111111112".

Definition amount_truthy (v : amount_value) : bool :=
  match v with
  | AmountText s => negb (String.eqb s "")
  | AmountInt z => negb (Z.eqb z 0)
  end.

(** [int(v)] *)
Definition py_int (v : amount_value) : result Z :=
  match v with
  | AmountInt z => Ok z
  | AmountText s =>
      match parse_int s with
      | Some z => Ok z
      | None => Raise (Exn ValueError "invalid literal for int() with base 10")
      end
  end.

(** [_py.get(swap_event, "nativeInput.amount", 0)] *)
Definition native_amount_of (t : option native_transfer) : amount_value :=
  match t with
  | Some t => get_or (native_amount t) (AmountInt 0)
  | None => AmountInt 0
  end.

(** [_py.get(token, "rawTokenAmount.tokenAmount", 0)] and
    [_py.get(token, "rawTokenAmount.decimals", 0)] *)
Definition token_amount_of (t : token_transfer) : amount_value :=
  match rawTokenAmount t with
  | Some r => get_or (tokenAmount r) (AmountInt 0)
  | None => AmountInt 0
  end.

Definition token_decimals_of (t : token_transfer) : Z :=
  match rawTokenAmount t with
  | Some r => get_or (decimals r) 0%Z
  | None => 0%Z
  end.

(** One side of the swap, the same code for the input and for the output:
    the native amount when there is one, else the first token transfer, else
    nothing.  The result is the address and the rendered amount. *)
Definition side (native : option native_transfer) (tokens : option (list token_transfer))
  : result (option (string * string)) :=
  if amount_truthy (native_amount_of native) then
    z <- py_int (native_amount_of native) ;;
    rendered <- _format_amount z 9 ;;
    Ok (Some (SOL_ADDRESS, rendered))
  else
    match tokens with
    | Some (token :: _) =>
        z <- py_int (token_amount_of token) ;;
        rendered <- _format_amount z (token_decimals_of token) ;;
        Ok (Some (get_or (mint token) "", rendered))
    | _ => Ok None
    end.

Record swap_record := {
  account : string;
  record_timestamp : Z;
  record_description : string;
  token_in_address : option string;
  token_in_amount : option string;
  token_out_address : option string;
  token_out_amount : option string;
  record_type : string
}.

Definition is_sol (a : option string) : bool :=
  match a with
  | Some a => String.eqb a SOL_ADDRESS
  | None => false
  end.

(** [_py.get(tx, "events.swap")] *)
Definition swap_of (tx : transaction) : option swap :=
  match tx_events tx with
  | Some e => events_swap e
  | None => None
  end.

(** The body of [for tx in swap_type]: [None] is [continue]. *)
Definition process (tx : transaction) : result (option swap_record) :=
  match swap_of tx with
  | None => Ok None
  | Some swap_event =>
      token_in <- side (nativeInput swap_event) (tokenInputs swap_event) ;;
      token_out <- side (nativeOutput swap_event) (tokenOutputs swap_event) ;;
      let in_address := option_map fst token_in in
      let out_address := option_map fst token_out in
      Ok (Some {| account := get_or (feePayer tx) "";
                  record_timestamp := get_or (timestamp tx) 0%Z;
                  record_description := get_or (description tx) "";
                  token_in_address := in_address;
                  token_in_amount := option_map snd token_in;
                  token_out_address := out_address;
                  token_out_amount := option_map snd token_out;
                  record_type :=
                    if is_sol in_address then "BUY"
                    else if is_sol out_address then "SELL"
                    else "SWAP" |})
  end.

(** [_py.get(tx, "type") == "SWAP"] *)
Definition is_swap (tx : transaction) : bool :=
  match tx_type tx with
  | Some t => String.eqb t "SWAP"
  | None => false
  end.

Definition kept (r : option swap_record) : list swap_record :=
  match r with Some r => [r] | None => [] end.

(** The body of [get_tx_history] inside its [try]. *)
Definition get_tx_history_try (o : tx_outcome) : result (list swap_record) :=
  data <- _get o ;;
  match data with
  | BodyNull => Ok []
  | BodyObject _ => Ok []
  | BodyList [] => Ok []
  | BodyList txs =>
      let swap_type := filter is_swap txs in
      processed <- mapM process swap_type ;;
      Ok (flat_map kept processed)
  end.

(** An element of the list [get_tx_history] returns: a processed swap, or the
    error record of the [except] branch. *)
Inductive history_entry :=
| Swap (r : swap_record)
| QueryError (msg : string).

Definition get_tx_history (o : tx_outcome) : list history_entry :=
  match get_tx_history_try o with
  | Ok swap_txs => map Swap swap_txs
  | Raise e => [QueryError ("Failed to query transaction history: " ++ exn_str e)]
  end.

(** *** What the history is compared with *)

(** The transactions that end up in the history. *)
Definition shown (tx : transaction) : bool :=
  is_swap tx && present (swap_of tx).

(** Who paid for a transaction, when, and its description, as read from the
    transaction and as found in a record. *)
Definition heading_of (tx : transaction) : string * Z * string :=
  (get_or (feePayer tx) "", get_or (timestamp tx) 0%Z, get_or (description tx) "").

Definition heading (r : swap_record) : string * Z * string :=
  (account r, record_timestamp r, record_description r).

Definition transactions_of (body : tx_body) : list transaction :=
  match body with
  | BodyList txs => txs
  | _ => []
  end.

End History.

End SwapHistory.

Section SwapHistoryProperties.

Import SwapHistory.

Context (parse_int : string -> option Z).
Context (_format_amount : Z -> Z -> result string).

Lemma is_sol_spec (a : option string) :
  is_sol a = true <-> a = Some SOL_ADDRESS.
Proof.
  destruct a as [a |]; simpl; [| split; easy].
  rewrite String.eqb_eq. split; congruence.
Qed.

Lemma process_heading (tx : transaction) (r : swap_record) :
  process parse_int _format_amount tx = Ok (Some r) ->
  present (swap_of tx) = true /\ heading r = heading_of tx.
Proof.
  unfold process. destruct (swap_of tx) as [sw |]; [| discriminate].
  destruct (side parse_int _format_amount (nativeInput sw) (tokenInputs sw)) as [i | e];
    [| discriminate].
  destruct (side parse_int _format_amount (nativeOutput sw) (tokenOutputs sw)) as [o | e];
    [| discriminate].
  simpl. intros [= <-]. now split.
Qed.

Lemma process_skips (tx : transaction) :
  process parse_int _format_amount tx = Ok None -> present (swap_of tx) = false.
Proof.
  unfold process. destruct (swap_of tx) as [sw |]; [| reflexivity].
  destruct (side parse_int _format_amount (nativeInput sw) (tokenInputs sw)) as [i | e];
    [| discriminate].
  destruct (side parse_int _format_amount (nativeOutput sw) (tokenOutputs sw)) as [o | e];
    discriminate.
Qed.

Lemma processed_headings (txs : list transaction) (rs : list (option swap_record)) :
  mapM (process parse_int _format_amount) txs = Ok rs ->
  map heading (flat_map kept rs)
  = map heading_of (filter (fun tx => present (swap_of tx)) txs).
Proof.
  revert rs. induction txs as [| tx txs IH]; intros rs; simpl.
  - now intros [= <-].
  - destruct (process parse_int _format_amount tx) as [r |] eqn:Hp; [| discriminate].
    simpl. destruct (mapM (process parse_int _format_amount) txs) as [rs' |];
      [| discriminate].
    simpl. intros [= <-]. simpl. rewrite map_app, (IH rs' eq_refl).
    destruct r as [r |].
    + destruct (process_heading _ _ Hp) as [-> Hh]. simpl. now rewrite Hh.
    + now rewrite (process_skips _ Hp).
Qed.

Lemma filter_shown (txs : list transaction) :
  filter (fun tx => present (swap_of tx)) (filter is_swap txs) = filter shown txs.
Proof.
  induction txs as [| tx txs IH]; simpl; [reflexivity |].
  unfold shown at 1. destruct (is_swap tx); simpl; [| exact IH].
  now rewrite IH.
Qed.

(** X24.  When the history query succeeds, its records are, one for one and
    in the order of the reply, the transactions of type SWAP that carry a swap
    event: each record has the fee payer, the timestamp and the description
    of its transaction.  Transactions of another type, or without a swap
    event, leave no record. *)
Theorem history_lists_the_swaps_in_order
  (o : tx_outcome) (body : tx_body) (l : list swap_record) :
  _get o = Ok body ->
  get_tx_history_try parse_int _format_amount o = Ok l ->
  map heading l = map heading_of (filter shown (transactions_of body)).
Proof.
  intros Hb. unfold get_tx_history_try. rewrite Hb. unfold bind at 1.
  destruct body as [| [| tx txs] | b]; try (now intros [= <-]).
  remember (tx :: txs) as all eqn:Hall. simpl transactions_of.
  destruct (mapM (process parse_int _format_amount) (filter is_swap all)) as [rs |] eqn:Hm;
    [| discriminate].
  simpl. intros [= <-]. rewrite (processed_headings _ _ Hm). now rewrite filter_shown.
Qed.

Lemma side_amount (n : option native_transfer) (t : option (list token_transfer))
  (r : option (string * string)) :
  side parse_int _format_amount n t = Ok r ->
  (amount_truthy (native_amount_of n) = true -> option_map fst r = Some SOL_ADDRESS)
  /\ (amount_truthy (native_amount_of n) = false ->
      option_map fst r = option_map (fun tk => get_or (mint tk) "")
                           (match t with Some (tk :: _) => Some tk | _ => None end)).
Proof.
  unfold side. destruct (amount_truthy (native_amount_of n)).
  - destruct (py_int parse_int (native_amount_of n)) as [z |]; [| discriminate].
    simpl. destruct (_format_amount z 9%Z); [| discriminate].
    intros [= <-]. split; [reflexivity | discriminate].
  - destruct t as [[| tk rest] |]; try (intros [= <-]; split; [discriminate | reflexivity]).
    destruct (py_int parse_int (token_amount_of tk)) as [z |]; [| discriminate].
    simpl. destruct (_format_amount z (token_decimals_of tk)); [| discriminate].
    intros [= <-]. split; [discriminate | reflexivity].
Qed.

Lemma process_classifies (tx : transaction) (r : swap_record) :
  process parse_int _format_amount tx = Ok (Some r) ->
  (record_type r = "BUY" /\ token_in_address r = Some SOL_ADDRESS)
  \/ (record_type r = "SELL" /\ token_in_address r <> Some SOL_ADDRESS
      /\ token_out_address r = Some SOL_ADDRESS)
  \/ (record_type r = "SWAP" /\ token_in_address r <> Some SOL_ADDRESS
      /\ token_out_address r <> Some SOL_ADDRESS).
Proof.
  unfold process. destruct (swap_of tx) as [sw |]; [| discriminate].
  destruct (side parse_int _format_amount (nativeInput sw) (tokenInputs sw)) as [i | e];
    [| discriminate].
  destruct (side parse_int _format_amount (nativeOutput sw) (tokenOutputs sw)) as [o | e];
    [| discriminate].
  simpl. intros [= <-]. simpl.
  destruct (is_sol (option_map fst i)) eqn:Hi.
  - left. split; [reflexivity | now apply is_sol_spec].
  - assert (Hni : option_map fst i <> Some SOL_ADDRESS).
    { intros H. apply is_sol_spec in H. congruence. }
    destruct (is_sol (option_map fst o)) eqn:Ho.
    + right; left. repeat split; [exact Hni | now apply is_sol_spec].
    + right; right. repeat split; [exact Hni |].
      intros H. apply is_sol_spec in H. congruence.
Qed.

Lemma process_amounts (tx : transaction) (r : swap_record) :
  process parse_int _format_amount tx = Ok (Some r) ->
  present (token_in_amount r) = present (token_in_address r)
  /\ present (token_out_amount r) = present (token_out_address r).
Proof.
  unfold process. destruct (swap_of tx) as [sw |]; [| discriminate].
  destruct (side parse_int _format_amount (nativeInput sw) (tokenInputs sw)) as [i | e];
    [| discriminate].
  destruct (side parse_int _format_amount (nativeOutput sw) (tokenOutputs sw)) as [o | e];
    [| discriminate].
  simpl. intros [= <-]. simpl. now destruct i, o.
Qed.

Lemma history_record_processed (o : tx_outcome) (r : swap_record) :
  In (Swap r) (get_tx_history parse_int _format_amount o) ->
  exists body tx,
    _get o = Ok body /\ In tx (transactions_of body) /\ is_swap tx = true
    /\ process parse_int _format_amount tx = Ok (Some r).
Proof.
  unfold get_tx_history.
  destruct (get_tx_history_try parse_int _format_amount o) as [l | e] eqn:Ht.
  2: { simpl. intros [H | []]. discriminate. }
  intros Hin. apply in_map_iff in Hin. destruct Hin as [r' [[= ->] Hin]].
  revert Ht. unfold get_tx_history_try.
  destruct (_get o) as [body | e]; [| discriminate]. unfold bind at 1.
  destruct body as [| [| tx txs] | b]; try (intros [= <-]; now destruct Hin).
  remember (tx :: txs) as all eqn:Hall.
  destruct (mapM (process parse_int _format_amount) (filter is_swap all)) as [rs |] eqn:Hm;
    [| discriminate].
  simpl. intros [= <-]. apply in_flat_map in Hin. destruct Hin as [k [Hk Hr]].
  destruct k as [r' |]; [| now destruct Hr]. destruct Hr as [-> | []].
  destruct (mapM_In _ _ _ _ Hm Hk) as [tx' [Hin' Hp]].
  apply filter_In in Hin'. destruct Hin' as [Hin' Hs].
  exists (BodyList all), tx'. now repeat split.
Qed.

(** X25.  Every record of the history is classified by the addresses it
    carries: BUY exactly when the wallet paid with SOL, SELL when it did not
    and received SOL, SWAP when SOL is on neither side.  A side has an amount
    exactly when it has an address. *)
Theorem swap_records_are_classified (o : tx_outcome) (r : swap_record) :
  In (Swap r) (get_tx_history parse_int _format_amount o) ->
  ((record_type r = "BUY" /\ token_in_address r = Some SOL_ADDRESS)
   \/ (record_type r = "SELL" /\ token_in_address r <> Some SOL_ADDRESS
       /\ token_out_address r = Some SOL_ADDRESS)
   \/ (record_type r = "SWAP" /\ token_in_address r <> Some SOL_ADDRESS
       /\ token_out_address r <> Some SOL_ADDRESS))
  /\ present (token_in_amount r) = present (token_in_address r)
  /\ present (token_out_amount r) = present (token_out_address r).
Proof.
  intros Hin. destruct (history_record_processed _ _ Hin) as [body [tx [_ [_ [_ Hp]]]]].
  split; [exact (process_classifies _ _ Hp) | exact (process_amounts _ _ Hp)].
Qed.

(** X26.  A native amount wins over the token transfers: a swap whose native
    input amount is non-zero is recorded as paid in SOL, hence as a BUY,
    whatever token inputs and outputs it lists. *)
Theorem native_input_makes_a_buy
  (tx : transaction) (sw : swap) (r : swap_record) :
  swap_of tx = Some sw ->
  amount_truthy (native_amount_of (nativeInput sw)) = true ->
  process parse_int _format_amount tx = Ok (Some r) ->
  record_type r = "BUY" /\ token_in_address r = Some SOL_ADDRESS.
Proof.
  intros Hsw Hn. unfold process. rewrite Hsw.
  destruct (side parse_int _format_amount (nativeInput sw) (tokenInputs sw)) as [i | e] eqn:Hi;
    [| discriminate].
  destruct (side parse_int _format_amount (nativeOutput sw) (tokenOutputs sw)) as [o' | e];
    [| discriminate].
  simpl. intros [= <-]. simpl.
  destruct (side_amount _ _ _ Hi) as [H _]. rewrite (H Hn). simpl.
  split; reflexivity.
Qed.

(** X27.  One transaction whose amount cannot be converted fails the whole
    history: when processing any SWAP transaction of the reply raises, the
    result is a single error record and no swap at all. *)
Theorem one_bad_amount_fails_the_history
  (o : tx_outcome) (txs : list transaction) (tx : transaction) (e : exn) :
  _get o = Ok (BodyList txs) ->
  In tx txs -> is_swap tx = true ->
  process parse_int _format_amount tx = Raise e ->
  exists e',
    get_tx_history parse_int _format_amount o
    = [QueryError ("Failed to query transaction history: " ++ exn_str e')].
Proof.
  intros Hb Hin Hs Hp. unfold get_tx_history, get_tx_history_try. rewrite Hb.
  unfold bind at 1. destruct txs as [| t0 txs']; [easy |].
  remember (t0 :: txs') as all eqn:Hall.
  assert (Hf : In tx (filter is_swap all)) by (apply filter_In; now split).
  destruct (mapM_raises (process parse_int _format_amount) _ _ _ Hf Hp) as [e' ->].
  simpl. eauto.
Qed.

End SwapHistoryProperties.

Section WalletDataProperties.

Import DispatchPaths SolWalletAgent.

Context {num : Type} {N : PyNumber num}.
Context {tx_record : Type}.
Context (s : services (num := num) (tx_record := tx_record)).

(** X28.  The wallet agent reports an error in [data] for one reason only: the
    tool is not one of its three.  Its operations hand back lists, in which
    [_handle_error] finds no ["error"] key, so whatever an operation returns
    is passed on as it is. *)
Theorem wallet_error_data_means_unsupported_tool
  (name : string) (args : tool_args) (d : tool_data) :
  snd (_handle_tool_logic s name args) = Ok d ->
  (has_error_key d = true <-> ~ In name wallet_tools).
Proof.
  intros Hd. split.
  - intros He Hin. revert Hd. unfold _handle_tool_logic, wallet_tools in *.
    destruct (String.eqb_spec name "get_sol_wallet_assets") as [Hn1 | Hn1].
    { destruct (owner_address args) as [a | ]; simpl; [| discriminate].
      destruct (get_wallet_assets (assets_reply (chain s) a)); simpl;
        intros [= <-]; discriminate. }
    destruct (String.eqb_spec name "analyze_sol_token_holders") as [Hn2 | Hn2].
    { destruct (arg_token_address args) as [a | ]; simpl; [| discriminate].
      destruct (analyze_holders (chain s) a (get_or (top_n args) 20%Z)); simpl;
        intros [= <-]; discriminate. }
    destruct (String.eqb_spec name "get_sol_tx_history") as [Hn3 | Hn3].
    { destruct (owner_address args) as [a | ]; simpl; [| discriminate].
      destruct (tx_history s a); simpl; intros [= <-]; discriminate. }
    destruct Hin as [H | [H | [H | []]]]; congruence.
  - intros Hn. rewrite (wallet_unsupported_tool s name args Hn) in Hd.
    simpl in Hd. now inversion Hd.
Qed.

End WalletDataProperties.

Section HistoryDispatchProperties.

Import DispatchPaths SolWalletAgent SwapHistory.

Context {num : Type} {N : PyNumber num}.
Context (parse_int : string -> option Z).
Context (_format_amount : Z -> Z -> result string).
Context (s : services (num := num) (tx_record := history_entry)).

(** X29.  A history query that fails is not reported as an error: the
    operation returns a one-element list holding the error record, and the
    dispatcher wraps that list as the [data] of an ordinary envelope. *)
Theorem failed_history_is_returned_as_data
  (p : params) (a : string) (o : tx_outcome) (e : exn) :
  tool p = Some "get_sol_tx_history" ->
  owner_address (get_or (tool_arguments p) no_args) = Some a ->
  tx_history s a = get_tx_history parse_int _format_amount o ->
  get_tx_history_try parse_int _format_amount o = Raise e ->
  handle_message s p
  = ([Operation "get_sol_tx_history"],
     envelope ""
       (DataTransactions
          [QueryError ("Failed to query transaction history: " ++ exn_str e)]))
  /\ is_response_envelope (snd (handle_message s p)).
Proof.
  intros Ht Ha Hs He.
  assert (Hm : handle_message s p
               = ([Operation "get_sol_tx_history"],
                  envelope ""
                    (DataTransactions
                       [QueryError ("Failed to query transaction history: "
                                    ++ exn_str e)]))).
  { rewrite wallet_direct_call by (now rewrite Ht).
    rewrite Ht. cbn [get_or]. unfold _handle_tool_logic.
    rewrite Ha. simpl. rewrite Hs. unfold get_tx_history. rewrite He. reflexivity. }
  split; [exact Hm |]. rewrite Hm. split; simpl; eauto.
Qed.

End HistoryDispatchProperties.

Section TokenDirectCallProperties.

Import DispatchPaths BitquerySolanaTokenInfoAgent.

Context {num : Type} {N : PyNumber num}.
Context (parse_float : string -> option num).
Context {trending_token : Type}.
Context (s : services (num := num) (trending_token := trending_token)).

(** X30.  The token-info agent has no [try] around its dispatcher.  On a
    request that names a tool and whose arguments are absent or an object, it
    can still raise in one way only: the tool is [get_token_trading_info] and
    the arguments have no [token_address].  Then it is a [KeyError] and
    nothing was called. *)
Theorem direct_call_raises_only_for_a_missing_address (p : params) (e : exn) :
  truthy_str (tool p) = true ->
  snd (handle_message parse_float s p) = Raise e ->
  tool p = Some "get_token_trading_info"
  /\ token_address (get_or (tool_arguments p) no_args) = None
  /\ e = Exn KeyError "'token_address'"
  /\ fst (handle_message parse_float s p) = [].
Proof.
  intros Ht. rewrite (token_direct_call parse_float s p Ht). cbn [fst snd].
  destruct (tool p) as [name |] eqn:Hn; [| discriminate]. cbn [get_or].
  unfold _handle_tool_logic.
  destruct (String.eqb_spec name "get_token_trading_info") as [Hn1 | Hn1].
  { subst name.
    destruct (token_address (get_or (tool_arguments p) no_args)) as [a |]; simpl.
    - destruct (get_token_trading_info parse_float (utcnow s) (trades_reply s a));
        simpl; discriminate.
    - intros [= <-]. auto. }
  destruct (String.eqb_spec name "get_top_trending_tokens") as [Hn2 | Hn2].
  { destruct (get_top_trending_tokens (top_ten_trending_tokens s)); simpl; discriminate. }
  simpl. discriminate.
Qed.

End TokenDirectCallProperties.

(* ======================================================================== *)
(** * Instances of the properties above *)

Module RouteExample.

(** The wallet agent with a given LLM selection reply and argument parser. *)
Definition wallet_with (llm : result (option SolWalletAgent.llm_response))
  (loads : result SolWalletAgent.tool_args)
  : SolWalletAgent.services (num := Z) (tx_record := unit) :=
  {| SolWalletAgent.chain := WalletExample.the_world;
     SolWalletAgent.tx_history := fun _ => [];
     SolWalletAgent.call_llm_with_tools_async := fun _ => llm;
     SolWalletAgent.call_llm_async := fun _ _ _ => Ok "Here is what I found.";
     SolWalletAgent.json_loads := fun _ => loads |}.

(** [float(s)] on integer literals, with integers for numbers as in the
    wallet example. *)
Definition parse_float (s : string) : option Z :=
  option_map Z.of_int (NilZero.int_of_string s).

(** The token-info agent with a given LLM selection reply and argument parser;
    the indexer has no trades. *)
Definition token_with (llm : result (option BitquerySolanaTokenInfoAgent.llm_response))
  (loads : result BitquerySolanaTokenInfoAgent.tool_args)
  : BitquerySolanaTokenInfoAgent.services (num := Z) (trending_token := unit) :=
  {| BitquerySolanaTokenInfoAgent.utcnow := "2024-01-01T01:00:00";
     BitquerySolanaTokenInfoAgent.trades_reply := fun _ =>
       BitquerySolanaTokenInfoAgent.Responded
         {| BitquerySolanaTokenInfoAgent.status_code := 200;
            BitquerySolanaTokenInfoAgent.text := "";
            BitquerySolanaTokenInfoAgent.json := Ok (Some []) |};
     BitquerySolanaTokenInfoAgent.top_ten_trending_tokens := Ok [];
     BitquerySolanaTokenInfoAgent.call_llm_with_tools_async := fun _ => llm;
     BitquerySolanaTokenInfoAgent.call_llm_async := fun _ _ _ => Ok "Here is what I found.";
     BitquerySolanaTokenInfoAgent.json_loads := fun _ => loads |}.

Definition wallet_says_hello : SolWalletAgent.llm_response :=
  {| SolWalletAgent.llm_content := Some "Hello, ask me about a wallet.";
     SolWalletAgent.llm_tool_calls := None |}.

Definition token_says_hello : BitquerySolanaTokenInfoAgent.llm_response :=
  {| BitquerySolanaTokenInfoAgent.llm_content := Some "Hello, ask me about a token.";
     BitquerySolanaTokenInfoAgent.llm_tool_calls := None |}.

(** Tool calls whose argument text is cut off before the closing brace. *)
Definition wallet_call : SolWalletAgent.tool_call :=
  {| SolWalletAgent.tc_id := "call_1";
     SolWalletAgent.function_name := "get_sol_wallet_assets";
     SolWalletAgent.function_arguments := "{ owner_address: w1" |}.

Definition token_call : BitquerySolanaTokenInfoAgent.tool_call :=
  {| BitquerySolanaTokenInfoAgent.tc_id := "call_1";
     BitquerySolanaTokenInfoAgent.function_name := "get_token_trading_info";
     BitquerySolanaTokenInfoAgent.function_arguments := "{ token_address: Mint1" |}.

Definition wallet_selects (v : SolWalletAgent.tool_calls_value)
  : SolWalletAgent.llm_response :=
  {| SolWalletAgent.llm_content := None; SolWalletAgent.llm_tool_calls := Some v |}.

Definition token_selects (v : BitquerySolanaTokenInfoAgent.tool_calls_value)
  : BitquerySolanaTokenInfoAgent.llm_response :=
  {| BitquerySolanaTokenInfoAgent.llm_content := None;
     BitquerySolanaTokenInfoAgent.llm_tool_calls := Some v |}.

Definition bad_json : exn := Exn JSONDecodeError "Expecting ',' delimiter".

Definition wallet_asks (q : string) : SolWalletAgent.params :=
  {| SolWalletAgent.query := Some q;
     SolWalletAgent.tool := None;
     SolWalletAgent.tool_arguments := None;
     SolWalletAgent.raw_data_only := None |}.

Definition token_asks (q : string) (raw : option bool)
  : BitquerySolanaTokenInfoAgent.params :=
  {| BitquerySolanaTokenInfoAgent.query := Some q;
     BitquerySolanaTokenInfoAgent.tool := None;
     BitquerySolanaTokenInfoAgent.tool_arguments := None;
     BitquerySolanaTokenInfoAgent.raw_data_only := raw |}.

Definition wallet_names (name : string) : SolWalletAgent.params :=
  {| SolWalletAgent.query := None;
     SolWalletAgent.tool := Some name;
     SolWalletAgent.tool_arguments := None;
     SolWalletAgent.raw_data_only := None |}.

Definition token_names (name : string) : BitquerySolanaTokenInfoAgent.params :=
  {| BitquerySolanaTokenInfoAgent.query := None;
     BitquerySolanaTokenInfoAgent.tool := Some name;
     BitquerySolanaTokenInfoAgent.tool_arguments := None;
     BitquerySolanaTokenInfoAgent.raw_data_only := None |}.

End RouteExample.

Lemma direct_call_makes_no_llm_call_witness :
  BitquerySolanaTokenInfoAgent.handle_message RouteExample.parse_float
    (RouteExample.token_with (Ok None) (Ok BitquerySolanaTokenInfoAgent.no_args))
    {| BitquerySolanaTokenInfoAgent.query := Some "ignored";
       BitquerySolanaTokenInfoAgent.tool := Some "get_token_trading_info";
       BitquerySolanaTokenInfoAgent.tool_arguments :=
         Some {| BitquerySolanaTokenInfoAgent.token_address := Some "Mint1" |};
       BitquerySolanaTokenInfoAgent.raw_data_only := None |}
  = ([BitquerySolanaTokenInfoAgent.Operation "get_token_trading_info"],
     Ok (BitquerySolanaTokenInfoAgent.envelope ""
           (BitquerySolanaTokenInfoAgent.DataError "No trading data available")))
  /\ SolWalletAgent.handle_message DispatchExample.wallet_services
       {| SolWalletAgent.query := Some "ignored";
          SolWalletAgent.tool := Some "get_sol_wallet_assets";
          SolWalletAgent.tool_arguments :=
            Some {| SolWalletAgent.owner_address := Some "w1";
                    SolWalletAgent.arg_token_address := None;
                    SolWalletAgent.top_n := None |};
          SolWalletAgent.raw_data_only := None |}
     = ([SolWalletAgent.Operation "get_sol_wallet_assets"],
        SolWalletAgent.envelope ""
          (SolWalletAgent.DataAssets
             [WalletExample.sol_entry; WalletExample.token_a_entry]))
  /\ SolWalletAgent.handle_message DispatchExample.wallet_services
       (RouteExample.wallet_names "analyze_sol_token_holders")
     = ([], SolWalletAgent.error_reply "Error handling message: 'token_address'").
Proof.
  pose proof (direct_call_makes_no_llm_call RouteExample.parse_float
                (RouteExample.token_with (Ok None)
                   (Ok BitquerySolanaTokenInfoAgent.no_args))
                DispatchExample.wallet_services
                {| BitquerySolanaTokenInfoAgent.query := Some "ignored";
                   BitquerySolanaTokenInfoAgent.tool := Some "get_token_trading_info";
                   BitquerySolanaTokenInfoAgent.tool_arguments :=
                     Some {| BitquerySolanaTokenInfoAgent.token_address := Some "Mint1" |};
                   BitquerySolanaTokenInfoAgent.raw_data_only := None |}
                {| SolWalletAgent.query := Some "ignored";
                   SolWalletAgent.tool := Some "get_sol_wallet_assets";
                   SolWalletAgent.tool_arguments :=
                     Some {| SolWalletAgent.owner_address := Some "w1";
                             SolWalletAgent.arg_token_address := None;
                             SolWalletAgent.top_n := None |};
                   SolWalletAgent.raw_data_only := None |}) as Hpresent.
  pose proof (direct_call_makes_no_llm_call RouteExample.parse_float
                (RouteExample.token_with (Ok None)
                   (Ok BitquerySolanaTokenInfoAgent.no_args))
                DispatchExample.wallet_services
                (RouteExample.token_names "get_top_trending_tokens")
                (RouteExample.wallet_names "analyze_sol_token_holders")) as Hmissing.
  cbv zeta in Hpresent, Hmissing.
  destruct Hpresent as (Htoken & _ & Hwallet & _).
  destruct Hmissing as (_ & _ & _ & Hanalyze & _).
  split; [ exact (Htoken eq_refl) | ].
  split; [ exact (Hwallet eq_refl) | exact (Hanalyze eq_refl) ].
Defined.

Lemma unknown_tool_is_reported_in_data_witness :
  BitquerySolanaTokenInfoAgent.handle_message RouteExample.parse_float
    (RouteExample.token_with (Ok None) (Ok BitquerySolanaTokenInfoAgent.no_args))
    (RouteExample.token_names "get_sol_price")
  = ([], Ok (BitquerySolanaTokenInfoAgent.envelope ""
               (BitquerySolanaTokenInfoAgent.DataError "Unsupported tool: get_sol_price")))
  /\ SolWalletAgent.handle_message DispatchExample.wallet_services
       (RouteExample.wallet_names "get_sol_price")
     = ([], SolWalletAgent.envelope ""
              (SolWalletAgent.DataError "Unsupported tool: get_sol_price")).
Proof.
  destruct (unknown_tool_is_reported_in_data RouteExample.parse_float
              (RouteExample.token_with (Ok None) (Ok BitquerySolanaTokenInfoAgent.no_args))
              DispatchExample.wallet_services
              (RouteExample.token_names "get_sol_price")
              (RouteExample.wallet_names "get_sol_price") "get_sol_price")
    as [Htoken Hwallet].
  - discriminate.
  - split.
    + apply Htoken; [ reflexivity | ]. simpl. intros [H | [H | []]]; discriminate.
    + apply Hwallet; [ reflexivity | ]. simpl. intros [H | [H | [H | []]]]; discriminate.
Defined.

Lemma llm_text_reply_is_the_response_witness :
  BitquerySolanaTokenInfoAgent.handle_message RouteExample.parse_float
    (RouteExample.token_with (Ok (Some RouteExample.token_says_hello))
       (Ok BitquerySolanaTokenInfoAgent.no_args))
    (RouteExample.token_asks "hi" None)
  = ([BitquerySolanaTokenInfoAgent.LLMToolSelection "hi"],
     Ok (BitquerySolanaTokenInfoAgent.envelope "Hello, ask me about a token."
           BitquerySolanaTokenInfoAgent.DataEmpty))
  /\ SolWalletAgent.handle_message
       (RouteExample.wallet_with (Ok (Some RouteExample.wallet_says_hello))
          (Ok SolWalletAgent.no_args))
       (RouteExample.wallet_asks "hi")
     = ([SolWalletAgent.LLMToolSelection "hi"],
        SolWalletAgent.envelope "Hello, ask me about a wallet." SolWalletAgent.DataEmpty).
Proof.
  destruct (llm_text_reply_is_the_response RouteExample.parse_float
              (RouteExample.token_with (Ok (Some RouteExample.token_says_hello))
                 (Ok BitquerySolanaTokenInfoAgent.no_args))
              (RouteExample.wallet_with (Ok (Some RouteExample.wallet_says_hello))
                 (Ok SolWalletAgent.no_args))
              (RouteExample.token_asks "hi" None) (RouteExample.wallet_asks "hi") "hi"
              RouteExample.token_says_hello RouteExample.wallet_says_hello)
    as [Htoken Hwallet].
  - reflexivity.
  - split; [ apply Htoken | apply Hwallet ]; reflexivity.
Defined.

Lemma wallet_rejects_a_list_of_tool_calls_witness :
  SolWalletAgent.handle_message
    (RouteExample.wallet_with
       (Ok (Some (RouteExample.wallet_selects
                    (SolWalletAgent.ToolCallList [RouteExample.wallet_call]))))
       (Ok SolWalletAgent.no_args))
    (RouteExample.wallet_asks "What does w1 hold?")
  = ([SolWalletAgent.LLMToolSelection "What does w1 hold?"],
     SolWalletAgent.error_reply
       "Error handling message: 'list' object has no attribute 'function'").
Proof.
  apply (wallet_rejects_a_list_of_tool_calls
           (RouteExample.wallet_with
              (Ok (Some (RouteExample.wallet_selects
                           (SolWalletAgent.ToolCallList [RouteExample.wallet_call]))))
              (Ok SolWalletAgent.no_args))
           (RouteExample.wallet_asks "What does w1 hold?") "What does w1 hold?"
           (RouteExample.wallet_selects
              (SolWalletAgent.ToolCallList [RouteExample.wallet_call]))
           RouteExample.wallet_call []); reflexivity.
Defined.

Lemma raw_data_only_makes_no_narration_call_witness :
  BitquerySolanaTokenInfoAgent.handle_message TradeExample.parse_float
    DispatchExample.token_services
    (RouteExample.token_asks "How is Mint1 trading?" (Some true))
  = ([BitquerySolanaTokenInfoAgent.LLMToolSelection "How is Mint1 trading?";
      BitquerySolanaTokenInfoAgent.Operation "get_token_trading_info"],
     Ok (BitquerySolanaTokenInfoAgent.envelope ""
           (BitquerySolanaTokenInfoAgent.DataError "No trading data available"))).
Proof.
  exact (proj1 (raw_data_only_makes_no_narration_call TradeExample.parse_float
              DispatchExample.token_services
              (RouteExample.token_asks "How is Mint1 trading?" (Some true))
              "How is Mint1 trading?"
              {| BitquerySolanaTokenInfoAgent.llm_content := None;
                 BitquerySolanaTokenInfoAgent.llm_tool_calls :=
                   Some (BitquerySolanaTokenInfoAgent.ToolCallList
                           [ {| BitquerySolanaTokenInfoAgent.tc_id := "call_1";
                                BitquerySolanaTokenInfoAgent.function_name :=
                                  "get_token_trading_info";
                                BitquerySolanaTokenInfoAgent.function_arguments :=
                                  DispatchExample.mint1_arguments |} ]) |}
              {| BitquerySolanaTokenInfoAgent.tc_id := "call_1";
                 BitquerySolanaTokenInfoAgent.function_name := "get_token_trading_info";
                 BitquerySolanaTokenInfoAgent.function_arguments :=
                   DispatchExample.mint1_arguments |}
              {| BitquerySolanaTokenInfoAgent.token_address := Some "Mint1" |}
              eq_refl eq_refl eq_refl eq_refl eq_refl
              (or_intror (ex_intro _ [] eq_refl)) eq_refl)).
Defined.

Lemma unparsable_arguments_run_no_operation_witness :
  BitquerySolanaTokenInfoAgent.handle_message RouteExample.parse_float
    (RouteExample.token_with
       (Ok (Some (RouteExample.token_selects
                    (BitquerySolanaTokenInfoAgent.OneToolCall RouteExample.token_call))))
       (Raise RouteExample.bad_json))
    (RouteExample.token_asks "How is Mint1 trading?" None)
  = ([BitquerySolanaTokenInfoAgent.LLMToolSelection "How is Mint1 trading?"],
     Raise RouteExample.bad_json)
  /\ SolWalletAgent.handle_message
       (RouteExample.wallet_with
          (Ok (Some (RouteExample.wallet_selects
                       (SolWalletAgent.OneToolCall RouteExample.wallet_call))))
          (Raise RouteExample.bad_json))
       (RouteExample.wallet_asks "How is Mint1 trading?")
     = ([SolWalletAgent.LLMToolSelection "How is Mint1 trading?"],
        SolWalletAgent.error_reply "Error handling message: Expecting ',' delimiter").
Proof.
  destruct (unparsable_arguments_run_no_operation RouteExample.parse_float
              (RouteExample.token_with
                 (Ok (Some (RouteExample.token_selects
                              (BitquerySolanaTokenInfoAgent.OneToolCall
                                 RouteExample.token_call))))
                 (Raise RouteExample.bad_json))
              (RouteExample.wallet_with
                 (Ok (Some (RouteExample.wallet_selects
                              (SolWalletAgent.OneToolCall RouteExample.wallet_call))))
                 (Raise RouteExample.bad_json))
              (RouteExample.token_asks "How is Mint1 trading?" None)
              (RouteExample.wallet_asks "How is Mint1 trading?")
              "How is Mint1 trading?"
              (RouteExample.token_selects
                 (BitquerySolanaTokenInfoAgent.OneToolCall RouteExample.token_call))
              (RouteExample.wallet_selects
                 (SolWalletAgent.OneToolCall RouteExample.wallet_call))
              RouteExample.token_call RouteExample.wallet_call RouteExample.bad_json)
    as [Htoken Hwallet].
  - reflexivity.
  - split.
    + apply Htoken; try reflexivity. left. reflexivity.
    + apply Hwallet; reflexivity.
Defined.

Lemma returned_holdings_pass_the_filters_witness :
  exists r its,
    SolWalletAgent._post WalletExample.wallet_reply
    = Ok (Some {| SolWalletAgent.rpc_result := Some r |})
    /\ SolWalletAgent.items r = Some its
    /\ (In WalletExample.token_a_entry (SolWalletAgent.native_holding r)
        \/ exists it,
            In it its
            /\ SolWalletAgent.id it
               = Some (SolWalletAgent.token_address WalletExample.token_a_entry)
            /\ SolWalletAgent.has_price_above_100 it = true
            /\ get_or (SolWalletAgent.mutable it) false = false
            /\ WalletExample.token_a_entry = holding_of it
            /\ nltb (nconst 100) (SolWalletAgent.total_price WalletExample.token_a_entry)
               = true).
Proof.
  apply (returned_holdings_pass_the_filters WalletExample.wallet_reply
           WalletExample.token_a_entry).
  right. left. reflexivity.
Defined.

Lemma listed_holders_are_fetched_holders_witness :
  exists a c,
    In a (SolWalletAgent.analyze_holders WalletExample.the_world "TokenA" 20)
    /\ In c (SolWalletAgent.holders a)
    /\ exists h token,
        In h (SolWalletAgent._get_holders WalletExample.the_world "TokenA" 20%Z)
        /\ SolWalletAgent.address h <> SolWalletAgent.raydium_address
        /\ In token (SolWalletAgent.get_wallet_assets
                       (SolWalletAgent.assets_reply WalletExample.the_world
                          (SolWalletAgent.address h)))
        /\ SolWalletAgent.token_address token = SolWalletAgent.a_token_address a
        /\ SolWalletAgent.c_address c = SolWalletAgent.address h
        /\ SolWalletAgent.c_percentage c = SolWalletAgent.percentage h
        /\ SolWalletAgent.c_total_price c = SolWalletAgent.total_price token
        /\ SolWalletAgent.gmgn_link_owner_address c
           = ("https://gmgn.ai/sol/address/" ++ SolWalletAgent.address h)%string.
Proof.
  assert (E : exists a rest c cs,
             SolWalletAgent.analyze_holders WalletExample.the_world "TokenA" 20
             = a :: rest
             /\ SolWalletAgent.holders a = c :: cs).
  { vm_compute. do 4 eexists. split; reflexivity. }
  destruct E as (a & rest & c & cs & Ea & Ec).
  assert (Ha : In a (SolWalletAgent.analyze_holders WalletExample.the_world "TokenA" 20))
    by (rewrite Ea; left; reflexivity).
  assert (Hc : In c (SolWalletAgent.holders a)) by (rewrite Ec; left; reflexivity).
  exists a, c. split; [ exact Ha | ]. split; [ exact Hc | ].
  exact (listed_holders_are_fetched_holders WalletExample.the_world "TokenA" 20 a c Ha Hc).
Defined.

Lemma aggregates_list_up_to_five_holders_witness :
  exists a,
    In a (SolWalletAgent.analyze_holders WalletExample.the_world "TokenA" 20)
    /\ SolWalletAgent.a_token_address a = "TokenA"
    /\ SolWalletAgent.gmgn_referral_link a = Some "https://gmgn.ai/?ref=WtaAO4Jn&chain=sol"
    /\ List.length (SolWalletAgent.holders a)
       = Nat.min 5
           (List.length
              (SolWalletAgent.contributions_to WalletExample.the_world
                 (SolWalletAgent.top_holders_of
                    (SolWalletAgent._get_holders WalletExample.the_world "TokenA" 20%Z))
                 (SolWalletAgent.a_token_address a)))
    /\ 1 <= List.length (SolWalletAgent.holders a).
Proof.
  eexists. split; [ left; reflexivity | ].
  split; [ reflexivity | ].
  apply (aggregates_list_up_to_five_holders WalletExample.the_world "TokenA" 20).
  left. reflexivity.
Defined.

(** One holder with six tokens: the five largest are returned, the sixth is
    left out. *)
Module CrowdedExample.
Import SolWalletAgent.

Definition priced (name : string) (total : Z) : item (num := Z) :=
  {| id := Some name;
     it_token_info :=
       Some {| ti_symbol := Some name;
               ti_price_info :=
                 Some {| pi_price_per_token := Some 1%Z;
                         pi_total_price := Some total;
                         pi_currency := None |} |};
     mutable := None;
     it_content := None |}.

Definition the_world : world (num := Z) :=
  {| _get_holders := fun _ _ => [WalletExample.holder_of "w1"];
     assets_reply := fun _ =>
       HttpResponse 200
         (Some {| rpc_result :=
                    Some {| sr_total := Some 6%Z;
                            items :=
                              Some [priced "T3" 500; priced "T6" 200; priced "T1" 700;
                                    priced "T5" 300; priced "T2" 600; priced "T4" 400];
                            nativeBalance := None |} |});
     latency := fun i => i |}.

Example five_of_six_are_returned :
  map (fun a => (a_token_address a, total_holding_value a))
      (analyze_holders the_world "T1" 20)
  = [("T1", 700%Z); ("T2", 600%Z); ("T3", 500%Z); ("T4", 400%Z); ("T5", 300%Z)].
Proof. vm_compute. reflexivity. Qed.

End CrowdedExample.

Lemma left_out_tokens_rank_lower_witness :
  SolWalletAgent.contributions_to CrowdedExample.the_world
    (SolWalletAgent.top_holders_of
       (SolWalletAgent._get_holders CrowdedExample.the_world "T1" 20%Z)) "T6" <> []
  /\ ~ In "T6" (map SolWalletAgent.a_token_address
                  (SolWalletAgent.analyze_holders CrowdedExample.the_world "T1" 20))
  /\ forall a,
       In a (SolWalletAgent.analyze_holders CrowdedExample.the_world "T1" 20) ->
       nltb (SolWalletAgent.total_holding_value a)
            (sum_left
               (map SolWalletAgent.c_total_price
                  (SolWalletAgent.contributions_to CrowdedExample.the_world
                     (SolWalletAgent.top_holders_of
                        (SolWalletAgent._get_holders CrowdedExample.the_world "T1" 20%Z))
                     "T6"))) = false.
Proof.
  assert (Hheld :
            SolWalletAgent.contributions_to CrowdedExample.the_world
              (SolWalletAgent.top_holders_of
                 (SolWalletAgent._get_holders CrowdedExample.the_world "T1" 20%Z)) "T6"
            <> []) by (vm_compute; discriminate).
  assert (Hout : ~ In "T6" (map SolWalletAgent.a_token_address
                              (SolWalletAgent.analyze_holders CrowdedExample.the_world
                                 "T1" 20))).
  { vm_compute. intros [H | [H | [H | [H | [H | []]]]]]; discriminate. }
  split; [ exact Hheld | ]. split; [ exact Hout | ].
  pose proof (left_out_tokens_rank_lower (O := Z_PyNumberOrder)
                CrowdedExample.the_world "T1" 20 "T6") as H.
  cbv zeta in H. destruct (H Hheld) as [(a & Ha & Hk) | Hlower].
  - exfalso. apply Hout. rewrite <- Hk. now apply in_map.
  - exact Hlower.
Defined.

Module QuietExample.
Import SolWalletAgent.

(** The holders are known, but no wallet can be fetched. *)
Definition the_world : world (num := Z) :=
  {| _get_holders := fun _ _ => map WalletExample.holder_of ["w1"; raydium_address; "w2"];
     assets_reply := fun _ => HttpResponse 503 None;
     latency := fun i => i |}.

End QuietExample.

Lemma nothing_held_gives_no_aggregates_witness :
  SolWalletAgent.analyze_holders QuietExample.the_world "TokenA" 20 = [].
Proof.
  apply (nothing_held_gives_no_aggregates QuietExample.the_world "TokenA" 20).
  intros h _ _. reflexivity.
Defined.

Module VolumeExample.
Import BitquerySolanaTokenInfoAgent.

(** A reply in which one row has a volume that is not a number. *)
Definition odd_row : raw_bucket (num := Q) :=
  {| Block := Some {| Time := Some TradeExample.t5 |};
     raw_open := Some 1%Q;
     raw_max := Some 1%Q;
     raw_min := Some 1%Q;
     raw_close := Some 1%Q;
     raw_volume_field := Some (VolumeString "n/a") |}.

Definition rows : list (raw_bucket (num := Q)) :=
  [TradeExample.row TradeExample.t0 1 1 1 1; odd_row].

Definition response : http_response (num := Q) :=
  {| status_code := 200; text := ""; json := Ok (Some rows) |}.

End VolumeExample.

Lemma organizer_keeps_every_row_witness :
  exists response rows organized,
    TradeExample.rising = BitquerySolanaTokenInfoAgent.Responded response
    /\ BitquerySolanaTokenInfoAgent.json response = Ok (Some rows)
    /\ mapM (BitquerySolanaTokenInfoAgent.organize_bucket TradeExample.parse_float) rows
       = Ok organized
    /\ Permutation TradeExample.rising_buckets organized
    /\ List.length TradeExample.rising_buckets = List.length rows
    /\ forall b, In b TradeExample.rising_buckets ->
         exists row,
           In row rows
           /\ BitquerySolanaTokenInfoAgent.time b
              = BitquerySolanaTokenInfoAgent.Time
                  (get_or (BitquerySolanaTokenInfoAgent.Block row)
                     {| BitquerySolanaTokenInfoAgent.Time := None |})
           /\ BitquerySolanaTokenInfoAgent.open b = BitquerySolanaTokenInfoAgent.raw_open row
           /\ BitquerySolanaTokenInfoAgent.high b = BitquerySolanaTokenInfoAgent.raw_max row
           /\ BitquerySolanaTokenInfoAgent.low b = BitquerySolanaTokenInfoAgent.raw_min row
           /\ BitquerySolanaTokenInfoAgent.close b
              = BitquerySolanaTokenInfoAgent.raw_close row.
Proof.
  apply (organizer_keeps_every_row TradeExample.parse_float TradeExample.rising
           TradeExample.rising_buckets).
  vm_compute. reflexivity.
Defined.

Lemma several_buckets_all_have_a_time_witness :
  Forall (fun b => exists t, BitquerySolanaTokenInfoAgent.time b = Some t)
    TradeExample.rising_buckets.
Proof.
  apply (several_buckets_all_have_a_time TradeExample.parse_float TradeExample.rising
           TradeExample.rising_buckets).
  - vm_compute. reflexivity.
  - simpl. lia.
Defined.

Lemma unreadable_volume_fails_the_summary_witness :
  exists msg,
    BitquerySolanaTokenInfoAgent.get_token_trading_info (trending_token := unit)
      TradeExample.parse_float "2024-01-01T01:00:00"
      (BitquerySolanaTokenInfoAgent.Responded VolumeExample.response)
    = BitquerySolanaTokenInfoAgent.DataError msg.
Proof.
  apply (unreadable_volume_fails_the_summary (trending_token := unit)
           TradeExample.parse_float "2024-01-01T01:00:00" VolumeExample.response
           VolumeExample.rows VolumeExample.odd_row "n/a").
  - reflexivity.
  - reflexivity.
  - right. left. reflexivity.
  - reflexivity.
  - vm_compute. reflexivity.
Defined.

Module HolderExample.
Import SolWalletAgent HolderQuery.

(** [f"{x:.2f}"] on a rational: rounded to the nearest hundredth, a tie to
    the even one. *)
Definition two_decimals (q : Q) : string :=
  let n := (Qnum q * 100)%Z in
  let d := Zpos (Qden q) in
  let below := (n / d)%Z in
  let r := (n mod d)%Z in
  let rounded :=
    if (d <? 2 * r)%Z then (below + 1)%Z
    else if (2 * r =? d)%Z then (if Z.even below then below else below + 1)%Z
    else below in
  let cents := Z.abs rounded in
  let units := NilZero.string_of_int (Z.to_int (cents / 100)) in
  let rest := NilZero.string_of_int (Z.to_int (cents mod 100)) in
  ((if (rounded <? 0)%Z then "-" else EmptyString)
   ++ units ++ "." ++ (if (cents mod 100 <? 10)%Z then "0" ++ rest else rest))%string.

Example two_thirds_is_rounded_up : two_decimals (200 # 3) = "66.67".
Proof. vm_compute. reflexivity. Qed.

Definition account (a : string) (n : Q) : token_account (num := Q) :=
  {| owner := Some a; account_amount := Some n |}.

Definition page_with (accounts : list (token_account (num := Q))) (next : option string)
  : accounts_outcome (num := Q) :=
  AccountsResponse 200
    (Some {| accounts_result :=
               Some {| token_accounts := Some accounts; cursor := next |} |}).

Definition first_page : list (token_account (num := Q)) :=
  [account "w1" 30; account "w2" 60].

Definition second_page : list (token_account (num := Q)) := [account "w3" 10].

(** Two pages of accounts, then an empty page. *)
Definition indexer (c : option string) : accounts_outcome (num := Q) :=
  match c with
  | None => page_with first_page (Some "p2")
  | Some c =>
      if String.eqb c "p2" then page_with second_page (Some "p3")
      else page_with [] None
  end.

(** The second request times out. *)
Definition failing_indexer (c : option string) : accounts_outcome (num := Q) :=
  match c with
  | None => page_with first_page (Some "p2")
  | Some _ => AccountsFailure (Exn TimeoutError "timed out")
  end.

Definition cancelling : list (token_account (num := Q)) :=
  [account "w1" 5; account "w2" (-5)].

(** One page whose amounts add up to zero. *)
Definition zero_indexer (c : option string) : accounts_outcome (num := Q) :=
  page_with cancelling None.

Example holders_of_the_indexer :
  _get_holders two_decimals 5 indexer 2
  = Some [ {| address := "w2"; amount := 60%Q; percentage := "60.00" |};
           {| address := "w1"; amount := 30%Q; percentage := "30.00" |} ].
Proof. vm_compute. reflexivity. Qed.

Lemma indexer_serves : serves indexer None [first_page; second_page].
Proof.
  apply serves_more with (next := Some "p2").
  - eexists. repeat split.
  - discriminate.
  - reflexivity.
  - apply serves_more with (next := Some "p3").
    + eexists. repeat split.
    + discriminate.
    + reflexivity.
    + apply serves_nothing. eexists. split; [ reflexivity | right; reflexivity ].
Defined.

Lemma failing_indexer_breaks : HolderQueryFailures.breaks failing_indexer None 1.
Proof.
  apply HolderQueryFailures.breaks_later with (accounts := first_page) (next := Some "p2").
  - eexists. repeat split.
  - discriminate.
  - reflexivity.
  - apply HolderQueryFailures.breaks_raising with (e := Exn TimeoutError "timed out").
    reflexivity.
Defined.

End HolderExample.

Lemma holders_are_ranked_over_all_pages_witness :
  HolderQuery._get_holders HolderExample.two_decimals 5 HolderExample.indexer 2
  = Some match HolderQuery.rank_holders HolderExample.two_decimals 2
                 (List.concat [HolderExample.first_page; HolderExample.second_page]) with
         | Ok holders => holders
         | Raise _ => []
         end.
Proof.
  apply (holders_are_ranked_over_all_pages HolderExample.two_decimals
           HolderExample.indexer [HolderExample.first_page; HolderExample.second_page] 5 2).
  - exact HolderExample.indexer_serves.
  - simpl. lia.
Defined.

Lemma holders_are_the_largest_first_witness :
  exists holders,
    HolderQuery._get_holders HolderExample.two_decimals 5 HolderExample.indexer 2
    = Some holders
    /\ SolWalletAgent.descending_by SolWalletAgent.amount holders
    /\ List.length holders <= 2.
Proof.
  assert (E : exists holders,
             HolderQuery._get_holders HolderExample.two_decimals 5 HolderExample.indexer 2
             = Some holders).
  { vm_compute. eexists. reflexivity. }
  destruct E as [holders E]. exists holders. split; [ exact E | ].
  destruct (holders_are_the_largest_first (O := Q_PyNumberOrder)
              HolderExample.two_decimals HolderExample.indexer 5 2 holders E)
    as [Hsorted Hlength].
  split; [ exact Hsorted | ]. apply Hlength. lia.
Defined.

Lemma holder_shares_are_of_the_whole_supply_witness :
  exists holders h,
    HolderQuery._get_holders HolderExample.two_decimals 5 HolderExample.indexer 2
    = Some holders
    /\ In h holders
    /\ exists all_holders amounts account a,
        HolderQuery.fetch_accounts 5 HolderExample.indexer None [] = Some (Ok all_holders)
        /\ mapM HolderQuery.float_amount all_holders = Ok amounts
        /\ In account all_holders
        /\ HolderQuery.owner account = Some (SolWalletAgent.address h)
        /\ HolderQuery.account_amount account = Some a
        /\ SolWalletAgent.amount h = nfloat a
        /\ neqb (sum_left amounts) (nconst 0) = false
        /\ SolWalletAgent.percentage h
           = HolderExample.two_decimals
               (nmul (ntruediv (nfloat a) (sum_left amounts)) (nconst 100)).
Proof.
  assert (E : exists h rest,
             HolderQuery._get_holders HolderExample.two_decimals 5 HolderExample.indexer 2
             = Some (h :: rest)).
  { vm_compute. do 2 eexists. reflexivity. }
  destruct E as (h & rest & E). exists (h :: rest), h.
  split; [ exact E | ]. split; [ left; reflexivity | ].
  apply (holder_shares_are_of_the_whole_supply HolderExample.two_decimals
           HolderExample.indexer 5 2 (h :: rest) h E).
  left. reflexivity.
Defined.

Lemma broken_paging_gives_no_holders_witness :
  HolderQuery._get_holders HolderExample.two_decimals 5 HolderExample.failing_indexer 2
  = Some [].
Proof.
  apply (proj1 (broken_paging_gives_no_holders HolderExample.two_decimals
                  HolderExample.failing_indexer 5 2 1)).
  - exact HolderExample.failing_indexer_breaks.
  - lia.
Defined.

Lemma zero_supply_gives_no_holders_witness :
  HolderQuery._get_holders HolderExample.two_decimals 5 HolderExample.zero_indexer 20
  = Some [].
Proof.
  apply (zero_supply_gives_no_holders HolderExample.two_decimals
           HolderExample.zero_indexer 5 20 HolderExample.cancelling [5%Q; (-5)%Q]).
  - reflexivity.
  - reflexivity.
  - vm_compute. reflexivity.
Defined.

Module SwapExample.
Import SwapHistory.

(** [int(s)] on decimal literals. *)
Definition parse_int (s : string) : option Z :=
  option_map Z.of_int (NilZero.int_of_string s).

(** The digits after the point of [frac / scale], without trailing zeros. *)
Fixpoint fraction (n : nat) (frac scale : Z) : string :=
  match n with
  | O => EmptyString
  | S n' =>
      let scale' := (scale / 10)%Z in
      let rest := (frac mod scale')%Z in
      (NilZero.string_of_int (Z.to_int (frac / scale'))
       ++ (if Z.eqb rest 0 then EmptyString else fraction n' rest scale'))%string
  end.

(** [str(amount / 10**decimals)] on the amounts of this example, whose
    quotients are short decimals that [str] prints in full: the decimal
    expansion, with at least one digit after the point. *)
Definition render (amount decimals : Z) : result string :=
  let scale := (10 ^ decimals)%Z in
  let digits := fraction (Z.to_nat decimals) (amount mod scale) scale in
  Ok (NilZero.string_of_int (Z.to_int (amount / scale)) ++ "."
      ++ (if String.eqb digits EmptyString then "0" else digits))%string.

Definition token_a (amount : string) : token_transfer :=
  {| mint := Some "TokenA";
     rawTokenAmount :=
       Some {| tokenAmount := Some (AmountText amount); decimals := Some 6%Z |} |}.

Definition swap_tx (payer : string) (at_time : Z) (text : string) (s : swap)
  : transaction :=
  {| tx_type := Some "SWAP";
     tx_events := Some {| events_swap := Some s |};
     feePayer := Some payer;
     timestamp := Some at_time;
     description := Some text |}.

(** SOL paid for token A; the event lists a token input as well. *)
Definition buy : transaction :=
  swap_tx "w1" 100 "bought A"
    {| nativeInput := Some {| native_amount := Some (AmountText "1000000000") |};
       tokenInputs := Some [token_a "7"];
       nativeOutput := None;
       tokenOutputs := Some [token_a "250"] |}.

Definition sell : transaction :=
  swap_tx "w1" 200 "sold A"
    {| nativeInput := None;
       tokenInputs := Some [token_a "250"];
       nativeOutput := Some {| native_amount := Some (AmountInt 2000000000) |};
       tokenOutputs := None |}.

Definition transfer : transaction :=
  {| tx_type := Some "TRANSFER";
     tx_events := None;
     feePayer := Some "w1";
     timestamp := Some 150%Z;
     description := Some "sent SOL" |}.

(** A SWAP transaction without a swap event. *)
Definition bare : transaction :=
  {| tx_type := Some "SWAP";
     tx_events := Some {| events_swap := None |};
     feePayer := Some "w1";
     timestamp := Some 250%Z;
     description := Some "unknown swap" |}.

(** A native amount that is not a number. *)
Definition bad : transaction :=
  swap_tx "w1" 300 "garbled"
    {| nativeInput := Some {| native_amount := Some (AmountText "lots") |};
       tokenInputs := None;
       nativeOutput := None;
       tokenOutputs := Some [token_a "1"] |}.

Definition history_reply : tx_outcome := TxResponse 200 (BodyList [buy; transfer; sell; bare]).

Definition garbled_reply : tx_outcome := TxResponse 200 (BodyList [buy; bad]).

Definition bought : swap_record :=
  {| account := "w1";
     record_timestamp := 100;
     record_description := "bought A";
     token_in_address := Some SOL_ADDRESS;
     token_in_amount := Some "1.0";
     token_out_address := Some "TokenA";
     token_out_amount := Some "0.00025";
     record_type := "BUY" |}.

Definition sold : swap_record :=
  {| account := "w1";
     record_timestamp := 200;
     record_description := "sold A";
     token_in_address := Some "TokenA";
     token_in_amount := Some "0.00025";
     token_out_address := Some SOL_ADDRESS;
     token_out_amount := Some "2.0";
     record_type := "SELL" |}.

Example history_of_the_reply :
  get_tx_history parse_int render history_reply = [Swap bought; Swap sold].
Proof. vm_compute. reflexivity. Qed.

Example history_of_the_garbled_reply :
  get_tx_history parse_int render garbled_reply
  = [QueryError "Failed to query transaction history: invalid literal for int() with base 10"].
Proof. vm_compute. reflexivity. Qed.

(** The wallet agent over this history; the history endpoint is down for
    every wallet but [w1]. *)
Definition wallet_services
  : SolWalletAgent.services (num := Z) (tx_record := history_entry) :=
  {| SolWalletAgent.chain := WalletExample.the_world;
     SolWalletAgent.tx_history := fun a =>
       get_tx_history parse_int render
         (if String.eqb a "w1" then history_reply
          else TxFailure (Exn ClientError "Connection reset"));
     SolWalletAgent.call_llm_with_tools_async := fun _ => Ok None;
     SolWalletAgent.call_llm_async := fun _ _ _ => Ok "Here is what I found.";
     SolWalletAgent.json_loads := fun _ => Ok SolWalletAgent.no_args |}.

Definition history_of (a : string) : SolWalletAgent.params :=
  {| SolWalletAgent.query := None;
     SolWalletAgent.tool := Some "get_sol_tx_history";
     SolWalletAgent.tool_arguments :=
       Some {| SolWalletAgent.owner_address := Some a;
               SolWalletAgent.arg_token_address := None;
               SolWalletAgent.top_n := None |};
     SolWalletAgent.raw_data_only := None |}.

End SwapExample.

Lemma history_lists_the_swaps_in_order_witness :
  map SwapHistory.heading [SwapExample.bought; SwapExample.sold]
  = map SwapHistory.heading_of
      (filter SwapHistory.shown
         (SwapHistory.transactions_of
            (SwapHistory.BodyList
               [SwapExample.buy; SwapExample.transfer; SwapExample.sell;
                SwapExample.bare]))).
Proof.
  apply (history_lists_the_swaps_in_order SwapExample.parse_int SwapExample.render
           SwapExample.history_reply).
  - reflexivity.
  - vm_compute. reflexivity.
Defined.

Lemma swap_records_are_classified_witness :
  ((SwapHistory.record_type SwapExample.sold = "BUY"
    /\ SwapHistory.token_in_address SwapExample.sold = Some SwapHistory.SOL_ADDRESS)
   \/ (SwapHistory.record_type SwapExample.sold = "SELL"
       /\ SwapHistory.token_in_address SwapExample.sold <> Some SwapHistory.SOL_ADDRESS
       /\ SwapHistory.token_out_address SwapExample.sold = Some SwapHistory.SOL_ADDRESS)
   \/ (SwapHistory.record_type SwapExample.sold = "SWAP"
       /\ SwapHistory.token_in_address SwapExample.sold <> Some SwapHistory.SOL_ADDRESS
       /\ SwapHistory.token_out_address SwapExample.sold
          <> Some SwapHistory.SOL_ADDRESS))
  /\ present (SwapHistory.token_in_amount SwapExample.sold)
     = present (SwapHistory.token_in_address SwapExample.sold)
  /\ present (SwapHistory.token_out_amount SwapExample.sold)
     = present (SwapHistory.token_out_address SwapExample.sold).
Proof.
  apply (swap_records_are_classified SwapExample.parse_int SwapExample.render
           SwapExample.history_reply SwapExample.sold).
  right. left. reflexivity.
Defined.

Lemma native_input_makes_a_buy_witness :
  SwapHistory.record_type SwapExample.bought = "BUY"
  /\ SwapHistory.token_in_address SwapExample.bought = Some SwapHistory.SOL_ADDRESS.
Proof.
  apply (native_input_makes_a_buy SwapExample.parse_int SwapExample.render
           SwapExample.buy
           {| SwapHistory.nativeInput :=
                Some {| SwapHistory.native_amount :=
                          Some (SwapHistory.AmountText "1000000000") |};
              SwapHistory.tokenInputs := Some [SwapExample.token_a "7"];
              SwapHistory.nativeOutput := None;
              SwapHistory.tokenOutputs := Some [SwapExample.token_a "250"] |}
           SwapExample.bought).
  - reflexivity.
  - reflexivity.
  - vm_compute. reflexivity.
Defined.

Lemma one_bad_amount_fails_the_history_witness :
  exists e',
    SwapHistory.get_tx_history SwapExample.parse_int SwapExample.render
      SwapExample.garbled_reply
    = [SwapHistory.QueryError ("Failed to query transaction history: " ++ exn_str e')].
Proof.
  apply (one_bad_amount_fails_the_history SwapExample.parse_int SwapExample.render
           SwapExample.garbled_reply [SwapExample.buy; SwapExample.bad] SwapExample.bad
           (Exn ValueError "invalid literal for int() with base 10")).
  - reflexivity.
  - right. left. reflexivity.
  - reflexivity.
  - vm_compute. reflexivity.
Defined.

Lemma wallet_error_data_means_unsupported_tool_witness :
  SolWalletAgent.has_error_key
    (SolWalletAgent.DataTransactions (num := Z) [SwapHistory.Swap SwapExample.bought;
                                                 SwapHistory.Swap SwapExample.sold]) = true
  <-> ~ In "get_sol_tx_history" DispatchPaths.wallet_tools.
Proof.
  apply (wallet_error_data_means_unsupported_tool SwapExample.wallet_services
           "get_sol_tx_history"
           {| SolWalletAgent.owner_address := Some "w1";
              SolWalletAgent.arg_token_address := None;
              SolWalletAgent.top_n := None |}).
  vm_compute. reflexivity.
Defined.

Lemma failed_history_is_returned_as_data_witness :
  SolWalletAgent.handle_message SwapExample.wallet_services (SwapExample.history_of "w2")
  = ([SolWalletAgent.Operation "get_sol_tx_history"],
     SolWalletAgent.envelope ""
       (SolWalletAgent.DataTransactions
          [SwapHistory.QueryError
             ("Failed to query transaction history: "
              ++ exn_str (Exn ClientError "Request failed: Connection reset"))]))
  /\ SolWalletAgent.is_response_envelope
       (snd (SolWalletAgent.handle_message SwapExample.wallet_services
               (SwapExample.history_of "w2"))).
Proof.
  apply (failed_history_is_returned_as_data SwapExample.parse_int SwapExample.render
           SwapExample.wallet_services (SwapExample.history_of "w2") "w2"
           (SwapHistory.TxFailure (Exn ClientError "Connection reset"))
           (Exn ClientError "Request failed: Connection reset")).
  - reflexivity.
  - reflexivity.
  - reflexivity.
  - reflexivity.
Defined.

Lemma direct_call_raises_only_for_a_missing_address_witness :
  BitquerySolanaTokenInfoAgent.tool (RouteExample.token_names "get_token_trading_info")
  = Some "get_token_trading_info"
  /\ BitquerySolanaTokenInfoAgent.token_address
       (get_or (BitquerySolanaTokenInfoAgent.tool_arguments
                  (RouteExample.token_names "get_token_trading_info"))
          BitquerySolanaTokenInfoAgent.no_args) = None
  /\ Exn KeyError "'token_address'" = Exn KeyError "'token_address'"
  /\ fst (BitquerySolanaTokenInfoAgent.handle_message TradeExample.parse_float
            DispatchExample.token_services
            (RouteExample.token_names "get_token_trading_info")) = [].
Proof.
  apply (direct_call_raises_only_for_a_missing_address TradeExample.parse_float
           DispatchExample.token_services
           (RouteExample.token_names "get_token_trading_info")
           (Exn KeyError "'token_address'")).
  - reflexivity.
  - vm_compute. reflexivity.
Defined.
